(** * Belevita ROI report: the error-detection and confidence-scoring engine

    A shallow embedding of [scripts/error_detector.py],
    [scripts/conversation_analyzer.py] and, of [scripts/generate_report.py],
    the recombination step, the conversation samples and the error rate,
    with the constants of [config/settings.py].

    Conventions of the embedding.
    - The detectors and the selector read Python numbers as exact rationals
      ([Q]); [round(x, 2)] is round-half-even to hundredths on the exact
      value, and scores are compared with [==] ([Qeq]).
    - The judge's score, the recombination, the samples and the error rate
      are modelled a second time, in module [Py], on the values Python
      holds: binary64 floats with their rounding, infinities and NaN, a
      score of any JSON type, and the results rewritten in place up to the
      point where recombination raises.
    - Python dicts with a fixed set of keys are records; optional keys are
      [option] fields carrying the default of the corresponding [.get].
    - A Python exception is the [Raise] case of [Outcome].
    - Library calls whose code is not part of the repository ([str.lower],
      [str.strip], [datetime.fromisoformat], [json.loads], the generative
      model, [random.seed], [random.sample]) are section variables. *)

From Stdlib Require Import ZArith QArith Qround Qminmax Qabs Qpower Lqa Lia.
From Stdlib Require Import List String Ascii Bool Permutation Morphisms Sorted.
Import ListNotations.

Local Open Scope string_scope.
Local Open Scope Q_scope.

(* ===================================================================== *)
(** * Python runtime pieces used by the scripts *)
(* ===================================================================== *)

(** Exceptions the scripts raise or catch. *)
Inductive exn : Type :=
  | KeyError (key : string)
  | JSONDecodeError (msg : string)
  | Exception (msg : string).

(** [str(e)] *)
Definition str_of_exn (e : exn) : string :=
  match e with
  | KeyError k => k
  | JSONDecodeError m => m
  | Exception m => m
  end.

(** [str(e)] of the UnboundLocalError raised where [response_text] is read
    before any assignment to it (the wording of Python 3.11 and later). *)
Definition unbound_response_text : string :=
  "cannot access local variable 'response_text' where it is not associated with a value".

Inductive Outcome (A : Type) : Type :=
  | Ok (a : A)
  | Raise (e : exn).
Arguments Ok {A} a.
Arguments Raise {A} e.

Definition bind {A B : Type} (c : Outcome A) (k : A -> Outcome B) : Outcome B :=
  match c with
  | Ok a => k a
  | Raise e => Raise e
  end.

Notation "x <- c ;; k" := (bind c (fun x => k))
  (at level 61, c at next level, right associativity).

(** [for x in xs: st = body(st, x)], where the body may raise. *)
Fixpoint for_each {A S : Type} (body : S -> A -> Outcome S) (xs : list A) (st : S)
  : Outcome S :=
  match xs with
  | [] => Ok st
  | x :: xs' => st' <- body st x ;; for_each body xs' st'
  end.

Definition Qltb (x y : Q) : bool := negb (Qle_bool y x).

(** [round(x, 2)]: the nearest hundredth, ties to the even one.
    [hundredths x] is the whole number of hundredths it lands on. *)
Definition hundredths (x : Q) : Z :=
  let y := (x * 100)%Q in
  let n := Qfloor y in
  match (y - inject_Z n ?= 1 # 2)%Q with
  | Lt => n
  | Gt => (n + 1)%Z
  | Eq => if Z.even n then n else (n + 1)%Z
  end.

Definition py_round2 (x : Q) : Q := inject_Z (hundredths x) / 100.

(** [int(x)]: truncation towards zero. *)
Definition py_int (x : Q) : Z := Z.quot (Qnum x) (Zpos (Qden x)).

(** [sum(xs)] *)
Definition py_sum (xs : list Q) : Q := fold_left Qplus xs 0.

(** [needle in hay] on strings. *)
Fixpoint contains (needle hay : string) : bool :=
  if prefix needle hay then true
  else match hay with
       | EmptyString => false
       | String _ hay' => contains needle hay'
       end.

(** Truthiness of a string and of an optional string ([None] and [''] are
    falsy). *)
Definition nonempty (s : string) : bool :=
  match s with EmptyString => false | _ => true end.

Definition truthy (o : option string) : bool :=
  match o with Some s => nonempty s | None => false end.

(** [hay.find(needle, start)]: lowest index at or after [start], or [-1]. *)
Fixpoint find_at (needle hay : string) (pos : Z) : Z :=
  if prefix needle hay then pos
  else match hay with
       | EmptyString => (-1)%Z
       | String _ hay' => find_at needle hay' (pos + 1)%Z
       end.

Fixpoint drop (n : nat) (s : string) : string :=
  match n, s with
  | O, _ => s
  | S n', String _ s' => drop n' s'
  | S _, EmptyString => EmptyString
  end.

Definition py_find (hay needle : string) (start : Z) : Z :=
  if (Z.of_nat (String.length hay) <? start)%Z then (-1)%Z
  else find_at needle (drop (Z.to_nat start) hay) start.

(** [s[a:b]] with Python's treatment of negative and oversized bounds. *)
Definition py_slice (s : string) (a b : Z) : string :=
  let n := Z.of_nat (String.length s) in
  let norm i := if (i <? 0)%Z then Z.max 0 (n + i) else Z.min i n in
  substring (Z.to_nat (norm a)) (Z.to_nat (norm b - norm a)) s.

(** Number of distinct elements: [len(set(xs))]. *)
Definition len_set (xs : list string) : nat :=
  List.length (nodup string_dec xs).

(** ASCII instances of [str.lower] and [str.strip], used to run the model on
    concrete sessions. *)
Definition ascii_lower_char (c : ascii) : ascii :=
  let n := nat_of_ascii c in
  if ((65 <=? n) && (n <=? 90))%nat then ascii_of_nat (n + 32) else c.

Fixpoint ascii_lower (s : string) : string :=
  match s with
  | EmptyString => EmptyString
  | String c s' => String (ascii_lower_char c) (ascii_lower s')
  end.

Definition is_space (c : ascii) : bool :=
  let n := nat_of_ascii c in
  ((n =? 32) || ((9 <=? n) && (n <=? 13)))%nat.

Fixpoint lstrip (s : string) : string :=
  match s with
  | String c s' => if is_space c then lstrip s' else s
  | EmptyString => EmptyString
  end.

Fixpoint rstrip (s : string) : string :=
  match s with
  | EmptyString => EmptyString
  | String c s' =>
      match rstrip s' with
      | EmptyString => if is_space c then EmptyString else String c EmptyString
      | r => String c r
      end
  end.

Definition ascii_strip (s : string) : string := rstrip (lstrip s).

(* ===================================================================== *)
(** * config/settings.py *)
(* ===================================================================== *)

Record Weights : Type := {
  phrase_matching : Q;
  behavioral_patterns : Q;
  ai_analysis : Q;
  sentiment_correlation : Q
}.

Record Thresholds : Type := {
  high : Q;
  medium : Q
}.

Record Settings : Type := {
  ERROR_DETECTION_SAMPLE_RATE : Q;
  AI_ANALYSIS_BATCH_SIZE : nat;
  ERROR_WEIGHTS : Weights;
  ERROR_THRESHOLDS : Thresholds;
  SHORT_CONVERSATION_THRESHOLD : Z;
  RAPID_ABANDONMENT_THRESHOLD : Q;
  STUCK_SESSION_THRESHOLD : Q
}.

(** The values shipped in settings.py. *)
Definition settings : Settings := {|
  ERROR_DETECTION_SAMPLE_RATE := 15 # 100;
  AI_ANALYSIS_BATCH_SIZE := 50;
  ERROR_WEIGHTS := {| phrase_matching := 30 # 100;
                      behavioral_patterns := 25 # 100;
                      ai_analysis := 35 # 100;
                      sentiment_correlation := 10 # 100 |};
  ERROR_THRESHOLDS := {| high := 70; medium := 40 |};
  SHORT_CONVERSATION_THRESHOLD := 3;
  RAPID_ABANDONMENT_THRESHOLD := 120;
  STUCK_SESSION_THRESHOLD := 1800
|}.

(* ===================================================================== *)
(** * Data model *)
(* ===================================================================== *)

(** [msg['message']]: the keys [type] and [content], both read with [.get]. *)
Record Message : Type := {
  msg_type : option string;
  msg_content : option string
}.

Record datetime : Type := {
  epoch_seconds : Q;
  tz_aware : bool
}.

(** A timestamp field holds an ISO string or an already parsed datetime. *)
Inductive Timestamp : Type :=
  | TsString (s : string)
  | TsDatetime (d : datetime).

Record Session : Type := {
  id : Z;
  status : option string;
  started_at : option Timestamp;
  ended_at : option Timestamp;
  analyse_sentimental : option string;
  messages : list Message;
  message_count : Z
}.

(** Category name mapped to its phrases, in the order of [dict.items()]. *)
Definition Lexicon : Type := list (string * list string).

Record MatchedPhrase : Type := {
  mp_phrase : string;
  mp_category : string;
  mp_message_type : string
}.

(** The [categories] counter dict of detect_phrase_errors: three fixed keys. *)
Record Categories : Type := {
  error_indicators : nat;
  frustration_indicators : nat;
  escalation_phrases : nat
}.

Record PhraseResult : Type := {
  p_score : Q;
  matched_phrases : list MatchedPhrase;
  categories : option Categories;   (* [None] is the empty dict *)
  total_matches : nat
}.

Record BehavioralResult : Type := {
  b_score : Q;
  patterns : list string;
  pattern_count : nat
}.

Record SentimentResult : Type := {
  s_score : Q;
  sentiment : option string
}.

Inductive ConfidenceLevel : Type := Low | Medium | High.

(** The result dict of conversation_analyzer.analyze_conversation. *)
Record JudgeDetails : Type := {
  resolved : bool;
  understood : bool;
  had_errors : bool;
  error_description : string;
  quality : string;
  reasoning : string;
  ai_message_count : nat
}.

Record AIResult : Type := {
  ai_session_id : Z;
  analyzed : bool;
  ai_error : option string;
  ai_score : Q;
  ai_details : option JudgeDetails
}.

(** The result dict of analyze_session.  Its keys [behavioral_patterns] and
    [sentiment_correlation] are named [behavioral_results] and
    [sentiment_results] here, apart from the weights of the same name. *)
Record EnsembleResult : Type := {
  session_id : Z;
  confidence_score : Q;
  confidence_level : ConfidenceLevel;
  phrase_detection : PhraseResult;
  behavioral_results : BehavioralResult;
  sentiment_results : SentimentResult;
  has_error : bool;
  ai_attached : option AIResult       (* the key [ai_analysis], absent at first *)
}.

Record ErrorDetector : Type := {
  error_phrases : Lexicon;
  weights : Weights;
  thresholds : Thresholds
}.

Definition Qnat (n : nat) : Q := inject_Z (Z.of_nat n).

Definition is_status (s : Session) (v : string) : bool :=
  match status s with
  | Some x => String.eqb x v
  | None => false
  end.

Definition ts_truthy (t : option Timestamp) : bool :=
  match t with
  | Some (TsString s) => nonempty s
  | Some (TsDatetime _) => true
  | None => false
  end.

(** [s.replace('Z', '+00:00')] *)
Fixpoint replace_Z (s : string) : string :=
  match s with
  | EmptyString => EmptyString
  | String c s' =>
      if Ascii.eqb c "Z"%char then "+00:00" ++ replace_Z s'
      else String c (replace_Z s')
  end.

(** [(ended_dt - started_dt).total_seconds()]; mixing an aware and a naive
    datetime raises TypeError ([None]). *)
Definition total_seconds_between (ended started : datetime) : option Q :=
  if Bool.eqb (tz_aware ended) (tz_aware started)
  then Some (epoch_seconds ended - epoch_seconds started)
  else None.

(* ===================================================================== *)
(** * scripts/error_detector.py *)
(* ===================================================================== *)

Section Engine.

(** [str.lower], [str.strip]. *)
Variable lower : string -> string.
Variable strip : string -> string.
(** [datetime.fromisoformat]; [None] stands for its ValueError. *)
Variable fromisoformat : string -> option datetime.
(** The module globals imported from config.settings. *)
Variable cfg : Settings.

(** ErrorDetector.__init__, given the outcome of load_error_phrases (the
    open/json.load of the phrase file, which may raise). *)
Definition ErrorDetector_init (loaded : Outcome Lexicon) : Outcome ErrorDetector :=
  phrases <- loaded ;;
  Ok {| error_phrases := phrases;
        weights := ERROR_WEIGHTS cfg;
        thresholds := ERROR_THRESHOLDS cfg |}.

(** ** detect_phrase_errors *)

(** [categories[category] += 1], a KeyError on any other key. *)
Definition incr_category (category : string) (c : Categories) : Outcome Categories :=
  if String.eqb category "error_indicators" then
    Ok {| error_indicators := S (error_indicators c);
          frustration_indicators := frustration_indicators c;
          escalation_phrases := escalation_phrases c |}
  else if String.eqb category "frustration_indicators" then
    Ok {| error_indicators := error_indicators c;
          frustration_indicators := S (frustration_indicators c);
          escalation_phrases := escalation_phrases c |}
  else if String.eqb category "escalation_phrases" then
    Ok {| error_indicators := error_indicators c;
          frustration_indicators := frustration_indicators c;
          escalation_phrases := S (escalation_phrases c) |}
  else Raise (KeyError category).

Definition PhraseState : Type := (list MatchedPhrase * Categories)%type.

Definition message_type_of (m : Message) : string :=
  match msg_type m with Some t => t | None => "unknown" end.

Definition content_of (m : Message) : string :=
  match msg_content m with Some c => c | None => "" end.

(** Body of [for phrase in phrases]. *)
Definition check_phrase (content mtype category : string)
    (st : PhraseState) (phrase : string) : Outcome PhraseState :=
  if contains (lower phrase) content then
    let matched := (fst st ++ [ {| mp_phrase := phrase;
                                   mp_category := category;
                                   mp_message_type := mtype |} ])%list in
    cats <- incr_category category (snd st) ;;
    Ok (matched, cats)
  else Ok st.

(** Body of [for category, phrases in self.error_phrases.items()]. *)
Definition check_category (content mtype : string)
    (st : PhraseState) (item : string * list string) : Outcome PhraseState :=
  for_each (check_phrase content mtype (fst item)) (snd item) st.

(** Body of [for msg in messages]. *)
Definition scan_message (lex : Lexicon) (st : PhraseState) (msg : Message)
  : Outcome PhraseState :=
  let content := lower (content_of msg) in
  if negb (nonempty content) then Ok st
  else for_each (check_category content (message_type_of msg)) lex st.

Definition weighted_score (c : Categories) : Q :=
  Qnat (error_indicators c) * 1 +
  Qnat (frustration_indicators c) * (15 # 10) +
  Qnat (escalation_phrases c) * 2.

Definition detect_phrase_errors (self : ErrorDetector) (session : Session)
  : Outcome PhraseResult :=
  match messages session with
  | [] => Ok {| p_score := 0; matched_phrases := [];
                categories := None; total_matches := 0 |}
  | msgs =>
      st <- for_each (scan_message (error_phrases self)) msgs
              ([], {| error_indicators := 0; frustration_indicators := 0;
                      escalation_phrases := 0 |}) ;;
      let total := List.length (fst st) in
      let score := if Nat.eqb total 0 then 0
                   else Qmin 100 (weighted_score (snd st) * 10) in
      Ok {| p_score := py_round2 score;
            matched_phrases := fst st;
            categories := Some (snd st);
            total_matches := total |}
  end.

(** ** detect_behavioral_errors *)

Definition BehavioralState : Type := (list string * list Q)%type.

(** [patterns_detected.append(name); score_components.append(c)] *)
Definition push (name : string) (c : Q) (st : BehavioralState) : BehavioralState :=
  ((fst st ++ [name])%list, (snd st ++ [c])%list).

Definition as_datetime (t : Timestamp) : option datetime :=
  match t with
  | TsString s => fromisoformat (replace_Z s)
  | TsDatetime d => Some d
  end.

(** The body of the [try] up to [duration]; [None] when the guard
    [if started_at and ended_at] fails or ValueError/TypeError is caught. *)
Definition session_duration (session : Session) : option Q :=
  if ts_truthy (started_at session) && ts_truthy (ended_at session) then
    match started_at session, ended_at session with
    | Some st, Some en =>
        match as_datetime st with
        | Some started_dt =>
            match as_datetime en with
            | Some ended_dt => total_seconds_between ended_dt started_dt
            | None => None
            end
        | None => None
        end
    | _, _ => None
    end
  else None.

(** The [human_messages] list of pattern 4. *)
Fixpoint human_contents (msgs : list Message) : list string :=
  match msgs with
  | [] => []
  | m :: rest =>
      match msg_type m with
      | Some t =>
          if String.eqb t "human" then
            let content := lower (strip (content_of m)) in
            if nonempty content then content :: human_contents rest
            else human_contents rest
          else human_contents rest
      | None => human_contents rest
      end
  end.

Definition behavioral_state (session : Session) : BehavioralState :=
  let st : BehavioralState := ([], []) in
  (* Pattern 1 *)
  let mc := message_count session in
  let st := if ((0 <? mc) && (mc <? SHORT_CONVERSATION_THRESHOLD cfg))%Z
            then push "short_conversation" 30 st else st in
  (* Patterns 2 and 3 *)
  let st := match session_duration session with
            | Some duration =>
                if Qltb 0 duration && Qltb duration (RAPID_ABANDONMENT_THRESHOLD cfg)
                then push "rapid_abandonment" 40 st
                else if is_status session "active"
                        && Qltb (STUCK_SESSION_THRESHOLD cfg) duration
                then push "stuck_session" 35 st
                else st
            | None => st
            end in
  (* Pattern 4 *)
  let st := match messages session with
            | [] => st
            | msgs =>
                let human_messages := human_contents msgs in
                if (2 <=? List.length human_messages)%nat then
                  let duplicates :=
                    (List.length human_messages - len_set human_messages)%nat in
                  if (0 <? duplicates)%nat
                  then push "repeated_messages" (25 * Qnat (Nat.min duplicates 3)) st
                  else st
                else st
            end in
  (* Pattern 5 *)
  let st := if is_status session "failed"
            then push "failed_session" 50 st else st in
  let st := if negb (truthy (analyse_sentimental session)) && is_status session "active"
            then push "no_sentiment_analysis" 10 st else st in
  st.

Definition detect_behavioral_errors (session : Session) : BehavioralResult :=
  let st := behavioral_state session in
  let score_components := snd st in
  let score := match score_components with
               | [] => 0
               | _ => Qmin 100 (py_sum score_components
                                / Qnat (List.length score_components))
               end in
  {| b_score := py_round2 score;
     patterns := fst st;
     pattern_count := List.length (fst st) |}.

(** ** detect_sentiment_errors (the [reasoning] text is not modelled) *)

Definition detect_sentiment_errors (session : Session) : SentimentResult :=
  let raw_sentiment := analyse_sentimental session in
  let sentiment :=
    strip (lower (match raw_sentiment with
                  | Some s => if nonempty s then s else ""
                  | None => "" end)) in
  let score := if String.eqb sentiment "negativo" then 80
               else if String.eqb sentiment "neutro" then 15
               else if String.eqb sentiment "positivo" then 5
               else 15 in
  {| s_score := score; sentiment := raw_sentiment |}.

(** ** calculate_combined_score *)

Definition calculate_combined_score (self : ErrorDetector)
    (phrase_result : PhraseResult) (behavioral_result : BehavioralResult)
    (sentiment_result : SentimentResult) : Q :=
  let w := weights self in
  let combined :=
    p_score phrase_result * phrase_matching w +
    b_score behavioral_result * behavioral_patterns w +
    s_score sentiment_result * sentiment_correlation w in
  let available_weight :=
    py_sum [phrase_matching w; behavioral_patterns w; sentiment_correlation w] in
  let combined := if Qltb 0 available_weight
                  then combined / available_weight else combined in
  Qmin 100 (py_round2 combined).

(** ** analyze_session *)

Definition classify (high_t medium_t score : Q) : ConfidenceLevel :=
  if Qle_bool high_t score then High
  else if Qle_bool medium_t score then Medium
  else Low.

Definition analyze_session (self : ErrorDetector) (session : Session)
  : Outcome EnsembleResult :=
  phrase_result <- detect_phrase_errors self session ;;
  let behavioral_result := detect_behavioral_errors session in
  let sentiment_result := detect_sentiment_errors session in
  let combined_score :=
    calculate_combined_score self phrase_result behavioral_result sentiment_result in
  Ok {| session_id := id session;
        confidence_score := combined_score;
        confidence_level :=
          classify (high (thresholds self)) (medium (thresholds self)) combined_score;
        phrase_detection := phrase_result;
        behavioral_results := behavioral_result;
        sentiment_results := sentiment_result;
        has_error := Qle_bool (medium (thresholds self)) combined_score;
        ai_attached := None |}.

End Engine.

(** ** analyze_all_sessions *)

Record Analysis : Type := {
  total_sessions : nat;
  analyzed_sessions : nat;
  high_confidence_errors : nat;
  medium_confidence_errors : nat;
  low_confidence_errors : nat;
  error_categories : list (string * nat);   (* a Counter, in insertion order *)
  results : list EnsembleResult;
  methods_used : list string;
  ai_analyzed_sessions : option nat
}.

(** [counter[key] += 1] on a collections.Counter. *)
Fixpoint counter_incr (key : string) (c : list (string * nat)) : list (string * nat) :=
  match c with
  | [] => [(key, 1%nat)]
  | (k, n) :: c' =>
      if String.eqb k key then (k, S n) :: c' else (k, n) :: counter_incr key c'
  end.

Definition level_eqb (a b : ConfidenceLevel) : bool :=
  match a, b with
  | Low, Low | Medium, Medium | High, High => true
  | _, _ => false
  end.

Definition count_level (l : ConfidenceLevel) (rs : list EnsembleResult) : nat :=
  List.length (filter (fun r => level_eqb (confidence_level r) l) rs).

Section Batch.

Variable lower : string -> string.
Variable strip : string -> string.
Variable fromisoformat : string -> option datetime.
Variable cfg : Settings.

(** Body of [for session in sessions] in analyze_all_sessions. *)
Definition analyze_step (self : ErrorDetector)
    (st : list EnsembleResult * list (string * nat)) (session : Session)
  : Outcome (list EnsembleResult * list (string * nat)) :=
  result <- analyze_session lower strip fromisoformat cfg self session ;;
  let cats := snd st in
  let cats :=
    if has_error result then
      let cats := fold_left (fun c p => counter_incr p c)
                            (patterns (behavioral_results result)) cats in
      if (0 <? total_matches (phrase_detection result))%nat
      then counter_incr "phrase_matches" cats else cats
    else cats in
  Ok ((fst st ++ [result])%list, cats).

Definition analyze_all_sessions (self : ErrorDetector) (sessions : list Session)
  : Outcome Analysis :=
  st <- for_each (analyze_step self) sessions ([], []) ;;
  let rs := fst st in
  Ok {| total_sessions := List.length sessions;
        analyzed_sessions := List.length rs;
        high_confidence_errors := count_level High rs;
        medium_confidence_errors := count_level Medium rs;
        low_confidence_errors := count_level Low rs;
        error_categories := snd st;
        results := rs;
        methods_used := ["phrase_matching"; "behavioral_patterns";
                         "sentiment_correlation"];
        ai_analyzed_sessions := None |}.

End Batch.

(* ===================================================================== *)
(** * scripts/conversation_analyzer.py *)
(* ===================================================================== *)

(** The JSON object the judge is asked for; every key is read with [.get]. *)
Record JudgePayload : Type := {
  j_error_score : option Q;
  j_resolved : option bool;
  j_understood : option bool;
  j_had_errors : option bool;
  j_error_description : option string;
  j_quality : option string;
  j_reasoning : option string
}.

(** What [json.loads] can return: an object, or some other JSON value (on
    which [.get] raises AttributeError). *)
Inductive JsonValue : Type :=
  | JObject (p : JudgePayload)
  | JNotObject.

Definition newline : string := String (ascii_of_nat 10) EmptyString.

Definition format_line (m : Message) : string :=
  let content := match msg_content m with Some c => c | None => "" end in
  let msg_type := match msg_type m with Some t => t | None => "unknown" end in
  if String.eqb msg_type "human" then "Cliente: " ++ content
  else if String.eqb msg_type "ai" then "IA (Juliana): " ++ content
  else "[" ++ msg_type ++ "]: " ++ content.

Definition format_conversation (msgs : list Message) : string :=
  String.concat (newline ++ newline) (map format_line msgs).

(** The degraded record returned by every exception handler. *)
Definition degraded (sid : Z) (reason : string) (score : Q) : AIResult :=
  {| ai_session_id := sid; analyzed := false; ai_error := Some reason;
     ai_score := score; ai_details := None |}.

Definition or_default {A : Type} (o : option A) (d : A) : A :=
  match o with Some a => a | None => d end.

Section Analyzer.

Variable strip : string -> string.
(** The prompt f-string around the formatted conversation. *)
Variable prompt_of : string -> string.
(** [json.loads]; it raises JSONDecodeError on malformed text. *)
Variable json_loads : string -> Outcome JsonValue.

(** Stripping of the code fences around the payload. *)
Definition extract_json (response_text : string) : string :=
  if contains "```json" response_text then
    let json_start := (py_find response_text "```json" 0 + 7)%Z in
    let json_end := py_find response_text "```" json_start in
    strip (py_slice response_text json_start json_end)
  else if contains "```" response_text then
    let json_start := (py_find response_text "```" 0 + 3)%Z in
    let json_end := py_find response_text "```" json_start in
    strip (py_slice response_text json_start json_end)
  else response_text.

(** The [try] block once [response_text] is bound: fence stripping,
    [json.loads] and the construction of the result. *)
Definition parse_response (session : Session) (msgs : list Message)
    (response_text : string) : Outcome AIResult :=
  analysis <- json_loads (extract_json response_text) ;;
  match analysis with
  | JNotObject => Raise (Exception "object has no attribute get")
  | JObject a =>
      Ok {| ai_session_id := id session;
            analyzed := true;
            ai_error := None;
            ai_score := or_default (j_error_score a) 50;
            ai_details := Some
              {| resolved := or_default (j_resolved a) false;
                 understood := or_default (j_understood a) true;
                 had_errors := or_default (j_had_errors a) false;
                 error_description := or_default (j_error_description a) "";
                 quality := or_default (j_quality a) "razoavel";
                 reasoning := or_default (j_reasoning a) "";
                 ai_message_count := List.length msgs |} |}
  end.

(** analyze_conversation.  [generate_content] is this call to the generative
    model, from the prompt to [response.text], or the exception raised on
    the way.  The handler of JSONDecodeError prints [response_text]: when
    the exception comes from the model call that name is unbound and the
    handler raises in turn; every other exception ends in a degraded
    record. *)
Definition analyze_conversation (generate_content : string -> Outcome string)
    (session : Session) : Outcome AIResult :=
  match messages session with
  | [] => Ok (degraded (id session) "No messages found" 0)
  | msgs =>
      match generate_content (prompt_of (format_conversation msgs)) with
      | Ok response =>
          match parse_response session msgs (strip response) with
          | Ok r => Ok r
          | Raise (JSONDecodeError m) =>
              Ok (degraded (id session) ("JSON parsing error: " ++ m) 50)
          | Raise e => Ok (degraded (id session) (str_of_exn e) 50)
          end
      | Raise (JSONDecodeError _) =>
          Raise (Exception unbound_response_text)
      | Raise e => Ok (degraded (id session) (str_of_exn e) 50)
      end
  end.

(** ** analyze_sessions_parallel *)

(** A future: the submitted session and what [future.result()] gives. *)
Definition Future : Type := (Session * Outcome AIResult)%type.

(** [executor.submit(self.analyze_conversation, session)] for each session;
    [generate_content i] is the model call made for the i-th submission. *)
Fixpoint submit_from (generate_content : nat -> string -> Outcome string)
    (i : nat) (sessions : list Session) : list Future :=
  match sessions with
  | [] => []
  | s :: rest =>
      (s, analyze_conversation (generate_content i) s)
        :: submit_from generate_content (S i) rest
  end.

(** Body of [for future in as_completed(futures)]. *)
Definition collect (f : Future) : AIResult :=
  match snd f with
  | Ok result => result
  | Raise e => degraded (id (fst f)) (str_of_exn e) 50
  end.

(** What the batch records for one session. *)
Definition session_result (generate_content : string -> Outcome string)
    (s : Session) : AIResult :=
  collect (s, analyze_conversation generate_content s).

(** [as_completed] yields the futures in the order the workers finish. *)
Variable as_completed : list Future -> list Future.

Definition analyze_sessions_parallel
    (generate_content : nat -> string -> Outcome string)
    (sessions : list Session) : list AIResult :=
  map collect (as_completed (submit_from generate_content 0 sessions)).

End Analyzer.

(** ** select_sessions_for_analysis *)

Definition id_in (k : Z) (selected : list Session) : bool :=
  existsb (Z.eqb k) (map id selected).

(** [sessions_dict = {s['id']: s for s in sessions}]: the last session with
    a given id. *)
Definition sessions_dict_get (sessions : list Session) (k : Z) : option Session :=
  find (fun s => Z.eqb (id s) k) (rev sessions).

Definition has_sentiment (s : Session) (v : string) : bool :=
  match analyse_sentimental s with
  | Some x => String.eqb x v
  | None => false
  end.

(** The comprehension over [error_detection_results['results']] of
    priorities 1 and 3. *)
Definition results_at_level (sessions : list Session) (rs : list EnsembleResult)
    (l : ConfidenceLevel) (selected : list Session) : list Session :=
  flat_map (fun r =>
    if level_eqb (confidence_level r) l then
      match sessions_dict_get sessions (session_id r) with
      | Some s => if negb (id_in (id s) selected) then [s] else []
      | None => []
      end
    else []) rs.

Section Selection.

Variable cfg : Settings.
(** The state of the process-wide generator of the [random] module. *)
Variable RNG : Type.
(** [random.seed(n)] replaces that state. *)
Variable seed : Z -> RNG.
(** [random.sample(population, k)], called with [0 <= k <= len]. *)
Variable sample : RNG -> list Session -> nat -> list Session * RNG.

Definition sample_size (n : nat) (rate : Q) : nat :=
  Z.to_nat (Z.min (py_int (Qnat n * rate)) (Z.of_nat n)).

(** Priorities 1 to 4: the selection before the fill, and the generator
    state after the two samples. *)
Definition select_priorities (g0 : RNG) (sessions : list Session)
    (rs : list EnsembleResult) : list Session * RNG :=
  let g := g0 in
  let selected : list Session := [] in
  (* Priority 1 *)
  let high_confidence := results_at_level sessions rs High [] in
  let selected := (selected ++ high_confidence)%list in
  (* Priority 2 *)
  let negative_sentiment :=
    filter (fun s => has_sentiment s "Negativo" && negb (id_in (id s) selected))
           sessions in
  let selected := (selected ++ negative_sentiment)%list in
  (* Priority 3 *)
  let medium_confidence := results_at_level sessions rs Medium selected in
  let g := seed 42 in                       (* random.seed(42) *)
  let (medium_sample, g) :=
    sample g medium_confidence
           (sample_size (List.length medium_confidence) (3 # 10)) in
  let selected := (selected ++ medium_sample)%list in
  (* Priority 4 *)
  let neutral_sessions :=
    filter (fun s => has_sentiment s "Neutro" && negb (id_in (id s) selected))
           sessions in
  let (neutral_sample, g) :=
    sample g neutral_sessions
           (sample_size (List.length neutral_sessions) (1 # 10)) in
  ((selected ++ neutral_sample)%list, g).

Definition target_total (sessions : list Session) : Z :=
  py_int (Qnat (List.length sessions) * ERROR_DETECTION_SAMPLE_RATE cfg).

(** The whole method.  [g0] is the generator state on entry; the result
    carries the state on exit.  The last [print] divides by
    [len(sessions)]. *)
Definition select_sessions_for_analysis (g0 : RNG) (sessions : list Session)
    (rs : list EnsembleResult) : Outcome (list Session) * RNG :=
  let (selected, g) := select_priorities g0 sessions rs in
  (* Priority 5 *)
  let remaining_needed :=
    Z.max 0 (target_total sessions - Z.of_nat (List.length selected)) in
  let (selected, g) :=
    if (0 <? remaining_needed)%Z then
      let remaining_sessions :=
        filter (fun s => negb (id_in (id s) selected)) sessions in
      let (random_sample, g) :=
        sample g remaining_sessions
               (Z.to_nat (Z.min remaining_needed
                                (Z.of_nat (List.length remaining_sessions)))) in
      ((selected ++ random_sample)%list, g)
    else (selected, g) in
  match sessions with
  | [] => (Raise (Exception "division by zero"), g)
  | _ => (Ok selected, g)
  end.

End Selection.

Arguments select_priorities {RNG} seed sample g0 sessions rs.
Arguments select_sessions_for_analysis cfg {RNG} seed sample g0 sessions rs.

(* ===================================================================== *)
(** * scripts/generate_report.py: combine_error_analyses *)
(* ===================================================================== *)

(** [ai_results_dict = {r['session_id']: r for r in ai_analysis if
    r.get('analyzed')}], read at key [k]. *)
Definition ai_results_dict_get (ai : list AIResult) (k : Z) : option AIResult :=
  find (fun r => Z.eqb (ai_session_id r) k) (rev (filter analyzed ai)).

Definition ai_results_dict_len (ai : list AIResult) : nat :=
  List.length (nodup Z.eq_dec (map ai_session_id (filter analyzed ai))).

Section Report.

(** The module global ERROR_WEIGHTS. *)
Variable cfg : Settings.

(** The body of [if session_id in ai_results_dict], for an error_score that
    is a number and with the arithmetic carried out exactly.  The same body
    on doubles, for a score of any JSON type, is [Py.recombined_score]; it
    is the one the statements about the stored score are made on. *)
Definition recombined_score (result : EnsembleResult) (ai_result : AIResult) : Q :=
  let w := ERROR_WEIGHTS cfg in
  let basic_score :=
    p_score (phrase_detection result) * phrase_matching w +
    b_score (behavioral_results result) * behavioral_patterns w +
    s_score (sentiment_results result) * sentiment_correlation w in
  let ai_score := ai_score ai_result * ai_analysis w in
  basic_score + ai_score.

Definition update_result (result : EnsembleResult) (ai_result : AIResult)
  : EnsembleResult :=
  let combined_score := recombined_score result ai_result in
  {| session_id := session_id result;
     confidence_score := py_round2 combined_score;
     confidence_level := classify 70 40 combined_score;
     phrase_detection := phrase_detection result;
     behavioral_results := behavioral_results result;
     sentiment_results := sentiment_results result;
     has_error := Qle_bool 40 combined_score;
     ai_attached := Some ai_result |}.

(** Body of [for result in basic_analysis['results']]. *)
Definition combine_result (ai : list AIResult) (result : EnsembleResult)
  : EnsembleResult :=
  match ai_results_dict_get ai (session_id result) with
  | Some ai_result => update_result result ai_result
  | None => result
  end.

Definition combine_error_analyses (basic_analysis : Analysis)
    (ai_analysis : option (list AIResult)) : Analysis :=
  match ai_analysis with
  | None | Some [] => basic_analysis
  | Some ai =>
      let rs := map (combine_result ai) (results basic_analysis) in
      {| total_sessions := total_sessions basic_analysis;
         analyzed_sessions := analyzed_sessions basic_analysis;
         high_confidence_errors := count_level High rs;
         medium_confidence_errors := count_level Medium rs;
         low_confidence_errors := count_level Low rs;
         error_categories := error_categories basic_analysis;
         results := rs;
         methods_used := (methods_used basic_analysis ++ ["ai_analysis"])%list;
         ai_analyzed_sessions := Some (ai_results_dict_len ai) |}
  end.

End Report.

(** ** generate_conversation_samples: what it reads *)

(** [xs[:n]], a negative [n] counting from the end. *)
Definition py_take {A : Type} (n : Z) (l : list A) : list A :=
  if (n <? 0)%Z then firstn (Z.to_nat (Z.of_nat (List.length l) + n)) l
  else firstn (Z.to_nat n) l.

(** [session['lead']]: the keys [name] and [phone], read with [.get]. *)
Record Lead : Type := {
  lead_name : option string;
  lead_phone : option string
}.

(** ** main: the AI analysis step *)

(** ConversationAnalyzer.__init__: [api_key or GOOGLE_API_KEY], a ValueError
    when neither is set. *)
Definition ConversationAnalyzer_init (api_key google_api_key : option string)
  : Outcome string :=
  let key := if truthy api_key then api_key else google_api_key in
  match key with
  | Some k => if nonempty k then Ok k
              else Raise (Exception "Google API key not found")
  | None => Raise (Exception "Google API key not found")
  end.

Section Main.

Variable strip : string -> string.
Variable prompt_of : string -> string.
Variable json_loads : string -> Outcome JsonValue.
Variable as_completed : list Future -> list Future.
Variable cfg : Settings.
Variable RNG : Type.
Variable seed : Z -> RNG.
Variable sample : RNG -> list Session -> nat -> list Session * RNG.

(** Step 4 of main: select, judge, recombine, for judgments whose scores
    are numbers (recombination then returns); an exception of the analyzer
    or the selector leaves the basic analysis in place.  The step for
    scores of any JSON type, where recombination may raise midway, is
    [Py.ai_analysis_step]. *)
Definition ai_analysis_step (skip_ai_analysis : bool)
    (google_api_key : option string) (g0 : RNG)
    (generate_content : nat -> string -> Outcome string)
    (sessions : list Session) (error_analysis : Analysis) : Analysis * RNG :=
  if skip_ai_analysis then (error_analysis, g0)
  else
    match ConversationAnalyzer_init None google_api_key with
    | Raise _ => (error_analysis, g0)
    | Ok _ =>
        match select_sessions_for_analysis cfg seed sample g0 sessions
                (results error_analysis) with
        | (Raise _, g) => (error_analysis, g)
        | (Ok sessions_to_analyze, g) =>
            let ai_results :=
              analyze_sessions_parallel strip prompt_of json_loads as_completed
                generate_content sessions_to_analyze in
            (combine_error_analyses cfg error_analysis (Some ai_results), g)
        end
    end.

End Main.

Arguments ai_analysis_step strip prompt_of json_loads as_completed cfg {RNG}
  seed sample skip_ai_analysis google_api_key g0 generate_content sessions
  error_analysis.

(* ===================================================================== *)
(** * Reference definitions the properties are stated against *)
(* ===================================================================== *)

(** The three keys of the [categories] counter. *)
Definition known_category (category : string) : bool :=
  String.eqb category "error_indicators"
  || String.eqb category "frustration_indicators"
  || String.eqb category "escalation_phrases".

(** A lexicon whose categories are all among the three counted ones. *)
Definition known_lexicon (lex : Lexicon) : Prop :=
  forall item, In item lex -> known_category (fst item) = true.

Section Hits.

Variable lower : string -> string.

(** Phrases of a list found in a (lowered) content. *)
Definition phrase_hits (content : string) (phrases : list string) : nat :=
  List.length (filter (fun p => contains (lower p) content) phrases).

(** Hits of one category in one message: one per phrase of the category
    contained in the lowered content; a message whose content is empty is
    skipped. *)
Definition message_hits (lex : Lexicon) (category : string) (m : Message) : nat :=
  let content := lower (content_of m) in
  if nonempty content then
    list_sum (map (fun item : string * list string =>
                     if String.eqb (fst item) category
                     then phrase_hits content (snd item) else 0%nat) lex)
  else 0%nat.

(** Hits of one category in a conversation: summed over the messages. *)
Definition hits (lex : Lexicon) (category : string) (msgs : list Message) : nat :=
  list_sum (map (message_hits lex category) msgs).

(** Severity-weighted hit count, scaled by 10 and capped at 100. *)
Definition phrase_formula (lex : Lexicon) (msgs : list Message) : Q :=
  Qmin 100
    ((Qnat (hits lex "error_indicators" msgs) * 1
      + Qnat (hits lex "frustration_indicators" msgs) * (15 # 10)
      + Qnat (hits lex "escalation_phrases" msgs) * 2) * 10).

(** Hits of one key in a lowered content. *)
Definition content_hits (lex : Lexicon) (key content : string) : nat :=
  list_sum (map (fun item : string * list string =>
                   if String.eqb (fst item) key
                   then phrase_hits content (snd item) else 0%nat) lex).

End Hits.

(** [st'] is [st] after [e], [f] and [g] more hits of the three keys. *)
Definition advanced (st st' : PhraseState) (e f g : nat) : Prop :=
  error_indicators (snd st') = (error_indicators (snd st) + e)%nat /\
  frustration_indicators (snd st') = (frustration_indicators (snd st) + f)%nat /\
  escalation_phrases (snd st') = (escalation_phrases (snd st) + g)%nat /\
  List.length (fst st') = (List.length (fst st) + (e + f + g))%nat.

(** [n] counted under [key] when the category is [key]. *)
Definition under (category key : string) (n : nat) : nat :=
  if String.eqb category key then n else 0%nat.

(** A text without any backtick. *)
Fixpoint no_backtick (s : string) : bool :=
  match s with
  | EmptyString => true
  | String c s' => negb (Ascii.eqb c "`"%char) && no_backtick s'
  end.

(** A recorded match names a phrase of the lexicon under its category, and
    that phrase is found in the lowered content of a message of the
    conversation, whose type it records. *)
Definition sound_match (lower : string -> string) (lex : Lexicon)
    (msgs : list Message) (mp : MatchedPhrase) : Prop :=
  (exists item, In item lex /\ fst item = mp_category mp
                /\ In (mp_phrase mp) (snd item)) /\
  (exists m, In m msgs
             /\ contains (lower (mp_phrase mp)) (lower (content_of m)) = true
             /\ mp_message_type mp = message_type_of m).

(** The behavioral patterns, in the order detect_behavioral_errors evaluates
    them. *)
Inductive Pattern : Type :=
  | short_conversation
  | rapid_abandonment
  | stuck_session
  | repeated_messages
  | failed_session
  | no_sentiment_analysis.

Definition all_patterns : list Pattern :=
  [short_conversation; rapid_abandonment; stuck_session; repeated_messages;
   failed_session; no_sentiment_analysis].

Definition pattern_name (p : Pattern) : string :=
  match p with
  | short_conversation => "short_conversation"
  | rapid_abandonment => "rapid_abandonment"
  | stuck_session => "stuck_session"
  | repeated_messages => "repeated_messages"
  | failed_session => "failed_session"
  | no_sentiment_analysis => "no_sentiment_analysis"
  end.

Section Patterns.

Variable lower : string -> string.
Variable strip : string -> string.
Variable fromisoformat : string -> option datetime.
Variable cfg : Settings.

(** Human messages whose trimmed, lowered content repeats an earlier one. *)
Definition duplicates (session : Session) : nat :=
  let human := human_contents lower strip (messages session) in
  (List.length human - len_set human)%nat.

Definition in_rapid_window (duration : Q) : bool :=
  Qltb 0 duration && Qltb duration (RAPID_ABANDONMENT_THRESHOLD cfg).

(** The trigger condition of each pattern. *)
Definition triggered (session : Session) (p : Pattern) : bool :=
  match p with
  | short_conversation =>
      ((0 <? message_count session)
       && (message_count session <? SHORT_CONVERSATION_THRESHOLD cfg))%Z
  | rapid_abandonment =>
      match session_duration fromisoformat session with
      | Some duration => in_rapid_window duration
      | None => false
      end
  | stuck_session =>
      match session_duration fromisoformat session with
      | Some duration =>
          negb (in_rapid_window duration)
          && is_status session "active"
          && Qltb (STUCK_SESSION_THRESHOLD cfg) duration
      | None => false
      end
  | repeated_messages =>
      (2 <=? List.length (human_contents lower strip (messages session)))%nat
      && (0 <? duplicates session)%nat
  | failed_session => is_status session "failed"
  | no_sentiment_analysis =>
      negb (truthy (analyse_sentimental session)) && is_status session "active"
  end.

(** The contribution of each pattern when triggered. *)
Definition contribution (session : Session) (p : Pattern) : Q :=
  match p with
  | short_conversation => 30
  | rapid_abandonment => 40
  | stuck_session => 35
  | repeated_messages => 25 * Qnat (Nat.min (duplicates session) 3)
  | failed_session => 50
  | no_sentiment_analysis => 10
  end.

Definition triggered_patterns (session : Session) : list Pattern :=
  filter (triggered session) all_patterns.

Definition contributions (session : Session) : list Q :=
  map (contribution session) (triggered_patterns session).

End Patterns.

(** Arithmetic mean of a list of numbers. *)
Definition mean (xs : list Q) : Q := py_sum xs / Qnat (List.length xs).

(** Weighted average of the three pre-AI components. *)
Definition weighted_average (w : Weights) (p b s : Q) : Q :=
  (p * phrase_matching w + b * behavioral_patterns w + s * sentiment_correlation w)
  / (phrase_matching w + behavioral_patterns w + sentiment_correlation w).

(** Plain weighted sum of the four components. *)
Definition weighted_sum (w : Weights) (p b s a : Q) : Q :=
  p * phrase_matching w + b * behavioral_patterns w
  + s * sentiment_correlation w + a * ai_analysis w.

Definition in_range (x : Q) : Prop := 0 <= x <= 100.

Definition nonneg_weights (w : Weights) : Prop :=
  0 <= phrase_matching w /\ 0 <= behavioral_patterns w /\
  0 <= ai_analysis w /\ 0 <= sentiment_correlation w.

Definition weights_total (w : Weights) : Q :=
  phrase_matching w + behavioral_patterns w + ai_analysis w + sentiment_correlation w.

(** The configuration contract: the four weights sum to 1 and both
    thresholds are percentages. *)
Definition valid_configuration (c : Settings) : Prop :=
  weights_total (ERROR_WEIGHTS c) == 1 /\
  in_range (high (ERROR_THRESHOLDS c)) /\ in_range (medium (ERROR_THRESHOLDS c)).

(** The detector built by ErrorDetector.__init__ from a loaded lexicon. *)
Definition detector_of (c : Settings) (lex : Lexicon) : ErrorDetector :=
  {| error_phrases := lex;
     weights := ERROR_WEIGHTS c;
     thresholds := ERROR_THRESHOLDS c |}.

(** The judgments handed to combine_error_analyses ([None] as no judgment). *)
Definition judgments (ai : option (list AIResult)) : list AIResult :=
  match ai with Some l => l | None => [] end.

(** The failure reason recorded when parsing the answer raises [e]. *)
Definition parsing_reason (e : exn) : string :=
  match e with
  | JSONDecodeError m => "JSON parsing error: " ++ m
  | _ => str_of_exn e
  end.

Section JudgeBatch.

Variable strip : string -> string.
Variable prompt_of : string -> string.
Variable json_loads : string -> Outcome JsonValue.

(** The prompt analyze_conversation sends for a session. *)
Definition prompt_for (s : Session) : string :=
  prompt_of (format_conversation (messages s)).

(** The futures of all the sessions of [before ++ s :: after] but [s]. *)
Definition other_futures (generate_content : nat -> string -> Outcome string)
    (before after : list Session) : list Future :=
  (submit_from strip prompt_of json_loads generate_content 0 before
   ++ submit_from strip prompt_of json_loads generate_content
        (S (List.length before)) after)%list.

End JudgeBatch.

(** The identifiers of a list of sessions. *)
Definition ids (l : list Session) : list Z := map id l.

(** What [random.sample(population, k)] guarantees for [0 <= k <= len]: [k]
    elements taken at distinct positions of the population. *)
Definition sample_contract {RNG : Type}
    (sample : RNG -> list Session -> nat -> list Session * RNG) : Prop :=
  forall (g : RNG) (l : list Session) (k : nat),
    (k <= List.length l)%nat ->
    List.length (fst (sample g l k)) = k /\
    exists rest, Permutation (fst (sample g l k) ++ rest) l.

(** A selection drawn from the population without repeated identifiers. *)
Definition selection_ok (sessions selected : list Session) : Prop :=
  NoDup (ids selected) /\ incl selected sessions.

(** A stand-in for the generator of the [random] module, used to run the
    selection on concrete populations: the state counts the draws and a
    sample takes the leading elements. *)
Definition demo_seed (n : Z) : nat := 0%nat.

Definition demo_sample (g : nat) (l : list Session) (k : nat) : list Session * nat :=
  (firstn k l, S g).

(* ===================================================================== *)
(** * Concrete sessions, lexicon and collaborators for the examples *)
(* ===================================================================== *)

Definition demo_lexicon : Lexicon :=
  [("error_indicators", ["erro"; "nao funciona"]);
   ("frustration_indicators", ["absurdo"]);
   ("escalation_phrases", ["falar com humano"])].

Definition human (text : string) : Message :=
  {| msg_type := Some "human"; msg_content := Some text |}.

Definition assistant (text : string) : Message :=
  {| msg_type := Some "ai"; msg_content := Some text |}.

(** A parser that accepts no string: the demo sessions carry datetimes. *)
Definition no_parser (s : string) : option datetime := None.

Definition at_second (n : Q) : option Timestamp :=
  Some (TsDatetime {| epoch_seconds := n; tz_aware := true |}).

(** One error phrase, no behavioral pattern, neutral sentiment. *)
Definition session_neutral : Session :=
  {| id := 1; status := Some "completed"; started_at := None; ended_at := None;
     analyse_sentimental := Some "Neutro";
     messages := [human "Deu ERRO no pedido"]; message_count := 5 |}.

(** One message, sixty seconds long, still active, no sentiment: the
    patterns short_conversation, rapid_abandonment, no_sentiment_analysis. *)
Definition session_abandoned : Session :=
  {| id := 2; status := Some "active"; started_at := at_second 0;
     ended_at := at_second 60; analyse_sentimental := None;
     messages := [human "oi"]; message_count := 1 |}.

(** The same error phrase in two messages, negative sentiment. *)
Definition session_negative : Session :=
  {| id := 3; status := Some "completed"; started_at := None; ended_at := None;
     analyse_sentimental := Some "Negativo";
     messages := [human "erro de novo"; assistant "Desculpe pelo erro"];
     message_count := 7 |}.

(** [session_neutral] with one more message, a frustration phrase. *)
Definition session_neutral_longer : Session :=
  {| id := 1; status := Some "completed"; started_at := None; ended_at := None;
     analyse_sentimental := Some "Neutro";
     messages := (messages session_neutral ++ [human "que absurdo"])%list;
     message_count := 6 |}.

(** Negative sentiment, no phrase of the lexicon and no behavioral pattern. *)
Definition session_unhappy : Session :=
  {| id := 7; status := Some "completed"; started_at := None; ended_at := None;
     analyse_sentimental := Some "Negativo";
     messages := [human "bom dia"]; message_count := 4 |}.

(** An active session extracted without its messages nor a sentiment. *)
Definition session_uncorrelated : Session :=
  {| id := 9; status := Some "active"; started_at := None; ended_at := None;
     analyse_sentimental := None; messages := []; message_count := 0 |}.

(** A session whose start is not an ISO timestamp. *)
Definition session_bad_timestamp : Session :=
  {| id := 8; status := Some "active"; started_at := Some (TsString "yesterday");
     ended_at := at_second 60; analyse_sentimental := Some "Neutro";
     messages := [human "oi"; assistant "ola"; human "tchau"];
     message_count := 3 |}.

Definition demo_detector : ErrorDetector := detector_of settings demo_lexicon.

(** A configuration breaking the contract: weights summing to 2, thresholds
    outside [0,100]. *)
Definition bad_settings : Settings :=
  {| ERROR_DETECTION_SAMPLE_RATE := 15 # 100;
     AI_ANALYSIS_BATCH_SIZE := 50;
     ERROR_WEIGHTS := {| phrase_matching := 1 # 2; behavioral_patterns := 1 # 2;
                         ai_analysis := 1 # 2; sentiment_correlation := 1 # 2 |};
     ERROR_THRESHOLDS := {| high := 170; medium := -40 |};
     SHORT_CONVERSATION_THRESHOLD := 3;
     RAPID_ABANDONMENT_THRESHOLD := 120;
     STUCK_SESSION_THRESHOLD := 1800 |}.

Definition demo_prompt (conversation : string) : string :=
  "Analise esta conversa: " ++ conversation.

Definition payload_with_score (score : Q) : JudgePayload :=
  {| j_error_score := Some score; j_resolved := Some true;
     j_understood := Some true; j_had_errors := Some false;
     j_error_description := None; j_quality := None; j_reasoning := None |}.

(** A stand-in for [json.loads] that knows two payloads; the texts stand for
    the JSON objects with the key error_score set to 10 and to 1000. *)
Definition demo_json_loads (text : string) : Outcome JsonValue :=
  if String.eqb text "{error_score: 10}" then Ok (JObject (payload_with_score 10))
  else if String.eqb text "{error_score: 1000}"
  then Ok (JObject (payload_with_score 1000))
  else Raise (JSONDecodeError "Expecting value").

(** Model calls: an answer in a code fence, an out-of-range answer, a
    transport failure, a reply that is not JSON. *)
Definition reply_score_10 (prompt : string) : Outcome string :=
  Ok "```json {error_score: 10} ```".

Definition reply_score_1000 (prompt : string) : Outcome string :=
  Ok "{error_score: 1000}".

Definition reply_timeout (prompt : string) : Outcome string :=
  Raise (Exception "deadline exceeded").

Definition reply_garbage (prompt : string) : Outcome string :=
  Ok "Desculpe, nao consegui analisar.".

(** The judgment recorded for a session under one of these model calls. *)
Definition demo_judgment (reply : string -> Outcome string) (s : Session) : AIResult :=
  session_result ascii_strip demo_prompt demo_json_loads reply s.

(** The pre-AI result of a session with the shipped settings; the default
    is never reached on the demo sessions. *)
Definition demo_result (s : Session) : EnsembleResult :=
  match analyze_session ascii_lower ascii_strip no_parser settings
          (detector_of settings demo_lexicon) s with
  | Ok r => r
  | Raise _ =>
      {| session_id := id s; confidence_score := 0; confidence_level := Low;
         phrase_detection := {| p_score := 0; matched_phrases := [];
                                categories := None; total_matches := 0 |};
         behavioral_results := {| b_score := 0; patterns := [];
                                  pattern_count := 0 |};
         sentiment_results := {| s_score := 15; sentiment := None |};
         has_error := false; ai_attached := None |}
  end.

(** The model calls of a batch of three: the second one times out. *)
Definition demo_calls (i : nat) : string -> Outcome string :=
  match i with
  | 1%nat => reply_timeout
  | _ => reply_score_10
  end.

(** A model call that fails with a JSONDecodeError of its own, as a REST
    transport does on a body that is not JSON. *)
Definition reply_decode_error (prompt : string) : Outcome string :=
  Raise (JSONDecodeError "Expecting value").

(** The batch of three when the second call fails that way. *)
Definition demo_calls_decode (i : nat) : string -> Outcome string :=
  match i with
  | 1%nat => reply_decode_error
  | _ => reply_score_10
  end.

(** The same batch when the second call succeeds. *)
Definition demo_calls_ok (i : nat) : string -> Outcome string := reply_score_10.

(** Workers finishing in the reverse of the submission order. *)
Definition demo_as_completed (futures : list Future) : list Future := rev futures.

(** Sessions without a [lead] key. *)
Definition no_lead (s : Session) : option Lead := None.

(** The analysis of the three demo sessions. *)
Definition demo_analysis : Analysis :=
  let rs := map demo_result [session_neutral; session_abandoned; session_negative] in
  {| total_sessions := 3;
     analyzed_sessions := 3;
     high_confidence_errors := count_level High rs;
     medium_confidence_errors := count_level Medium rs;
     low_confidence_errors := count_level Low rs;
     error_categories := [];
     results := rs;
     methods_used := ["phrase_matching"; "behavioral_patterns";
                      "sentiment_correlation"];
     ai_analyzed_sessions := None |}.

(* ===================================================================== *)
(** * Python's own numbers: binary64 floats and dynamic values *)
(* ===================================================================== *)

(** The definitions above read Python numbers as exact rationals.  Where the
    result depends on how Python really computes (the recombination of
    generate_report.py, the ranking of the samples, the error rate), the
    scripts are modelled once more below on IEEE 754 binary64 values: a float
    is the exact rational value of a double, an infinity or NaN, and every
    operation rounds its exact result to the nearest double, ties to even.
    The sign of a zero is not kept. *)

(** The nearest integer, ties to the even one. *)
Definition rne (y : Q) : Z :=
  let n := Qfloor y in
  match (y - inject_Z n ?= 1 # 2)%Q with
  | Lt => n
  | Gt => (n + 1)%Z
  | Eq => if Z.even n then n else (n + 1)%Z
  end.

Definition pow2 (e : Z) : Q := 2 ^ e.

(** [floor (log2 x)] for a positive [x]. *)
Definition ilog2 (x : Q) : Z :=
  let k := (Z.log2 (Qnum x) - Z.log2 (Zpos (Qden x)))%Z in
  if Qle_bool (pow2 k) x then k else (k - 1)%Z.

(** The exponent of the last bit of a 53-bit significand holding [x]; below
    the normal range the doubles are the multiples of [2^-1074]. *)
Definition ulp_exponent (x : Q) : Z :=
  Z.max (ilog2 (Qabs x) - 52) (-1074)%Z.

(** The nearest multiple of the unit in the last place. *)
Definition nearest64 (x : Q) : Q :=
  let e := ulp_exponent x in
  Qred (inject_Z (rne (x / pow2 e)) * pow2 e).

Inductive float : Type :=
  | Finite (q : Q)
  | Infinity (negative : bool)
  | NaN.

(** The double an exact result is rounded to; it overflows to an infinity. *)
Definition round64 (x : Q) : float :=
  let y := nearest64 x in
  if Qle_bool (pow2 1024) (Qabs y) then Infinity (Qltb y 0) else Finite y.

(** [x * y] and [x + y] on floats. *)
Definition fmul (x y : float) : float :=
  match x, y with
  | NaN, _ | _, NaN => NaN
  | Infinity s, Infinity t => Infinity (xorb s t)
  | Infinity s, Finite q | Finite q, Infinity s =>
      if Qeq_bool q 0 then NaN else Infinity (xorb s (Qltb q 0))
  | Finite a, Finite b => round64 (a * b)
  end.

Definition fadd (x y : float) : float :=
  match x, y with
  | NaN, _ | _, NaN => NaN
  | Infinity s, Infinity t => if Bool.eqb s t then Infinity s else NaN
  | Infinity s, Finite _ | Finite _, Infinity s => Infinity s
  | Finite a, Finite b => round64 (a + b)
  end.

(** [x >= c], [x <= y] and [x < y]: false as soon as a NaN is compared. *)
Definition fge (x : float) (c : Q) : bool :=
  match x with
  | Finite q => Qle_bool c q
  | Infinity negative => negb negative
  | NaN => false
  end.

Definition fle (x y : float) : bool :=
  match x, y with
  | NaN, _ | _, NaN => false
  | Infinity true, _ | _, Infinity false => true
  | Infinity false, _ | _, Infinity true => false
  | Finite a, Finite b => Qle_bool a b
  end.

Definition flt (x y : float) : bool :=
  match x, y with
  | NaN, _ | _, NaN => false
  | Infinity s, Infinity t => s && negb t
  | Infinity true, Finite _ | Finite _, Infinity false => true
  | Infinity false, Finite _ | Finite _, Infinity true => false
  | Finite a, Finite b => Qltb a b
  end.

Definition is_nan (x : float) : bool :=
  match x with NaN => true | _ => false end.

(** [round(x, 2)] on a float: the exact value is rounded half-even to
    hundredths and the decimal result read back as a double; infinities and
    NaN round to themselves. *)
Definition fround2 (x : float) : float :=
  match x with
  | Finite q => round64 (inject_Z (hundredths q) / 100)
  | _ => x
  end.

(** [a / b] on two ints, [b] not 0: the correctly rounded quotient. *)
Definition true_div (a b : nat) : float := round64 (Qnat a / Qnat b).

(** What a JSON value becomes in Python, as far as arithmetic tells the
    cases apart. *)
Inductive PyValue : Type :=
  | PyInt (n : Z)
  | PyFloat (x : float)
  | PyBool (b : bool)
  | PyNone
  | PyStr (s : string)
  | PyList
  | PyDict.

(** The float operand Python makes of [v] in [v * w], [w] a float: an int
    is converted (OverflowError beyond the doubles), a bool counts as 0 or 1,
    anything else is a TypeError. *)
Definition float_value (v : PyValue) : Outcome float :=
  match v with
  | PyInt n =>
      match round64 (inject_Z n) with
      | Finite q => Ok (Finite q)
      | _ => Raise (Exception "int too large to convert to float")
      end
  | PyFloat x => Ok x
  | PyBool b => Ok (Finite (if b then 1 else 0))
  | PyNone | PyStr _ | PyList | PyDict =>
      Raise (Exception "unsupported operand type(s) for *")
  end.

Definition mul_weight (v : PyValue) (w : float) : Outcome float :=
  x <- float_value v ;; Ok (fmul x w).

(** The number a score stands for, when it is one. *)
Definition number_of (v : PyValue) : option Q :=
  match v with
  | PyInt n => Some (inject_Z n)
  | PyFloat (Finite q) => Some q
  | PyBool b => Some (if b then 1 else 0)
  | _ => None
  end.

(** The unit roundoff of binary64, [2^-53]. *)
Definition u53 : Q := 1 # 9007199254740992.

(** [x] is a finite float near the exact value [v], both within [B]. *)
Definition approx (x : float) (v B d : Q) : Prop :=
  exists y, x = Finite y /\ Qabs y <= B /\ Qabs v <= B /\ Qabs (y - v) <= d.

(* ===================================================================== *)
(** * The judge, the recombination and the summary on Python's own values *)
(* ===================================================================== *)

Module Py.

(** ** conversation_analyzer.py: the judgment, with the score as returned *)

(** The result dict of analyze_conversation; [score] holds whatever
    [analysis.get('error_score', 50)] gave. *)
Record Judgment : Type := {
  j_session_id : Z;
  j_analyzed : bool;
  j_error : option string;
  j_score : PyValue;
  j_details : option JudgeDetails
}.

(** The JSON object of the judge; [o_error_score] is [None] when the key is
    absent and [Some PyNone] when it is null. *)
Record JudgeObject : Type := {
  o_error_score : option PyValue;
  o_resolved : option bool;
  o_understood : option bool;
  o_had_errors : option bool;
  o_error_description : option string;
  o_quality : option string;
  o_reasoning : option string
}.

Inductive JsonValue : Type :=
  | JObject (o : JudgeObject)
  | JNotObject.

Definition degraded (sid : Z) (reason : string) (score : Z) : Judgment :=
  {| j_session_id := sid; j_analyzed := false; j_error := Some reason;
     j_score := PyInt score; j_details := None |}.

Section Analyzer.

Variable strip : string -> string.
Variable prompt_of : string -> string.
Variable json_loads : string -> Outcome JsonValue.

Definition parse_response (session : Session) (msgs : list Message)
    (response_text : string) : Outcome Judgment :=
  analysis <- json_loads (extract_json strip response_text) ;;
  match analysis with
  | JNotObject => Raise (Exception "object has no attribute get")
  | JObject a =>
      Ok {| j_session_id := id session;
            j_analyzed := true;
            j_error := None;
            j_score := or_default (o_error_score a) (PyInt 50);
            j_details := Some
              {| resolved := or_default (o_resolved a) false;
                 understood := or_default (o_understood a) true;
                 had_errors := or_default (o_had_errors a) false;
                 error_description := or_default (o_error_description a) "";
                 quality := or_default (o_quality a) "razoavel";
                 reasoning := or_default (o_reasoning a) "";
                 ai_message_count := List.length msgs |} |}
  end.

Definition analyze_conversation (generate_content : string -> Outcome string)
    (session : Session) : Outcome Judgment :=
  match messages session with
  | [] => Ok (degraded (id session) "No messages found" 0)
  | msgs =>
      match generate_content (prompt_of (format_conversation msgs)) with
      | Ok response =>
          match parse_response session msgs (strip response) with
          | Ok r => Ok r
          | Raise (JSONDecodeError m) =>
              Ok (degraded (id session) ("JSON parsing error: " ++ m) 50)
          | Raise e => Ok (degraded (id session) (str_of_exn e) 50)
          end
      | Raise (JSONDecodeError _) =>
          Raise (Exception unbound_response_text)
      | Raise e => Ok (degraded (id session) (str_of_exn e) 50)
      end
  end.

Definition Future : Type := (Session * Outcome Judgment)%type.

Fixpoint submit_from (generate_content : nat -> string -> Outcome string)
    (i : nat) (sessions : list Session) : list Future :=
  match sessions with
  | [] => []
  | s :: rest =>
      (s, analyze_conversation (generate_content i) s)
        :: submit_from generate_content (S i) rest
  end.

Definition collect (f : Future) : Judgment :=
  match snd f with
  | Ok result => result
  | Raise e => degraded (id (fst f)) (str_of_exn e) 50
  end.

(** What the batch records for one session. *)
Definition session_result (generate_content : string -> Outcome string)
    (s : Session) : Judgment :=
  collect (s, analyze_conversation generate_content s).

Variable as_completed : list Future -> list Future.

Definition analyze_sessions_parallel
    (generate_content : nat -> string -> Outcome string)
    (sessions : list Session) : list Judgment :=
  map collect (as_completed (submit_from generate_content 0 sessions)).

End Analyzer.

(** ** generate_report.py: combine_error_analyses *)

(** A result dict of [basic_analysis['results']]: the keys analyze_session
    wrote, [confidence_score] as the float it is, and [ai_analysis] once
    recombination has added it. *)
Record Result : Type := {
  r_session_id : Z;
  r_confidence_score : float;
  r_confidence_level : ConfidenceLevel;
  r_phrase_detection : PhraseResult;
  r_behavioral_patterns : BehavioralResult;
  r_sentiment_correlation : SentimentResult;
  r_has_error : bool;
  r_ai_analysis : option Judgment
}.

Record ErrorAnalysis : Type := {
  a_total_sessions : nat;
  a_analyzed_sessions : nat;
  a_high_confidence_errors : nat;
  a_medium_confidence_errors : nat;
  a_low_confidence_errors : nat;
  a_error_categories : list (string * nat);
  a_results : list Result;
  a_methods_used : list string;
  a_ai_analyzed_sessions : option nat
}.

(** The dicts analyze_session and analyze_all_sessions build, as Python
    holds them: every score the double nearest to its value. *)
Definition of_result (r : EnsembleResult) : Result :=
  {| r_session_id := session_id r;
     r_confidence_score := round64 (confidence_score r);
     r_confidence_level := confidence_level r;
     r_phrase_detection := phrase_detection r;
     r_behavioral_patterns := behavioral_results r;
     r_sentiment_correlation := sentiment_results r;
     r_has_error := has_error r;
     r_ai_analysis := None |}.

Definition of_analysis (a : Analysis) : ErrorAnalysis :=
  {| a_total_sessions := total_sessions a;
     a_analyzed_sessions := analyzed_sessions a;
     a_high_confidence_errors := high_confidence_errors a;
     a_medium_confidence_errors := medium_confidence_errors a;
     a_low_confidence_errors := low_confidence_errors a;
     a_error_categories := error_categories a;
     a_results := map of_result (results a);
     a_methods_used := methods_used a;
     a_ai_analyzed_sessions := ai_analyzed_sessions a |}.

Definition ai_results_dict_get (ai : list Judgment) (k : Z) : option Judgment :=
  find (fun r => Z.eqb (j_session_id r) k) (rev (filter j_analyzed ai)).

Definition ai_results_dict_len (ai : list Judgment) : nat :=
  List.length (nodup Z.eq_dec (map j_session_id (filter j_analyzed ai))).

Definition count_level (l : ConfidenceLevel) (rs : list Result) : nat :=
  List.length (filter (fun r => level_eqb (r_confidence_level r) l) rs).

Section Report.

Variable cfg : Settings.

(** [combined_score], or the exception of [ai_result['score'] * weight]. *)
Definition recombined_score (result : Result) (ai_result : Judgment)
  : Outcome float :=
  let w := ERROR_WEIGHTS cfg in
  let basic_score :=
    fadd (fadd (fmul (round64 (p_score (r_phrase_detection result)))
                     (round64 (phrase_matching w)))
               (fmul (round64 (b_score (r_behavioral_patterns result)))
                     (round64 (behavioral_patterns w))))
         (fmul (round64 (s_score (r_sentiment_correlation result)))
               (round64 (sentiment_correlation w))) in
  ai_score <- mul_weight (j_score ai_result) (round64 (ai_analysis w)) ;;
  Ok (fadd basic_score ai_score).

(** The body of [if session_id in ai_results_dict]: the dict is written
    only once [combined_score] is there. *)
Definition update_result (result : Result) (ai_result : Judgment)
  : Outcome Result :=
  combined_score <- recombined_score result ai_result ;;
  Ok {| r_session_id := r_session_id result;
        r_confidence_score := fround2 combined_score;
        r_confidence_level :=
          if fge combined_score 70 then High
          else if fge combined_score 40 then Medium else Low;
        r_phrase_detection := r_phrase_detection result;
        r_behavioral_patterns := r_behavioral_patterns result;
        r_sentiment_correlation := r_sentiment_correlation result;
        r_has_error := fge combined_score 40;
        r_ai_analysis := Some ai_result |}.

(** [for result in basic_analysis['results']], rewriting the dicts in
    place: the list as the loop leaves it, and the exception that stopped
    it, if any. *)
Fixpoint update_results (ai : list Judgment) (rs : list Result)
  : list Result * option exn :=
  match rs with
  | [] => ([], None)
  | result :: rest =>
      match ai_results_dict_get ai (r_session_id result) with
      | None =>
          let (rest', e) := update_results ai rest in (result :: rest', e)
      | Some ai_result =>
          match update_result result ai_result with
          | Ok result' =>
              let (rest', e) := update_results ai rest in (result' :: rest', e)
          | Raise e => (result :: rest, Some e)
          end
      end
  end.

(** combine_error_analyses: [basic_analysis] as the call leaves it (the
    object it returns, when it returns), and the exception when it raises
    instead. *)
Definition combine_error_analyses (basic_analysis : ErrorAnalysis)
    (ai_analysis : option (list Judgment)) : ErrorAnalysis * option exn :=
  match ai_analysis with
  | None | Some [] => (basic_analysis, None)
  | Some ai =>
      match update_results ai (a_results basic_analysis) with
      | (rs, Some e) =>
          ({| a_total_sessions := a_total_sessions basic_analysis;
              a_analyzed_sessions := a_analyzed_sessions basic_analysis;
              a_high_confidence_errors := a_high_confidence_errors basic_analysis;
              a_medium_confidence_errors :=
                a_medium_confidence_errors basic_analysis;
              a_low_confidence_errors := a_low_confidence_errors basic_analysis;
              a_error_categories := a_error_categories basic_analysis;
              a_results := rs;
              a_methods_used := a_methods_used basic_analysis;
              a_ai_analyzed_sessions := a_ai_analyzed_sessions basic_analysis |},
           Some e)
      | (rs, None) =>
          ({| a_total_sessions := a_total_sessions basic_analysis;
              a_analyzed_sessions := a_analyzed_sessions basic_analysis;
              a_high_confidence_errors := count_level High rs;
              a_medium_confidence_errors := count_level Medium rs;
              a_low_confidence_errors := count_level Low rs;
              a_error_categories := a_error_categories basic_analysis;
              a_results := rs;
              a_methods_used :=
                (a_methods_used basic_analysis ++ ["ai_analysis"])%list;
              a_ai_analyzed_sessions := Some (ai_results_dict_len ai) |},
           None)
      end
  end.

End Report.

(** ** generate_report.py: step 4 of main *)

Section Main.

Variable strip : string -> string.
Variable prompt_of : string -> string.
Variable json_loads : string -> Outcome JsonValue.
Variable as_completed : list Future -> list Future.
Variable cfg : Settings.
Variable RNG : Type.
Variable seed : Z -> RNG.
Variable sample : RNG -> list Session -> nat -> list Session * RNG.

(** The [try] of step 4 on the dict analyze_all_sessions returned: whatever
    is raised inside, main goes on with [error_analysis], the object
    combine_error_analyses may have begun to rewrite. *)
Definition ai_analysis_step (skip_ai_analysis : bool)
    (google_api_key : option string) (g0 : RNG)
    (generate_content : nat -> string -> Outcome string)
    (sessions : list Session) (error_analysis : Analysis)
  : ErrorAnalysis * RNG :=
  if skip_ai_analysis then (of_analysis error_analysis, g0)
  else
    match ConversationAnalyzer_init None google_api_key with
    | Raise _ => (of_analysis error_analysis, g0)
    | Ok _ =>
        match select_sessions_for_analysis cfg seed sample g0 sessions
                (results error_analysis) with
        | (Raise _, g) => (of_analysis error_analysis, g)
        | (Ok sessions_to_analyze, g) =>
            let ai_results :=
              analyze_sessions_parallel strip prompt_of json_loads as_completed
                generate_content sessions_to_analyze in
            (fst (combine_error_analyses cfg (of_analysis error_analysis)
                    (Some ai_results)), g)
        end
    end.

End Main.

Arguments ai_analysis_step strip prompt_of json_loads as_completed cfg {RNG}
  seed sample skip_ai_analysis google_api_key g0 generate_content sessions
  error_analysis.

(** ** generate_report.py: generate_conversation_samples *)

Record Sample : Type := {
  sample_session_id : Z;
  sample_started_at : option Timestamp;
  sample_ended_at : option Timestamp;
  sample_status : option string;
  sample_sentiment : option string;
  error_confidence : float;
  error_level : ConfidenceLevel;
  sample_messages : list Message;
  sample_lead_name : string;
  sample_lead_phone : string
}.

Section Samples.

(** [session.get('lead')], a key the [Session] record does not carry;
    [None] when it is absent or falsy. *)
Variable lead_of : Session -> option Lead.

(** [sorted(results, key=lambda x: x['confidence_score'], reverse=True)] *)
Variable sorted_reverse : list Result -> list Result.

(** The body of the loop over [top_sessions_ids], past the [continue]. *)
Definition make_sample (rs : list Result) (sid : Z) (session : Session)
  : Sample :=
  let error_result := find (fun r => Z.eqb (r_session_id r) sid) rs in
  {| sample_session_id := sid;
     sample_started_at := started_at session;
     sample_ended_at := ended_at session;
     sample_status := status session;
     sample_sentiment := analyse_sentimental session;
     error_confidence := match error_result with
                         | Some r => r_confidence_score r
                         | None => Finite 0
                         end;
     error_level := match error_result with
                    | Some r => r_confidence_level r
                    | None => Low
                    end;
     sample_messages := messages session;
     sample_lead_name := match lead_of session with
                         | Some l => or_default (lead_name l) "Unknown"
                         | None => "Unknown"
                         end;
     sample_lead_phone := match lead_of session with
                          | Some l => or_default (lead_phone l) ""
                          | None => ""
                          end |}.

Definition generate_conversation_samples (sessions : list Session)
    (error_analysis : ErrorAnalysis) (sample_size : Z) : list Sample :=
  let sorted_results := sorted_reverse (a_results error_analysis) in
  let top_sessions_ids := map r_session_id (py_take sample_size sorted_results) in
  flat_map (fun sid =>
              match sessions_dict_get sessions sid with
              | None => []
              | Some session => [make_sample (a_results error_analysis) sid session]
              end) top_sessions_ids.

End Samples.

(** ** generate_report.py: the error rate of the summary *)

Definition error_rate (error_analysis : ErrorAnalysis) : float :=
  if (0 <? a_total_sessions error_analysis)%nat then
    fround2 (fmul (true_div (a_high_confidence_errors error_analysis
                             + a_medium_confidence_errors error_analysis)
                            (a_total_sessions error_analysis))
                  (Finite 100))
  else Finite 0.


(** ** Reference definitions *)

Definition judgments (ai : option (list Judgment)) : list Judgment :=
  match ai with Some l => l | None => [] end.

(** What the loop of combine_error_analyses does to one result when it
    gets past it. *)
Definition rewritten (cfg : Settings) (ai : list Judgment) (r r' : Result) : Prop :=
  match ai_results_dict_get ai (r_session_id r) with
  | None => r' = r
  | Some j => update_result cfg r j = Ok r'
  end.

(** The scores of a list never go up from one element to a later one. *)
Definition descending {A : Type} (key : A -> float) (l : list A) : Prop :=
  StronglySorted (fun a b => fle (key b) (key a) = true) l.

(** What [sorted(..., reverse=True)] guarantees: a rearrangement of its
    argument, in descending order of the key whenever the keys can be
    ordered, that is when none of them is NaN. *)
Definition sorted_contract (sorted_reverse : list Result -> list Result) : Prop :=
  forall l,
    Permutation (sorted_reverse l) l /\
    (Forall (fun r => is_nan (r_confidence_score r) = false) l ->
     descending r_confidence_score (sorted_reverse l)).

(** A stable insertion sort by decreasing score, standing for [sorted] in
    the examples. *)
Fixpoint insert_desc (x : Result) (l : list Result) : list Result :=
  match l with
  | [] => [x]
  | y :: l' =>
      if flt (r_confidence_score x) (r_confidence_score y)
      then y :: insert_desc x l' else x :: l
  end.

Fixpoint demo_sorted (l : list Result) : list Result :=
  match l with
  | [] => []
  | x :: l' => insert_desc x (demo_sorted l')
  end.

(** ** Collaborators for the examples *)

Definition demo_object (score : option PyValue) : JudgeObject :=
  {| o_error_score := score; o_resolved := None; o_understood := None;
     o_had_errors := None; o_error_description := None; o_quality := None;
     o_reasoning := None |}.

(** A stand-in for [json.loads] that knows a few payloads; the texts stand
    for JSON objects with the key error_score set to 10, to 2, to null and
    to NaN. *)
Definition demo_json_loads (text : string) : Outcome JsonValue :=
  if String.eqb text "{error_score: 10}"
  then Ok (JObject (demo_object (Some (PyInt 10))))
  else if String.eqb text "{error_score: 2}"
  then Ok (JObject (demo_object (Some (PyInt 2))))
  else if String.eqb text "{error_score: null}"
  then Ok (JObject (demo_object (Some PyNone)))
  else if String.eqb text "{error_score: NaN}"
  then Ok (JObject (demo_object (Some (PyFloat NaN))))
  else Raise (JSONDecodeError "Expecting value").

Definition reply_score_2 (prompt : string) : Outcome string :=
  Ok "{error_score: 2}".

Definition reply_score_null (prompt : string) : Outcome string :=
  Ok "{error_score: null}".

Definition reply_score_nan (prompt : string) : Outcome string :=
  Ok "{error_score: NaN}".

Definition demo_judgment (reply : string -> Outcome string) (s : Session)
  : Judgment :=
  session_result ascii_strip demo_prompt demo_json_loads reply s.

Definition demo_as_completed (futures : list Future) : list Future := rev futures.

(** The result of [session_neutral] under another identifier and score. *)
Definition demo_scored (sid : Z) (x : float) : Result :=
  let r := of_result (demo_result session_neutral) in
  {| r_session_id := sid;
     r_confidence_score := x;
     r_confidence_level := r_confidence_level r;
     r_phrase_detection := r_phrase_detection r;
     r_behavioral_patterns := r_behavioral_patterns r;
     r_sentiment_correlation := r_sentiment_correlation r;
     r_has_error := r_has_error r;
     r_ai_analysis := None |}.

(** The model calls of a batch of two: the second answer carries null. *)
Definition demo_calls_null (i : nat) : string -> Outcome string :=
  match i with
  | 1%nat => reply_score_null
  | _ => reply_score_2
  end.

(** The pre-AI analysis of two sessions of negative sentiment. *)
Definition demo_negative : Analysis :=
  let rs := map demo_result [session_negative; session_unhappy] in
  {| total_sessions := 2;
     analyzed_sessions := 2;
     high_confidence_errors := 0;
     medium_confidence_errors := 0;
     low_confidence_errors := 2;
     error_categories := [];
     results := rs;
     methods_used := ["phrase_matching"; "behavioral_patterns";
                      "sentiment_correlation"];
     ai_analyzed_sessions := None |}.

End Py.

(* ===================================================================== *)
(** * Properties *)
(* ===================================================================== *)

(** ** Rounding *)

Lemma py_round2_hundredths (x : Q) : py_round2 x = inject_Z (hundredths x) / 100.
Proof. reflexivity. Qed.

#[export] Instance hundredths_Proper : Proper (Qeq ==> eq) hundredths.
Proof.
  intros x y Hxy. unfold hundredths.
  assert (Hf : Qfloor (x * 100) = Qfloor (y * 100)) by (rewrite Hxy; reflexivity).
  rewrite Hf.
  assert (Hc : (x * 100 - inject_Z (Qfloor (y * 100)) ?= 1 # 2)
             = (y * 100 - inject_Z (Qfloor (y * 100)) ?= 1 # 2))
    by (rewrite Hxy; reflexivity).
  rewrite Hc. reflexivity.
Qed.

#[export] Instance py_round2_Proper : Proper (Qeq ==> Qeq) py_round2.
Proof.
  intros x y Hxy. rewrite !py_round2_hundredths, (hundredths_Proper x y Hxy).
  reflexivity.
Qed.

Lemma hundredths_lower (x : Q) (k : Z) :
  inject_Z k <= x * 100 -> (k <= hundredths x)%Z.
Proof.
  intros H. unfold hundredths.
  assert (Hk : (k <= Qfloor (x * 100))%Z).
  { rewrite <- (Qfloor_Z k). apply Qfloor_resp_le. exact H. }
  destruct (_ ?= _); [destruct (Z.even _) | |]; lia.
Qed.

Lemma hundredths_upper (x : Q) (k : Z) :
  x * 100 <= inject_Z k -> (hundredths x <= k)%Z.
Proof.
  intros H. unfold hundredths.
  set (y := x * 100) in *. set (n := Qfloor y).
  assert (Hn : inject_Z n <= y) by apply Qfloor_le.
  assert (Hnk : (n <= k)%Z) by (rewrite Zle_Qle; lra).
  destruct (Qcompare_spec (y - inject_Z n) (1 # 2)) as [He | Hl | Hg].
  - assert (Hlt : inject_Z n < inject_Z k) by lra.
    rewrite <- Zlt_Qlt in Hlt. destruct (Z.even n); lia.
  - exact Hnk.
  - assert (Hlt : inject_Z n < inject_Z k) by lra.
    rewrite <- Zlt_Qlt in Hlt. lia.
Qed.

Lemma py_round2_bounds (x : Q) (a b : Z) :
  inject_Z a <= x <= inject_Z b ->
  inject_Z a <= py_round2 x <= inject_Z b.
Proof.
  intros [Ha Hb]. rewrite py_round2_hundredths.
  assert (H1 : (a * 100 <= hundredths x)%Z).
  { apply hundredths_lower. rewrite inject_Z_mult. 
    change (inject_Z 100) with 100. nra. }
  assert (H2 : (hundredths x <= b * 100)%Z).
  { apply hundredths_upper. rewrite inject_Z_mult.
    change (inject_Z 100) with 100. nra. }
  rewrite Zle_Qle in H1, H2. rewrite inject_Z_mult in H1, H2.
  change (inject_Z 100) with 100 in H1, H2.
  split.
  - apply Qle_shift_div_l; lra.
  - apply Qle_shift_div_r; lra.
Qed.

(** Rounding leaves a whole number of hundredths alone. *)
Lemma py_round2_exact (x : Q) (k : Z) :
  x * 100 == inject_Z k -> py_round2 x == x.
Proof.
  intros H. rewrite py_round2_hundredths.
  assert (Hh : hundredths x = k).
  { apply Z.le_antisymm.
    - apply hundredths_upper. lra.
    - apply hundredths_lower. lra. }
  rewrite Hh, <- H. field.
Qed.

Lemma py_round2_inject_Z (n : Z) : py_round2 (inject_Z n) == inject_Z n.
Proof.
  apply (py_round2_exact _ (n * 100)). rewrite inject_Z_mult. reflexivity.
Qed.

(** The rounded value is within half a hundredth of the exact one. *)
Lemma py_round2_close (x : Q) :
  x - (1 # 200) <= py_round2 x <= x + (1 # 200).
Proof.
  rewrite py_round2_hundredths. unfold hundredths.
  set (y := x * 100). set (n := Qfloor y).
  assert (Hn : inject_Z n <= y) by apply Qfloor_le.
  assert (Hn1 : y < inject_Z (n + 1)) by apply Qlt_floor.
  rewrite inject_Z_plus in Hn1. change (inject_Z 1) with 1 in Hn1.
  assert (Hy : y == x * 100) by reflexivity.
  clearbody n y.
  destruct (Qcompare_spec (y - inject_Z n) (1 # 2)) as [He | Hl | Hg];
    [destruct (Z.even n) | |];
    rewrite ?inject_Z_plus; change (inject_Z 1) with 1;
    split; (apply Qle_shift_div_l || apply Qle_shift_div_r); lra.
Qed.

(** ** The phrase matcher *)

Section PhraseMatcher.

Variable lower : string -> string.

Lemma advanced_refl st : advanced st st 0 0 0.
Proof. unfold advanced. repeat split; lia. Qed.

Lemma advanced_trans st1 st2 st3 e f g e' f' g' :
  advanced st1 st2 e f g -> advanced st2 st3 e' f' g' ->
  advanced st1 st3 (e + e') (f + f') (g + g').
Proof. unfold advanced. intros (?&?&?&?) (?&?&?&?). repeat split; lia. Qed.

Lemma under_0 category key : under category key 0 = 0%nat.
Proof. unfold under. destruct (String.eqb _ _); reflexivity. Qed.

Lemma under_add category key a b :
  under category key (a + b) = (under category key a + under category key b)%nat.
Proof. unfold under. destruct (String.eqb _ _); lia. Qed.

Lemma phrase_hits_cons content p ps :
  phrase_hits lower content (p :: ps)
  = (phrase_hits lower content [p] + phrase_hits lower content ps)%nat.
Proof. unfold phrase_hits. cbn. destruct (contains _ _); reflexivity. Qed.

Lemma known_category_cases category :
  known_category category = true ->
  category = "error_indicators" \/ category = "frustration_indicators"
  \/ category = "escalation_phrases".
Proof.
  unfold known_category. rewrite !orb_true_iff, !String.eqb_eq. tauto.
Qed.

(** *** What a loop that returns has counted *)

Lemma check_phrase_counts content mtype category st phrase st' :
  check_phrase lower content mtype category st phrase = Ok st' ->
  let n := phrase_hits lower content [phrase] in
  advanced st st' (under category "error_indicators" n)
                  (under category "frustration_indicators" n)
                  (under category "escalation_phrases" n).
Proof.
  unfold check_phrase, phrase_hits. cbn [filter].
  destruct (contains (lower phrase) content); cbn [List.length].
  - unfold incr_category.
    destruct (String.eqb category "error_indicators") eqn:E1;
      [apply String.eqb_eq in E1; subst category
      | destruct (String.eqb category "frustration_indicators") eqn:E2;
        [apply String.eqb_eq in E2; subst category
        | destruct (String.eqb category "escalation_phrases") eqn:E3;
          [apply String.eqb_eq in E3; subst category |] ] ];
      cbn [bind]; intros H; try discriminate H; injection H as <-;
      unfold advanced; cbn; rewrite length_app; cbn; repeat split; lia.
  - intros H. injection H as <-. rewrite !under_0. apply advanced_refl.
Qed.

Lemma check_category_counts content mtype item st st' :
  check_category lower content mtype st item = Ok st' ->
  let n := phrase_hits lower content (snd item) in
  advanced st st' (under (fst item) "error_indicators" n)
                  (under (fst item) "frustration_indicators" n)
                  (under (fst item) "escalation_phrases" n).
Proof.
  unfold check_category. destruct item as [category phrases]. cbn [fst snd].
  revert st. induction phrases as [| p ps IH]; intros st; cbn [for_each].
  - intros H. injection H as <-. cbn zeta. unfold phrase_hits. cbn.
    rewrite !under_0. apply advanced_refl.
  - destruct (check_phrase lower content mtype category st p) as [st1 | e] eqn:E1;
      cbn [bind]; [| discriminate].
    intros H. cbn zeta. rewrite phrase_hits_cons, !under_add.
    eapply advanced_trans.
    + exact (check_phrase_counts _ _ _ _ _ _ E1).
    + exact (IH st1 H).
Qed.

Lemma check_lexicon_counts content mtype lex st st' :
  for_each (check_category lower content mtype) lex st = Ok st' ->
  advanced st st' (content_hits lower lex "error_indicators" content)
                  (content_hits lower lex "frustration_indicators" content)
                  (content_hits lower lex "escalation_phrases" content).
Proof.
  revert st. induction lex as [| item lex IH]; intros st; cbn [for_each].
  - intros H. injection H as <-. apply advanced_refl.
  - destruct (check_category lower content mtype st item) as [st1 | e] eqn:E1;
      cbn [bind]; [| discriminate].
    intros H. unfold content_hits. simpl. fold (content_hits lower lex).
    eapply advanced_trans.
    + exact (check_category_counts _ _ _ _ _ E1).
    + exact (IH st1 H).
Qed.

Lemma scan_message_counts lex st msg st' :
  scan_message lower lex st msg = Ok st' ->
  advanced st st' (message_hits lower lex "error_indicators" msg)
                  (message_hits lower lex "frustration_indicators" msg)
                  (message_hits lower lex "escalation_phrases" msg).
Proof.
  unfold scan_message, message_hits.
  destruct (nonempty (lower (content_of msg))); cbn [negb].
  - apply check_lexicon_counts.
  - intros H. injection H as <-. apply advanced_refl.
Qed.

Lemma scan_messages_counts lex msgs st st' :
  for_each (scan_message lower lex) msgs st = Ok st' ->
  advanced st st' (hits lower lex "error_indicators" msgs)
                  (hits lower lex "frustration_indicators" msgs)
                  (hits lower lex "escalation_phrases" msgs).
Proof.
  revert st. induction msgs as [| m msgs IH]; intros st; cbn [for_each].
  - intros H. injection H as <-. apply advanced_refl.
  - destruct (scan_message lower lex st m) as [st1 | e] eqn:E1;
      cbn [bind]; [| discriminate].
    intros H. unfold hits. simpl. fold (hits lower lex).
    eapply advanced_trans.
    + exact (scan_message_counts _ _ _ _ E1).
    + exact (IH st1 H).
Qed.

(** *** With the three counted categories the loops return *)

Lemma check_phrase_returns content mtype category st phrase :
  known_category category = true ->
  exists st', check_phrase lower content mtype category st phrase = Ok st'.
Proof.
  intros Hk. unfold check_phrase.
  destruct (contains (lower phrase) content); [| eexists; reflexivity].
  destruct (known_category_cases _ Hk) as [-> | [-> | ->]]; eexists; reflexivity.
Qed.

Lemma check_category_returns content mtype item st :
  known_category (fst item) = true ->
  exists st', check_category lower content mtype st item = Ok st'.
Proof.
  intros Hk. unfold check_category. revert st.
  induction (snd item) as [| p ps IH]; intros st; cbn [for_each].
  - eexists; reflexivity.
  - destruct (check_phrase_returns content mtype (fst item) st p Hk) as (st1 & E1).
    rewrite E1. cbn [bind]. apply IH.
Qed.

Lemma check_lexicon_returns content mtype lex st :
  known_lexicon lex ->
  exists st', for_each (check_category lower content mtype) lex st = Ok st'.
Proof.
  revert st. induction lex as [| item lex IH]; intros st Hk; cbn [for_each].
  - eexists; reflexivity.
  - destruct (check_category_returns content mtype item st) as (st1 & E1).
    { apply Hk. left. reflexivity. }
    rewrite E1. cbn [bind]. apply IH. intros it Hin. apply Hk. right. exact Hin.
Qed.

Lemma scan_messages_returns lex msgs st :
  known_lexicon lex ->
  exists st', for_each (scan_message lower lex) msgs st = Ok st'.
Proof.
  intros Hk. revert st. induction msgs as [| m msgs IH]; intros st; cbn [for_each].
  - eexists; reflexivity.
  - assert (H : exists st1, scan_message lower lex st m = Ok st1).
    { unfold scan_message. destruct (negb _); [eexists; reflexivity |].
      apply check_lexicon_returns. exact Hk. }
    destruct H as (st1 & E1). rewrite E1. cbn [bind]. apply IH.
Qed.

Lemma detect_phrase_errors_returns self session :
  known_lexicon (error_phrases self) ->
  exists r, detect_phrase_errors lower self session = Ok r.
Proof.
  intros Hk. unfold detect_phrase_errors.
  destruct (messages session) as [| m msgs]; [eexists; reflexivity |].
  destruct (scan_messages_returns (error_phrases self) (m :: msgs)
              ([], {| error_indicators := 0; frustration_indicators := 0;
                      escalation_phrases := 0 |}) Hk) as (st & E).
  rewrite E. cbn [bind]. eexists; reflexivity.
Qed.

(** *** The score *)

Lemma hits_Permutation lex key msgs msgs' :
  Permutation msgs msgs' -> hits lower lex key msgs = hits lower lex key msgs'.
Proof.
  intros HP. unfold hits.
  induction HP; simpl; lia.
Qed.

Lemma hits_app lex key ms1 ms2 :
  hits lower lex key (ms1 ++ ms2)
  = (hits lower lex key ms1 + hits lower lex key ms2)%nat.
Proof. unfold hits. rewrite map_app, list_sum_app. reflexivity. Qed.

Lemma Qnat_nonneg n : 0 <= Qnat n.
Proof.
  unfold Qnat. change 0 with (inject_Z 0). rewrite <- Zle_Qle. lia.
Qed.

(** The capped, scaled score is a whole number, so rounding keeps it. *)
Lemma phrase_formula_whole lex msgs :
  exists k : Z, phrase_formula lower lex msgs == inject_Z k /\ (0 <= k <= 100)%Z.
Proof.
  unfold phrase_formula.
  set (e := hits lower lex "error_indicators" msgs).
  set (f := hits lower lex "frustration_indicators" msgs).
  set (g := hits lower lex "escalation_phrases" msgs).
  set (n := (10 * Z.of_nat e + 15 * Z.of_nat f + 20 * Z.of_nat g)%Z).
  assert (Hn : (Qnat e * 1 + Qnat f * (15 # 10) + Qnat g * 2) * 10 == inject_Z n).
  { unfold n, Qnat. rewrite !inject_Z_plus, !inject_Z_mult.
    change (inject_Z 10) with 10. change (inject_Z 15) with 15.
    change (inject_Z 20) with 20. field. }
  exists (Z.min 100 n). split.
  - rewrite Hn. destruct (Z.min_spec 100 n) as [[Hlt ->] | [Hle ->]].
    + apply Q.min_l. change 100 with (inject_Z 100). rewrite <- Zle_Qle. lia.
    + apply Q.min_r. change 100 with (inject_Z 100). rewrite <- Zle_Qle. lia.
  - unfold n. lia.
Qed.

Lemma detect_phrase_errors_score self session r :
  detect_phrase_errors lower self session = Ok r ->
  p_score r == phrase_formula lower (error_phrases self) (messages session).
Proof.
  unfold detect_phrase_errors.
  destruct (messages session) as [| m msgs] eqn:Hm.
  - intros H. injection H as <-. reflexivity.
  - destruct (for_each _ _ _) as [st | e] eqn:E; cbn [bind]; [| discriminate].
    intros H. injection H as <-. cbn [p_score].
    destruct (scan_messages_counts _ _ _ _ E) as (He & Hf & Hg & Hl).
    cbn [fst snd error_indicators frustration_indicators escalation_phrases
         List.length] in He, Hf, Hg, Hl.
    destruct (phrase_formula_whole (error_phrases self) (m :: msgs))
      as (k & Hk1 & Hk2).
    assert (Hs : (if Nat.eqb (List.length (fst st)) 0 then 0
                  else Qmin 100 (weighted_score (snd st) * 10))
                 == phrase_formula lower (error_phrases self) (m :: msgs)).
    { unfold phrase_formula, weighted_score. rewrite He, Hf, Hg.
      destruct (Nat.eqb_spec (List.length (fst st)) 0) as [H0 | H0];
        [| reflexivity].
      rewrite Hl in H0.
      assert (H1 : hits lower (error_phrases self) "error_indicators" (m :: msgs)
                   = 0%nat) by lia.
      assert (H2 : hits lower (error_phrases self) "frustration_indicators"
                     (m :: msgs) = 0%nat) by lia.
      assert (H3 : hits lower (error_phrases self) "escalation_phrases" (m :: msgs)
                   = 0%nat) by lia.
      rewrite H1, H2, H3. reflexivity. }
    rewrite Hs. apply (py_round2_exact _ (k * 100)).
    rewrite Hk1, inject_Z_mult. reflexivity.
Qed.

End PhraseMatcher.

(** ** The behavioral detector *)

Section BehavioralDetector.

Variable lower : string -> string.
Variable strip : string -> string.
Variable fromisoformat : string -> option datetime.
Variable cfg : Settings.

Local Abbreviation triggered_now := (triggered_patterns lower strip fromisoformat cfg).
Local Abbreviation contributions_now := (contributions lower strip fromisoformat cfg).

(** The two lists the method accumulates are the names and the
    contributions of the triggered patterns, in evaluation order. *)
Lemma behavioral_state_patterns session :
  behavioral_state lower strip fromisoformat cfg session
  = (map pattern_name (triggered_now session), contributions_now session).
Proof.
  unfold behavioral_state, contributions, triggered_patterns, all_patterns,
    triggered, contribution, duplicates, in_rapid_window.
  cbn [filter].
  destruct ((0 <? message_count session)
            && (message_count session <? SHORT_CONVERSATION_THRESHOLD cfg))%Z;
  destruct (session_duration fromisoformat session) as [d |];
  [ destruct (Qltb 0 d && Qltb d (RAPID_ABANDONMENT_THRESHOLD cfg)); cbn [negb andb];
    [| destruct (is_status session "active"
                 && Qltb (STUCK_SESSION_THRESHOLD cfg) d) ] |
  | destruct (Qltb 0 d && Qltb d (RAPID_ABANDONMENT_THRESHOLD cfg)); cbn [negb andb];
    [| destruct (is_status session "active"
                 && Qltb (STUCK_SESSION_THRESHOLD cfg) d) ] | ];
  (destruct (messages session) as [| m ms];
   [ cbn [human_contents List.length Nat.leb andb]
   | destruct (2 <=? List.length (human_contents lower strip (m :: ms)))%nat;
     cbn [andb];
     [ destruct (0 <? List.length (human_contents lower strip (m :: ms))
                      - len_set (human_contents lower strip (m :: ms)))%nat | ] ]);
  destruct (is_status session "failed");
  destruct (negb (truthy (analyse_sentimental session))
            && is_status session "active");
  reflexivity.
Qed.

Lemma py_sum_from (xs : list Q) (a : Q) : fold_left Qplus xs a == a + py_sum xs.
Proof.
  unfold py_sum. revert a. induction xs as [| x xs IH]; intros a; cbn [fold_left].
  - ring.
  - rewrite IH, (IH (0 + x)). ring.
Qed.

Lemma py_sum_cons (x : Q) (xs : list Q) : py_sum (x :: xs) == x + py_sum xs.
Proof. unfold py_sum at 1. cbn [fold_left]. rewrite py_sum_from. ring. Qed.

Lemma py_sum_bounds (xs : list Q) (b : Q) :
  Forall (fun x => 0 <= x <= b) xs ->
  0 <= py_sum xs <= b * Qnat (List.length xs).
Proof.
  induction 1 as [| x xs [Hx0 Hxb] _ [IH0 IHb]].
  - unfold py_sum, Qnat. cbn [fold_left List.length Z.of_nat].
    change (inject_Z 0) with 0. lra.
  - rewrite py_sum_cons. cbn [List.length].
    unfold Qnat in *. rewrite Nat2Z.inj_succ, <- Z.add_1_r, inject_Z_plus.
    change (inject_Z 1) with 1. lra.
Qed.

Lemma contribution_bounds session p :
  0 <= contribution lower strip session p <= 100.
Proof.
  destruct p; cbn [contribution]; try lra.
  assert (H : (0 <= Z.of_nat (Nat.min (duplicates lower strip session) 3) <= 3)%Z) by lia.
  destruct H as [H0 H3]. rewrite Zle_Qle in H0, H3. unfold Qnat.
  change (inject_Z 0) with 0 in H0. change (inject_Z 3) with 3 in H3. lra.
Qed.

Lemma mean_bounds (xs : list Q) :
  xs <> [] -> Forall (fun x => 0 <= x <= 100) xs -> 0 <= mean xs <= 100.
Proof.
  intros Hne HF. destruct (py_sum_bounds xs 100 HF) as [H0 H1]. unfold mean.
  assert (Hlen : 0 < Qnat (List.length xs)).
  { unfold Qnat. change 0 with (inject_Z 0). rewrite <- Zlt_Qlt.
    destruct xs; [congruence | cbn; lia]. }
  split.
  - apply Qle_shift_div_l; lra.
  - apply Qle_shift_div_r; lra.
Qed.

Lemma detect_behavioral_errors_score session :
  b_score (detect_behavioral_errors lower strip fromisoformat cfg session)
  = py_round2 (match contributions_now session with
               | [] => 0
               | cs => Qmin 100 (mean cs)
               end).
Proof.
  unfold detect_behavioral_errors. rewrite behavioral_state_patterns.
  cbn [snd b_score]. destruct (contributions_now session); reflexivity.
Qed.

Lemma contributions_bounds session :
  Forall (fun x => 0 <= x <= 100) (contributions_now session).
Proof.
  unfold contributions. apply Forall_forall.
  intros x Hx. apply in_map_iff in Hx. destruct Hx as (p & <- & _).
  apply contribution_bounds.
Qed.

Lemma detect_behavioral_errors_bounds session :
  0 <= b_score (detect_behavioral_errors lower strip fromisoformat cfg session) <= 100.
Proof.
  rewrite detect_behavioral_errors_score.
  apply (py_round2_bounds _ 0 100). change (inject_Z 0) with 0.
  change (inject_Z 100) with 100.
  pose proof (contributions_bounds session) as HF.
  destruct (contributions_now session) as [| c cs] eqn:E; [lra |].
  assert (Hm : 0 <= mean (c :: cs) <= 100) by (apply mean_bounds; [congruence | exact HF]).
  destruct (Q.min_spec 100 (mean (c :: cs))) as [[_ ->] | [_ ->]]; lra.
Qed.

(** Rounding moves the score by at most half a hundredth. *)
Lemma detect_behavioral_errors_near_mean session :
  contributions_now session <> [] ->
  Qmin 100 (mean (contributions_now session)) - (1 # 200)
  <= b_score (detect_behavioral_errors lower strip fromisoformat cfg session)
  <= Qmin 100 (mean (contributions_now session)) + (1 # 200).
Proof.
  intros Hne. rewrite detect_behavioral_errors_score.
  destruct (contributions_now session) as [| c cs]; [congruence |].
  apply py_round2_close.
Qed.

End BehavioralDetector.

(** ** The pre-AI ensemble *)

Lemma Qltb_true_iff (x y : Q) : Qltb x y = true <-> x < y.
Proof.
  unfold Qltb. rewrite negb_true_iff, <- not_true_iff_false, Qle_bool_iff.
  split; [apply Qnot_le_lt | apply Qlt_not_le].
Qed.

Lemma classify_spec (h m score : Q) :
  (h <= score -> classify h m score = High) /\
  (~ h <= score -> m <= score -> classify h m score = Medium) /\
  (~ h <= score -> ~ m <= score -> classify h m score = Low).
Proof.
  unfold classify.
  destruct (Qle_bool h score) eqn:Eh; destruct (Qle_bool m score) eqn:Em;
    try apply Qle_bool_iff in Eh; try apply Qle_bool_iff in Em;
    repeat split; intros; try reflexivity; try contradiction;
    try (rewrite <- Qle_bool_iff in *; congruence).
Qed.

Lemma py_sum3 (a b c : Q) : py_sum [a; b; c] == a + b + c.
Proof. unfold py_sum. cbn [fold_left]. ring. Qed.

Lemma calculate_combined_score_average self p b s :
  0 < phrase_matching (weights self) + behavioral_patterns (weights self)
      + sentiment_correlation (weights self) ->
  calculate_combined_score self p b s
  == Qmin 100 (py_round2 (weighted_average (weights self)
                            (p_score p) (b_score b) (s_score s))).
Proof.
  intros Hw. unfold calculate_combined_score.
  assert (Ht : Qltb 0 (py_sum [phrase_matching (weights self);
                               behavioral_patterns (weights self);
                               sentiment_correlation (weights self)]) = true).
  { apply Qltb_true_iff. rewrite py_sum3. exact Hw. }
  rewrite Ht. unfold weighted_average.
  apply Q.min_compat; [reflexivity |]. apply py_round2_Proper.
  rewrite py_sum3. reflexivity.
Qed.

Lemma py_round2_nonneg (x : Q) : 0 <= x -> 0 <= py_round2 x.
Proof.
  intros H. rewrite py_round2_hundredths.
  assert (H1 : (0 <= hundredths x)%Z).
  { apply hundredths_lower. change (inject_Z 0) with 0. lra. }
  rewrite Zle_Qle in H1. change (inject_Z 0) with 0 in H1.
  apply Qle_shift_div_l; lra.
Qed.

Lemma calculate_combined_score_bounds self p b s :
  nonneg_weights (weights self) ->
  0 <= p_score p -> 0 <= b_score b -> 0 <= s_score s ->
  in_range (calculate_combined_score self p b s).
Proof.
  intros (Hp & Hb & _ & Hs) Hps Hbs Hss. unfold calculate_combined_score.
  set (c := p_score p * phrase_matching (weights self)
            + b_score b * behavioral_patterns (weights self)
            + s_score s * sentiment_correlation (weights self)).
  assert (Hc : 0 <= c).
  { unfold c.
    pose proof (Qmult_le_0_compat _ _ Hps Hp).
    pose proof (Qmult_le_0_compat _ _ Hbs Hb).
    pose proof (Qmult_le_0_compat _ _ Hss Hs). lra. }
  set (a := py_sum _).
  assert (Hr : 0 <= (if Qltb 0 a then c / a else c)).
  { destruct (Qltb 0 a) eqn:Ea; [| exact Hc].
    apply Qltb_true_iff in Ea. apply Qle_shift_div_l; lra. }
  apply py_round2_nonneg in Hr. unfold in_range.
  destruct (Q.min_spec 100 (py_round2 (if Qltb 0 a then c / a else c)))
    as [[Hlt ->] | [Hle ->]]; lra.
Qed.

Section Ensemble.

Variable lower : string -> string.
Variable strip : string -> string.
Variable fromisoformat : string -> option datetime.
Variable cfg : Settings.

Lemma detect_sentiment_errors_cases session :
  let s := s_score (detect_sentiment_errors lower strip session) in
  s = 80 \/ s = 15 \/ s = 5.
Proof.
  unfold detect_sentiment_errors. cbn [s_score].
  destruct (String.eqb _ "negativo"); [tauto |].
  destruct (String.eqb _ "neutro"); [tauto |].
  destruct (String.eqb _ "positivo"); tauto.
Qed.

Lemma detect_sentiment_errors_bounds session :
  in_range (s_score (detect_sentiment_errors lower strip session)).
Proof.
  unfold in_range.
  destruct (detect_sentiment_errors_cases session) as [-> | [-> | ->]]; lra.
Qed.

Lemma detect_phrase_errors_bounds self session r :
  detect_phrase_errors lower self session = Ok r -> in_range (p_score r).
Proof.
  intros Hr. unfold in_range.
  rewrite (detect_phrase_errors_score lower self session r Hr).
  destruct (phrase_formula_whole lower (error_phrases self) (messages session))
    as (k & -> & Hk0 & Hk1).
  rewrite Zle_Qle in Hk0, Hk1. exact (conj Hk0 Hk1).
Qed.

(** What analyze_session returns, when it does. *)
Lemma analyze_session_result self session r :
  analyze_session lower strip fromisoformat cfg self session = Ok r ->
  exists p,
    detect_phrase_errors lower self session = Ok p /\
    let b := detect_behavioral_errors lower strip fromisoformat cfg session in
    let s := detect_sentiment_errors lower strip session in
    let score := calculate_combined_score self p b s in
    r = {| session_id := id session;
           confidence_score := score;
           confidence_level :=
             classify (high (thresholds self)) (medium (thresholds self)) score;
           phrase_detection := p;
           behavioral_results := b;
           sentiment_results := s;
           has_error := Qle_bool (medium (thresholds self)) score;
           ai_attached := None |}.
Proof.
  unfold analyze_session.
  destruct (detect_phrase_errors lower self session) as [p | e]; cbn [bind];
    [| discriminate].
  intros H. injection H as <-. exists p. split; reflexivity.
Qed.

(** It returns whenever the lexicon has the three counted categories only. *)
Lemma analyze_session_returns self session :
  known_lexicon (error_phrases self) ->
  exists r, analyze_session lower strip fromisoformat cfg self session = Ok r.
Proof.
  intros Hk. unfold analyze_session.
  destruct (detect_phrase_errors_returns lower self session Hk) as (p & E).
  rewrite E. cbn [bind]. eexists; reflexivity.
Qed.

End Ensemble.

(** ** Recombination with the AI judgments *)

Lemma find_none_iff {A : Type} (f : A -> bool) (l : list A) :
  find f l = None <-> forall x, In x l -> f x = false.
Proof.
  split.
  - intros H x Hx. exact (find_none f l H x Hx).
  - induction l as [| a l IH]; intros H; [reflexivity |]. cbn [find].
    rewrite (H a (or_introl eq_refl)). apply IH. intros x Hx. apply H. right. exact Hx.
Qed.

Lemma ai_results_dict_get_none (ai : list AIResult) (k : Z) :
  ai_results_dict_get ai k = None <->
  forall j, In j ai -> ai_session_id j = k -> analyzed j = false.
Proof.
  unfold ai_results_dict_get. rewrite find_none_iff. split.
  - intros H j Hj Hk. destruct (analyzed j) eqn:Ea; [| reflexivity].
    assert (Hin : In j (rev (filter analyzed ai))).
    { rewrite <- in_rev. apply filter_In. split; assumption. }
    specialize (H j Hin). rewrite Hk, Z.eqb_refl in H. discriminate.
  - intros H j Hj. rewrite <- in_rev in Hj. apply filter_In in Hj.
    destruct Hj as [Hj Ha]. destruct (Z.eqb_spec (ai_session_id j) k) as [Hk |];
      [| reflexivity].
    rewrite (H j Hj Hk) in Ha. discriminate.
Qed.

Lemma ai_results_dict_get_some (ai : list AIResult) (k : Z) (j : AIResult) :
  ai_results_dict_get ai k = Some j ->
  In j ai /\ analyzed j = true /\ ai_session_id j = k.
Proof.
  unfold ai_results_dict_get. intros H. apply find_some in H.
  destruct H as [Hin Hk]. rewrite <- in_rev in Hin. apply filter_In in Hin.
  destruct Hin as [Hin Ha]. apply Z.eqb_eq in Hk. auto.
Qed.

Section Recombination.

Variable cfg : Settings.

Lemma combine_results (basic : Analysis) (ai : option (list AIResult)) :
  results (combine_error_analyses cfg basic ai)
  = map (combine_result cfg (judgments ai)) (results basic).
Proof.
  assert (Hid : map (combine_result cfg []) (results basic) = results basic).
  { rewrite <- (map_id (results basic)) at 2. apply map_ext. reflexivity. }
  destruct ai as [[| j ai] |]; cbn [combine_error_analyses judgments results];
    [symmetry; exact Hid | reflexivity | symmetry; exact Hid].
Qed.

Lemma combine_nth (basic : Analysis) (ai : option (list AIResult)) (i : nat) :
  nth_error (results (combine_error_analyses cfg basic ai)) i
  = option_map (combine_result cfg (judgments ai)) (nth_error (results basic) i).
Proof. rewrite combine_results. apply nth_error_map. Qed.

Lemma combine_result_untouched (ai : list AIResult) (r : EnsembleResult) :
  (forall j, In j ai -> ai_session_id j = session_id r -> analyzed j = false) ->
  combine_result cfg ai r = r.
Proof.
  intros H. unfold combine_result.
  apply ai_results_dict_get_none in H. rewrite H. reflexivity.
Qed.

Lemma recombined_score_sum (r : EnsembleResult) (j : AIResult) :
  recombined_score cfg r j
  = weighted_sum (ERROR_WEIGHTS cfg) (p_score (phrase_detection r))
      (b_score (behavioral_results r)) (s_score (sentiment_results r)) (ai_score j).
Proof. reflexivity. Qed.

Lemma weighted_sum_bounds (w : Weights) (p b s a : Q) :
  nonneg_weights w -> weights_total w == 1 ->
  in_range p -> in_range b -> in_range s -> in_range a ->
  in_range (weighted_sum w p b s a).
Proof.
  unfold nonneg_weights, weights_total, in_range, weighted_sum.
  intros (Hp & Hb & Ha & Hs) Ht [Hp0 Hp1] [Hb0 Hb1] [Hs0 Hs1] [Ha0 Ha1].
  pose proof (Qmult_le_0_compat _ _ Hp0 Hp).
  pose proof (Qmult_le_0_compat _ _ Hb0 Hb).
  pose proof (Qmult_le_0_compat _ _ Hs0 Hs).
  pose proof (Qmult_le_0_compat _ _ Ha0 Ha).
  assert (p * phrase_matching w <= 100 * phrase_matching w)
    by (apply Qmult_le_compat_r; assumption).
  assert (b * behavioral_patterns w <= 100 * behavioral_patterns w)
    by (apply Qmult_le_compat_r; assumption).
  assert (s * sentiment_correlation w <= 100 * sentiment_correlation w)
    by (apply Qmult_le_compat_r; assumption).
  assert (a * ai_analysis w <= 100 * ai_analysis w)
    by (apply Qmult_le_compat_r; assumption).
  split; lra.
Qed.

End Recombination.

(** ** The AI judgment phase *)

Section Judge.

Variable strip : string -> string.
Variable prompt_of : string -> string.
Variable json_loads : string -> Outcome JsonValue.

Local Abbreviation parse_ := (parse_response strip json_loads).
Local Abbreviation analyze_ := (analyze_conversation strip prompt_of json_loads).
Local Abbreviation result_ := (session_result strip prompt_of json_loads).
Local Abbreviation submit_ := (submit_from strip prompt_of json_loads).
Local Abbreviation prompt_ := (prompt_for prompt_of).
Local Abbreviation others_ := (other_futures strip prompt_of json_loads).

Lemma parse_response_analyzed s msgs text r :
  parse_ s msgs text = Ok r -> analyzed r = true.
Proof.
  unfold parse_response.
  destruct (json_loads _) as [[a |] | e]; cbn [bind]; try discriminate.
  intros H. injection H as <-. reflexivity.
Qed.

(** A parsing failure: [json.loads] raises on the extracted text. *)
Lemma parse_response_failure s msgs text e :
  json_loads (extract_json strip text) = Raise e ->
  parse_ s msgs text = Raise e.
Proof. intros H. unfold parse_response. rewrite H. reflexivity. Qed.

(** A transport failure: the model call itself raises. *)
Lemma session_result_transport_failure generate_content s e :
  messages s <> [] ->
  generate_content (prompt_ s) = Raise e ->
  result_ generate_content s
  = degraded (id s)
      (match e with
       | JSONDecodeError _ => unbound_response_text
       | _ => str_of_exn e
       end) 50.
Proof.
  intros Hm H. unfold session_result, analyze_conversation, prompt_for in *.
  destruct (messages s) as [| m ms]; [congruence |].
  rewrite H. destruct e; reflexivity.
Qed.

Lemma session_result_parsing_failure generate_content s text e :
  messages s <> [] ->
  generate_content (prompt_ s) = Ok text ->
  json_loads (extract_json strip (strip text)) = Raise e ->
  result_ generate_content s = degraded (id s) (parsing_reason e) 50.
Proof.
  intros Hm H1 H2. unfold session_result, analyze_conversation, prompt_for in *.
  destruct (messages s) as [| m ms]; [congruence |].
  rewrite H1, (parse_response_failure s (m :: ms) _ e H2).
  destruct e; reflexivity.
Qed.

(** A recorded judgment that is not analyzed carries the score 50, or 0
    when the session has no message. *)
Lemma session_result_degraded_score generate_content s :
  analyzed (result_ generate_content s) = false ->
  ai_score (result_ generate_content s) = 50
  \/ ai_score (result_ generate_content s) = 0.
Proof.
  unfold session_result, analyze_conversation.
  destruct (messages s) as [| m ms]; [right; reflexivity |].
  destruct (generate_content _) as [text | e].
  - destruct (parse_response _ _ _ _ _) as [r | e] eqn:E.
    + intros H. apply parse_response_analyzed in E. cbn in H. congruence.
    + intros _. left. destruct e; reflexivity.
  - intros _. left. destruct e; reflexivity.
Qed.

(** The judgment of a session depends on the model only through the
    answer to that session's own prompt. *)
Lemma analyze_conversation_ext g g' s :
  g (prompt_ s) = g' (prompt_ s) ->
  analyze_ g s = analyze_ g' s.
Proof.
  intros H. unfold analyze_conversation.
  destruct (messages s) as [| m ms] eqn:E; [reflexivity |].
  unfold prompt_for in H. rewrite E in H. rewrite H. reflexivity.
Qed.

Lemma submit_from_app gen i l1 l2 :
  submit_ gen i (l1 ++ l2)
  = (submit_ gen i l1 ++ submit_ gen (i + List.length l1) l2)%list.
Proof.
  revert i. induction l1 as [| s l1 IH]; intros i; cbn.
  - rewrite Nat.add_0_r. reflexivity.
  - rewrite IH.
    replace (S i + List.length l1)%nat with (i + S (List.length l1))%nat by lia.
    reflexivity.
Qed.

Lemma submit_from_length gen i l :
  List.length (submit_ gen i l) = List.length l.
Proof.
  revert i. induction l as [| s l IH]; intros i; cbn; [reflexivity |].
  rewrite IH. reflexivity.
Qed.

Lemma submit_from_ext gen gen' i l :
  (forall n prompt, (i <= n < i + List.length l)%nat -> gen n prompt = gen' n prompt) ->
  submit_ gen i l = submit_ gen' i l.
Proof.
  revert i. induction l as [| s l IH]; intros i H; cbn; [reflexivity |].
  f_equal.
  - f_equal. apply analyze_conversation_ext. apply H. cbn. lia.
  - apply IH. intros n prompt Hn. apply H. cbn. lia.
Qed.

Lemma other_futures_ext gen gen' before after :
  (forall n prompt, n <> List.length before -> gen n prompt = gen' n prompt) ->
  others_ gen before after = others_ gen' before after.
Proof.
  intros H. unfold other_futures. f_equal; apply submit_from_ext;
    intros n prompt Hn; apply H; lia.
Qed.

Variable as_completed : list Future -> list Future.
Hypothesis as_completed_perm : forall l, Permutation (as_completed l) l.

Local Abbreviation run_ :=
  (analyze_sessions_parallel strip prompt_of json_loads as_completed).

Lemma analyze_sessions_parallel_length gen sessions :
  List.length (run_ gen sessions) = List.length sessions.
Proof.
  unfold analyze_sessions_parallel.
  rewrite length_map, (Permutation_length (as_completed_perm _)).
  apply submit_from_length.
Qed.

Lemma analyze_sessions_parallel_split gen before s after :
  Permutation
    (run_ gen (before ++ s :: after)%list)
    (result_ (gen (List.length before)) s
       :: map collect (others_ gen before after)).
Proof.
  unfold analyze_sessions_parallel.
  rewrite (Permutation_map collect (as_completed_perm _)).
  rewrite submit_from_app.
  unfold other_futures. rewrite !map_app.
  cbn [submit_from map Nat.add].
  symmetry. apply Permutation_middle.
Qed.

End Judge.

(** ** Session selection *)

Lemma id_in_true_iff (k : Z) (selected : list Session) :
  id_in k selected = true <-> In k (ids selected).
Proof.
  unfold id_in, ids. rewrite existsb_exists. split.
  - intros (x & Hx & E). apply Z.eqb_eq in E. subst. exact Hx.
  - intros H. exists k. split; [exact H | apply Z.eqb_refl].
Qed.

Lemma id_in_false_iff (k : Z) (selected : list Session) :
  id_in k selected = false <-> ~ In k (ids selected).
Proof.
  rewrite <- id_in_true_iff. destruct (id_in k selected); split; intros;
    congruence || (exfalso; auto).
Qed.

Lemma sessions_dict_get_some (sessions : list Session) (k : Z) (s : Session) :
  sessions_dict_get sessions k = Some s -> In s sessions /\ id s = k.
Proof.
  unfold sessions_dict_get. intros H. apply find_some in H.
  destruct H as [Hin Hk]. rewrite <- in_rev in Hin. apply Z.eqb_eq in Hk. auto.
Qed.

Lemma results_at_level_in sessions rs l selected s :
  In s (results_at_level sessions rs l selected) ->
  In s sessions /\ id_in (id s) selected = false /\ In (id s) (map session_id rs).
Proof.
  unfold results_at_level. rewrite in_flat_map. intros (r & Hr & Hs).
  destruct (level_eqb (confidence_level r) l); [| contradiction].
  destruct (sessions_dict_get sessions (session_id r)) as [s' |] eqn:E;
    [| contradiction].
  destruct (id_in (id s') selected) eqn:Ei; cbn [negb] in Hs; [contradiction |].
  destruct Hs as [<- | []].
  apply sessions_dict_get_some in E. destruct E as [Hin Hid].
  repeat split; [exact Hin | exact Ei |].
  rewrite Hid. apply in_map. exact Hr.
Qed.

Lemma results_at_level_NoDup sessions rs l selected :
  NoDup (map session_id rs) ->
  NoDup (ids (results_at_level sessions rs l selected)).
Proof.
  induction rs as [| r rs IH]; intros Hnd; [constructor |].
  cbn [map] in Hnd. apply NoDup_cons_iff in Hnd. destruct Hnd as [Hr Hnd].
  change (results_at_level sessions (r :: rs) l selected)
    with ((if level_eqb (confidence_level r) l then
             match sessions_dict_get sessions (session_id r) with
             | Some s => if negb (id_in (id s) selected) then [s] else []
             | None => []
             end
           else []) ++ results_at_level sessions rs l selected)%list.
  destruct (level_eqb (confidence_level r) l); [| exact (IH Hnd)].
  destruct (sessions_dict_get sessions (session_id r)) as [s |] eqn:E;
    [| exact (IH Hnd)].
  destruct (negb (id_in (id s) selected)); [| exact (IH Hnd)].
  cbn [app ids map]. constructor; [| exact (IH Hnd)].
  intros Hin. apply in_map_iff in Hin. destruct Hin as (s' & Hid & Hs').
  apply results_at_level_in in Hs'. destruct Hs' as (_ & _ & Hs').
  apply sessions_dict_get_some in E. destruct E as [_ E].
  apply Hr. rewrite <- E, <- Hid. exact Hs'.
Qed.

Lemma ids_filter_NoDup (f : Session -> bool) (sessions : list Session) :
  NoDup (ids sessions) -> NoDup (ids (filter f sessions)).
Proof.
  induction sessions as [| s sessions IH]; intros Hnd; [constructor |].
  cbn [ids map] in Hnd. apply NoDup_cons_iff in Hnd. destruct Hnd as [Hs Hnd].
  cbn [filter]. destruct (f s); [| exact (IH Hnd)].
  cbn [ids map]. constructor; [| exact (IH Hnd)].
  intros Hin. apply Hs. apply in_map_iff in Hin. destruct Hin as (s' & Hid & Hs').
  apply filter_In in Hs'. rewrite <- Hid. apply in_map. tauto.
Qed.

Lemma selection_ok_nil sessions : selection_ok sessions [].
Proof. split; [constructor | intros s []]. Qed.

(** Appending a batch of sessions not selected so far. *)
Lemma selection_ok_app sessions selected batch :
  selection_ok sessions selected ->
  NoDup (ids batch) ->
  (forall s, In s batch -> In s sessions /\ id_in (id s) selected = false) ->
  selection_ok sessions (selected ++ batch).
Proof.
  intros [Hnd Hincl] Hb Hfresh. split.
  - unfold ids. rewrite map_app. apply NoDup_app; [exact Hnd | exact Hb |].
    intros k Hk Hk'. apply in_map_iff in Hk'. destruct Hk' as (s & <- & Hs).
    apply Hfresh in Hs. destruct Hs as [_ Hs].
    apply id_in_false_iff in Hs. exact (Hs Hk).
  - intros s Hs. apply in_app_or in Hs. destruct Hs as [Hs | Hs].
    + apply Hincl. exact Hs.
    + apply Hfresh. exact Hs.
Qed.

Lemma filter_fresh (f : Session -> bool) sessions selected s :
  In s (filter (fun s => f s && negb (id_in (id s) selected)) sessions) ->
  In s sessions /\ id_in (id s) selected = false.
Proof.
  intros H. apply filter_In in H. destruct H as [Hin H].
  apply andb_true_iff in H. destruct H as [_ H]. apply negb_true_iff in H. auto.
Qed.

Lemma sample_size_le (n : nat) (rate : Q) : (sample_size n rate <= n)%nat.
Proof. unfold sample_size. lia. Qed.

Lemma py_int_le (x : Q) (n : Z) : (0 <= n)%Z -> x <= inject_Z n -> (py_int x <= n)%Z.
Proof.
  intros Hn Hx. unfold py_int. destruct x as [a b]. cbn [Qnum Qden].
  unfold Qle in Hx. cbn in Hx. rewrite Z.mul_1_r in Hx.
  destruct (Z.le_gt_cases 0 a) as [Ha | Ha].
  - rewrite Z.quot_div_nonneg by lia.
    apply Z.div_le_upper_bound; lia.
  - assert (H : (Z.quot a (Z.pos b) <= 0)%Z).
    { apply Z.quot_le_upper_bound; lia. }
    lia.
Qed.

Section Selector.

Variable cfg : Settings.
Variable RNG : Type.
Variable seed : Z -> RNG.
Variable sample : RNG -> list Session -> nat -> list Session * RNG.

(** The generator state on entry never reaches a sample: [random.seed(42)]
    comes first. *)
Lemma select_seeded g g' sessions rs :
  select_sessions_for_analysis cfg seed sample g sessions rs
  = select_sessions_for_analysis cfg seed sample g' sessions rs.
Proof. reflexivity. Qed.

Hypothesis sample_ok : sample_contract sample.

Lemma sample_fresh g l k sessions selected :
  (k <= List.length l)%nat ->
  NoDup (ids l) ->
  (forall s, In s l -> In s sessions /\ id_in (id s) selected = false) ->
  List.length (fst (sample g l k)) = k /\
  NoDup (ids (fst (sample g l k))) /\
  (forall s, In s (fst (sample g l k)) ->
             In s sessions /\ id_in (id s) selected = false).
Proof.
  intros Hk Hnd Hfresh. destruct (sample_ok g l k Hk) as (Hlen & rest & HP).
  split; [exact Hlen |]. split.
  - assert (HP' : Permutation (ids (fst (sample g l k)) ++ ids rest) (ids l)).
    { unfold ids. rewrite <- map_app. apply Permutation_map. exact HP. }
    apply Permutation_sym in HP'.
    exact (NoDup_app_remove_r _ _ (Permutation_NoDup HP' Hnd)).
  - intros s Hs. apply Hfresh. apply (Permutation_in s HP).
    apply in_or_app. left. exact Hs.
Qed.

Lemma select_priorities_ok g0 sessions rs :
  NoDup (ids sessions) -> NoDup (map session_id rs) ->
  selection_ok sessions (fst (select_priorities seed sample g0 sessions rs)).
Proof.
  intros Hs Hr. unfold select_priorities. cbn zeta. cbn [app].
  set (high := results_at_level sessions rs High []).
  assert (H1 : selection_ok sessions high).
  { apply (selection_ok_app sessions [] high (selection_ok_nil _)).
    - apply results_at_level_NoDup. exact Hr.
    - intros s Hin. apply results_at_level_in in Hin. tauto. }
  set (neg := filter _ sessions).
  assert (H2 : selection_ok sessions (high ++ neg)).
  { apply selection_ok_app; [exact H1 | |].
    - apply ids_filter_NoDup. exact Hs.
    - intros s. apply filter_fresh. }
  set (med := results_at_level sessions rs Medium (high ++ neg)).
  set (k3 := sample_size (List.length med) (3 # 10)).
  destruct (sample_fresh (seed 42) med k3 sessions (high ++ neg))
    as (_ & Hn3 & Hf3).
  { apply sample_size_le. }
  { apply results_at_level_NoDup. exact Hr. }
  { intros s Hin. apply results_at_level_in in Hin. tauto. }
  destruct (sample (seed 42) med k3) as [ms g1]. cbn [fst] in Hn3, Hf3.
  assert (H3 : selection_ok sessions ((high ++ neg) ++ ms))
    by (apply selection_ok_app; assumption).
  set (neu := filter _ sessions).
  set (k4 := sample_size (List.length neu) (1 # 10)).
  destruct (sample_fresh g1 neu k4 sessions ((high ++ neg) ++ ms))
    as (_ & Hn4 & Hf4).
  { apply sample_size_le. }
  { apply ids_filter_NoDup. exact Hs. }
  { intros s. apply filter_fresh. }
  destruct (sample g1 neu k4) as [ns g2]. cbn [fst] in Hn4, Hf4 |- *.
  apply selection_ok_app; assumption.
Qed.

(** The sessions not yet selected are exactly the rest of the population. *)
Lemma remaining_length sessions selected :
  NoDup (ids sessions) -> selection_ok sessions selected ->
  (List.length (filter (fun s => negb (id_in (id s) selected)) sessions)
   + List.length selected = List.length sessions)%nat.
Proof.
  intros Hs [Hnd Hincl].
  rewrite <- (filter_length (fun s => negb (id_in (id s) selected)) sessions).
  f_equal.
  rewrite <- (length_map id selected), <- (length_map id (filter _ sessions)).
  apply Permutation_length. apply NoDup_Permutation.
  - exact Hnd.
  - apply (ids_filter_NoDup _ sessions Hs).
  - intros k. split.
    + intros Hk. pose proof Hk as Hk'. apply in_map_iff in Hk.
      destruct Hk as (s & <- & Hin). apply in_map. apply filter_In.
      split; [apply Hincl; exact Hin |].
      rewrite negb_involutive. apply id_in_true_iff. exact Hk'.
    + intros Hk. apply in_map_iff in Hk. destruct Hk as (s & <- & Hin).
      apply filter_In in Hin. destruct Hin as [_ Hin].
      rewrite negb_involutive in Hin. apply id_in_true_iff. exact Hin.
Qed.

Lemma selection_ok_length sessions selected :
  NoDup (ids sessions) -> selection_ok sessions selected ->
  (List.length selected <= List.length sessions)%nat.
Proof.
  intros Hs [Hnd Hincl].
  rewrite <- (length_map id selected), <- (length_map id sessions).
  apply NoDup_incl_length; [exact Hnd |].
  intros k Hk. apply in_map_iff in Hk. destruct Hk as (s & <- & Hin).
  apply in_map. apply Hincl. exact Hin.
Qed.

Lemma target_total_le sessions :
  ERROR_DETECTION_SAMPLE_RATE cfg <= 1 ->
  (target_total cfg sessions <= Z.of_nat (List.length sessions))%Z.
Proof.
  intros Hrate. unfold target_total. apply py_int_le; [lia |].
  fold (Qnat (List.length sessions)).
  pose proof (Qnat_nonneg (List.length sessions)) as Hn.
  assert (H : Qnat (List.length sessions) * ERROR_DETECTION_SAMPLE_RATE cfg
              <= Qnat (List.length sessions) * 1).
  { rewrite (Qmult_comm _ (ERROR_DETECTION_SAMPLE_RATE cfg)), (Qmult_comm _ 1).
    apply Qmult_le_compat_r; assumption. }
  lra.
Qed.

Lemma select_sessions_for_analysis_ok g0 sessions rs :
  sessions <> [] ->
  NoDup (ids sessions) -> NoDup (map session_id rs) ->
  exists selected,
    fst (select_sessions_for_analysis cfg seed sample g0 sessions rs) = Ok selected /\
    selection_ok sessions selected /\
    (ERROR_DETECTION_SAMPLE_RATE cfg <= 1 ->
     Z.of_nat (List.length selected)
     = Z.max (Z.of_nat (List.length
                          (fst (select_priorities seed sample g0 sessions rs))))
             (target_total cfg sessions)).
Proof.
  intros Hne Hs Hr. unfold select_sessions_for_analysis.
  pose proof (select_priorities_ok g0 sessions rs Hs Hr) as H4.
  destruct (select_priorities seed sample g0 sessions rs) as [sel4 g4].
  cbn [fst] in H4 |- *.
  pose proof (remaining_length sessions sel4 Hs H4) as Hrem.
  set (needed := Z.max 0 (target_total cfg sessions - Z.of_nat (List.length sel4))).
  set (remaining := filter (fun s => negb (id_in (id s) sel4)) sessions) in *.
  set (k5 := Z.to_nat (Z.min needed (Z.of_nat (List.length remaining)))).
  destruct (0 <? needed)%Z eqn:En.
  - destruct (sample_fresh g4 remaining k5 sessions sel4) as (Hl5 & Hn5 & Hf5).
    { unfold k5. lia. }
    { apply ids_filter_NoDup. exact Hs. }
    { intros s Hin. apply filter_In in Hin. destruct Hin as [Hin Hf].
      apply negb_true_iff in Hf. auto. }
    destruct (sample g4 remaining k5) as [out g5]. cbn [fst] in Hl5, Hn5, Hf5.
    exists (sel4 ++ out)%list. split; [| split].
    + destruct sessions; [congruence | reflexivity].
    + apply selection_ok_app; assumption.
    + intros Hrate. pose proof (target_total_le sessions Hrate) as Ht.
      apply Z.ltb_lt in En. rewrite length_app, Hl5. unfold k5, needed in *. lia.
  - exists sel4. split; [| split].
    + destruct sessions; [congruence | reflexivity].
    + exact H4.
    + intros _. apply Z.ltb_ge in En. unfold needed in En. lia.
Qed.

End Selector.

Lemma demo_sample_contract : sample_contract demo_sample.
Proof.
  intros g l k Hk. cbn [demo_sample fst]. split.
  - apply firstn_length_le. exact Hk.
  - exists (skipn k l). rewrite firstn_skipn. reflexivity.
Qed.

(** ** Rounding to binary64 *)

Lemma hundredths_rne (x : Q) : hundredths x = rne (x * 100).
Proof. reflexivity. Qed.


Lemma rne_close (y : Q) :
  inject_Z (rne y) - (1 # 2) <= y <= inject_Z (rne y) + (1 # 2).
Proof.
  unfold rne. pose proof (Qfloor_le y) as Hl. pose proof (Qlt_floor y) as Hu.
  rewrite inject_Z_plus in Hu. change (inject_Z 1) with 1 in Hu.
  destruct (y - inject_Z (Qfloor y) ?= 1 # 2) eqn:E.
  - apply Qeq_alt in E. destruct (Z.even (Qfloor y)).
    + lra.
    + rewrite inject_Z_plus. change (inject_Z 1) with 1. lra.
  - apply Qlt_alt in E. lra.
  - apply Qgt_alt in E. rewrite inject_Z_plus. change (inject_Z 1) with 1. lra.
Qed.

Lemma rne_le_int (y : Q) (N : Z) : y <= inject_Z N -> (rne y <= N)%Z.
Proof.
  intros H. pose proof (rne_close y) as [Hl _].
  assert (Hlt : inject_Z (rne y) < inject_Z (N + 1)).
  { rewrite inject_Z_plus. change (inject_Z 1) with 1. lra. }
  rewrite <- Zlt_Qlt in Hlt. lia.
Qed.

Lemma rne_ge_int (y : Q) (N : Z) : inject_Z N <= y -> (N <= rne y)%Z.
Proof.
  intros H. pose proof (rne_close y) as [_ Hu].
  assert (Hlt : inject_Z N < inject_Z (rne y + 1)).
  { rewrite inject_Z_plus. change (inject_Z 1) with 1. lra. }
  rewrite <- Zlt_Qlt in Hlt. lia.
Qed.

Lemma pow2_pos (e : Z) : 0 < pow2 e.
Proof. apply Qpower_0_lt. reflexivity. Qed.

Lemma pow2_plus (a b : Z) : pow2 (a + b) == pow2 a * pow2 b.
Proof. apply Qpower_plus. discriminate. Qed.

Lemma pow2_le (a b : Z) : (a <= b)%Z -> pow2 a <= pow2 b.
Proof. intros H. apply Qpower_le_compat_l; [exact H | discriminate]. Qed.

Lemma pow2_lt_inv (a b : Z) : pow2 a < pow2 b -> (a < b)%Z.
Proof. intros H. apply (Qpower_lt_compat_l_inv 2); [exact H | reflexivity]. Qed.

Lemma pow2_nonneg_Z (n : Z) : (0 <= n)%Z -> pow2 n == inject_Z (2 ^ n).
Proof. intros H. unfold pow2. rewrite Zpower_Qpower by exact H. reflexivity. Qed.

Lemma pow2_opp (n : Z) : pow2 (- n) == / pow2 n.
Proof. apply Qpower_opp. Qed.

Lemma ilog2_lower (x : Q) : 0 < x -> pow2 (ilog2 x) <= x.
Proof.
  intros Hx. unfold ilog2.
  set (k := (Z.log2 (Qnum x) - Z.log2 (Z.pos (Qden x)))%Z).
  destruct (Qle_bool (pow2 k) x) eqn:E; [apply Qle_bool_iff; exact E |].
  destruct x as [n d]. cbn [Qnum Qden] in *.
  assert (Hn : (0 < n)%Z) by (unfold Qlt in Hx; cbn in Hx; lia).
  pose proof (Z.log2_nonneg n) as Ha. pose proof (Z.log2_nonneg (Z.pos d)) as Hb.
  destruct (Z.log2_spec n Hn) as [Hn1 _].
  destruct (Z.log2_spec (Z.pos d) (Pos2Z.is_pos d)) as [_ Hd2].
  replace (k - 1)%Z with (Z.log2 n + - (Z.succ (Z.log2 (Z.pos d))))%Z
    by (unfold k; lia).
  rewrite pow2_plus, pow2_opp, !pow2_nonneg_Z by lia.
  set (A := (2 ^ Z.log2 n)%Z) in *. set (B := (2 ^ Z.succ (Z.log2 (Z.pos d)))%Z) in *.
  assert (HB : (0 < B)%Z) by lia.
  assert (HA : (0 < A)%Z) by (unfold A; apply Z.pow_pos_nonneg; lia).
  apply Qle_shift_div_r; [change 0 with (inject_Z 0); rewrite <- Zlt_Qlt; exact HB |].
  unfold Qle, Qmult, inject_Z. cbn. nia.
Qed.

Lemma ilog2_zero (x : Q) : Qnum x = 0%Z -> (ilog2 x <= 0)%Z.
Proof.
  intros H. unfold ilog2. rewrite H. change (Z.log2 0) with 0%Z.
  pose proof (Z.log2_nonneg (Z.pos (Qden x))).
  destruct (Qle_bool _ _); lia.
Qed.

Lemma ilog2_upper (x B : Q) : 0 <= x -> x <= B -> 1 <= B -> pow2 (ilog2 x) <= B.
Proof.
  intros H0 HB H1.
  destruct (Z.eq_dec (Qnum x) 0) as [E | E].
  - apply Qle_trans with (pow2 0); [| exact H1].
    apply pow2_le. apply ilog2_zero. exact E.
  - apply Qle_trans with x; [| exact HB]. apply ilog2_lower.
    unfold Qlt, Qle in *. cbn in *. lia.
Qed.

Lemma nearest64_eq (x : Q) :
  nearest64 x
  == inject_Z (rne (x / pow2 (ulp_exponent x))) * pow2 (ulp_exponent x).
Proof. unfold nearest64. apply Qred_correct. Qed.

Lemma nearest64_half_ulp (x : Q) :
  Qabs (nearest64 x - x) <= pow2 (ulp_exponent x) * (1 # 2).
Proof.
  rewrite nearest64_eq. set (s := pow2 (ulp_exponent x)).
  assert (Hs : 0 < s) by apply pow2_pos.
  destruct (rne_close (x / s)) as [Hl Hu].
  set (r := inject_Z (rne (x / s))) in *.
  assert (Hx : x / s * s == x) by (field; lra).
  apply (Qmult_le_compat_r _ _ s) in Hl; [| lra].
  apply (Qmult_le_compat_r _ _ s) in Hu; [| lra].
  rewrite Hx in Hl, Hu.
  apply Qabs_Qle_condition. split; lra.
Qed.

Lemma ulp_bound (x B : Q) :
  Qabs x <= B -> 1 <= B -> pow2 (ulp_exponent x) <= B * pow2 (-52).
Proof.
  intros HB H1. unfold ulp_exponent.
  assert (Hp : 0 < pow2 (-52)) by apply pow2_pos.
  destruct (Z.max_spec (ilog2 (Qabs x) - 52) (-1074)) as [[_ ->] | [_ ->]].
  - apply Qle_trans with (1 * pow2 (-52)).
    + rewrite Qmult_1_l. apply pow2_le. lia.
    + apply Qmult_le_compat_r; lra.
  - unfold Z.sub. rewrite pow2_plus.
    apply Qmult_le_compat_r; [| lra].
    apply ilog2_upper; [apply Qabs_nonneg | exact HB | exact H1].
Qed.

Lemma nearest64_error (x B : Q) :
  Qabs x <= B -> 1 <= B -> Qabs (nearest64 x - x) <= B * u53.
Proof.
  intros HB H1.
  apply Qle_trans with (pow2 (ulp_exponent x) * (1 # 2));
    [apply nearest64_half_ulp |].
  pose proof (ulp_bound x B HB H1) as H.
  assert (E : pow2 (-52) == 2 * u53) by reflexivity.
  rewrite E in H. lra.
Qed.

Lemma ulp_exponent_nonpos (x : Q) (n : Z) :
  Qabs x <= inject_Z n -> (n < 2 ^ 53)%Z -> (ulp_exponent x <= 0)%Z.
Proof.
  intros Hx Hn. unfold ulp_exponent.
  assert (H : (ilog2 (Qabs x) <= 52)%Z).
  { destruct (Z.eq_dec (Qnum (Qabs x)) 0) as [E | E].
    - pose proof (ilog2_zero _ E). lia.
    - assert (Hpos : 0 < Qabs x).
      { pose proof (Qabs_nonneg x) as H0. unfold Qlt, Qle in *. cbn in *. lia. }
      pose proof (ilog2_lower _ Hpos) as Hl.
      assert (Hlt : pow2 (ilog2 (Qabs x)) < pow2 53).
      { rewrite (pow2_nonneg_Z 53) by lia.
        apply Qle_lt_trans with (inject_Z n); [lra |].
        rewrite <- Zlt_Qlt. exact Hn. }
      apply pow2_lt_inv in Hlt. lia. }
  lia.
Qed.

Lemma nearest64_nonneg (x : Q) : 0 <= x -> 0 <= nearest64 x.
Proof.
  intros Hx. rewrite nearest64_eq. set (s := pow2 (ulp_exponent x)).
  assert (Hs : 0 < s) by apply pow2_pos.
  apply Qmult_le_0_compat; [| lra].
  change 0 with (inject_Z 0). rewrite <- Zle_Qle. apply rne_ge_int.
  change (inject_Z 0) with 0. apply Qle_shift_div_l; lra.
Qed.

Lemma nearest64_bounded (x : Q) (n : Z) :
  Qabs x <= inject_Z n -> (n < 2 ^ 53)%Z -> Qabs (nearest64 x) <= inject_Z n.
Proof.
  intros Hx Hn.
  pose proof (ulp_exponent_nonpos x n Hx Hn) as He.
  rewrite nearest64_eq. set (e := ulp_exponent x) in *.
  set (m := (2 ^ (- e))%Z).
  assert (Hm : (0 < m)%Z) by (unfold m; apply Z.pow_pos_nonneg; lia).
  assert (HmQ : 0 < inject_Z m)
    by (change 0 with (inject_Z 0); rewrite <- Zlt_Qlt; exact Hm).
  assert (Hs : pow2 e == / inject_Z m).
  { replace e with (- - e)%Z by lia. rewrite pow2_opp, pow2_nonneg_Z by lia.
    reflexivity. }
  apply Qabs_Qle_condition in Hx. destruct Hx as [Hx1 Hx2].
  assert (Hd : x / pow2 e == x * inject_Z m) by (rewrite Hs; field; lra).
  assert (H1 : (rne (x / pow2 e) <= n * m)%Z).
  { apply rne_le_int. rewrite Hd, inject_Z_mult.
    apply Qmult_le_compat_r; lra. }
  assert (H2 : (- (n * m) <= rne (x / pow2 e))%Z).
  { apply rne_ge_int. rewrite Hd, inject_Z_opp, inject_Z_mult.
    setoid_replace (- (inject_Z n * inject_Z m)) with ((- inject_Z n) * inject_Z m)
      by ring.
    apply Qmult_le_compat_r; lra. }
  rewrite Zle_Qle in H1, H2. rewrite inject_Z_opp in H2.
  rewrite inject_Z_mult in H1, H2.
  set (r := inject_Z (rne (x / pow2 e))) in *.
  rewrite Hs.
  apply Qabs_Qle_condition. split.
  - apply Qle_shift_div_l; [exact HmQ |]. lra.
  - apply Qle_shift_div_r; [exact HmQ |]. lra.
Qed.

Lemma round64_finite (x : Q) (n : Z) :
  Qabs x <= inject_Z n -> (n < 2 ^ 53)%Z -> round64 x = Finite (nearest64 x).
Proof.
  intros Hx Hn. unfold round64.
  pose proof (nearest64_bounded x n Hx Hn) as Hb.
  destruct (Qle_bool (pow2 1024) (Qabs (nearest64 x))) eqn:E; [| reflexivity].
  exfalso. apply Qle_bool_iff in E.
  assert (H : pow2 1024 <= inject_Z n) by lra.
  rewrite (pow2_nonneg_Z 1024) in H by lia. rewrite <- Zle_Qle in H.
  assert ((2 ^ 53 < 2 ^ 1024)%Z) by (apply Z.pow_lt_mono_r; lia). lia.
Qed.

(** ** Accuracy of the float operations *)

Lemma round64_close (x : Q) (n : Z) :
  Qabs x <= inject_Z n -> (1 <= n)%Z -> (n < 2 ^ 53)%Z ->
  exists y, round64 x = Finite y /\ Qabs y <= inject_Z n /\
            Qabs (y - x) <= inject_Z n * u53.
Proof.
  intros Hx H1 Hn. exists (nearest64 x).
  split; [exact (round64_finite x n Hx Hn) |].
  split; [exact (nearest64_bounded x n Hx Hn) |].
  apply nearest64_error; [exact Hx |].
  change 1 with (inject_Z 1). rewrite <- Zle_Qle. exact H1.
Qed.

Lemma mul_close (a a' b b' A B da db : Q) :
  Qabs a <= A -> Qabs b' <= B -> Qabs (a' - a) <= da -> Qabs (b' - b) <= db ->
  Qabs (a' * b' - a * b) <= A * db + B * da.
Proof.
  intros Ha Hb Hda Hdb.
  setoid_replace (a' * b' - a * b) with (a * (b' - b) + (a' - a) * b') by ring.
  eapply Qle_trans; [apply Qabs_triangle |].
  rewrite !Qabs_Qmult.
  assert (H1 : Qabs a * Qabs (b' - b) <= A * db).
  { apply Qmult_le_compat_nonneg; split;
      (apply Qabs_nonneg || assumption). }
  assert (H2 : Qabs (a' - a) * Qabs b' <= da * B).
  { apply Qmult_le_compat_nonneg; split;
      (apply Qabs_nonneg || assumption). }
  lra.
Qed.

Lemma approx_round (v : Q) (n : Z) :
  Qabs v <= inject_Z n -> (1 <= n)%Z -> (n < 2 ^ 53)%Z ->
  approx (round64 v) v (inject_Z n) (inject_Z n * u53).
Proof.
  intros Hv H1 Hn. destruct (round64_close v n Hv H1 Hn) as (y & E & Hy & Hd).
  exists y. auto.
Qed.

Lemma approx_mul (x y : float) (v w B1 B2 d1 d2 : Q) (n : Z) :
  approx x v B1 d1 -> approx y w B2 d2 ->
  B1 * B2 <= inject_Z n -> (1 <= n)%Z -> (n < 2 ^ 53)%Z ->
  approx (fmul x y) (v * w) (inject_Z n) (B1 * d2 + B2 * d1 + inject_Z n * u53).
Proof.
  intros (x' & -> & Hx & Hv & Hdx) (y' & -> & Hy & Hw & Hdy) HB H1 Hn.
  cbn [fmul].
  assert (Hp : forall a b, Qabs a <= B1 -> Qabs b <= B2 -> Qabs (a * b) <= inject_Z n).
  { intros a b Ha Hb. rewrite Qabs_Qmult.
    apply Qle_trans with (B1 * B2); [| exact HB].
    apply Qmult_le_compat_nonneg; split; (apply Qabs_nonneg || assumption). }
  destruct (round64_close (x' * y') n (Hp _ _ Hx Hy) H1 Hn) as (z & E & Hz & Hd).
  exists z. split; [exact E |]. split; [exact Hz |]. split; [exact (Hp _ _ Hv Hw) |].
  pose proof (mul_close v x' w y' B1 B2 d1 d2 Hv Hy Hdx Hdy) as Hm.
  setoid_replace (z - v * w) with ((z - x' * y') + (x' * y' - v * w)) by ring.
  eapply Qle_trans; [apply Qabs_triangle |]. lra.
Qed.

Lemma approx_add (x y : float) (v w B1 B2 d1 d2 : Q) (n : Z) :
  approx x v B1 d1 -> approx y w B2 d2 ->
  B1 + B2 <= inject_Z n -> (1 <= n)%Z -> (n < 2 ^ 53)%Z ->
  approx (fadd x y) (v + w) (inject_Z n) (d1 + d2 + inject_Z n * u53).
Proof.
  intros (x' & -> & Hx & Hv & Hdx) (y' & -> & Hy & Hw & Hdy) HB H1 Hn.
  cbn [fadd].
  assert (Hp : forall a b, Qabs a <= B1 -> Qabs b <= B2 -> Qabs (a + b) <= inject_Z n).
  { intros a b Ha Hb. eapply Qle_trans; [apply Qabs_triangle |]. lra. }
  destruct (round64_close (x' + y') n (Hp _ _ Hx Hy) H1 Hn) as (z & E & Hz & Hd).
  exists z. split; [exact E |]. split; [exact Hz |]. split; [exact (Hp _ _ Hv Hw) |].
  setoid_replace (z - (v + w)) with ((z - (x' + y')) + ((x' - v) + (y' - w))) by ring.
  eapply Qle_trans; [apply Qabs_triangle |].
  pose proof (Qabs_triangle (x' - v) (y' - w)). lra.
Qed.

Lemma approx_weaken (x : float) (v B B' d d' : Q) :
  approx x v B d -> B <= B' -> d <= d' -> approx x v B' d'.
Proof.
  intros (y & E & Hy & Hv & Hd) HB Hdd. exists y. repeat split; try assumption; lra.
Qed.

Lemma float_value_number (v : PyValue) (a : Q) (M : Z) :
  number_of v = Some a -> Qabs a <= inject_Z M -> (1 <= M)%Z -> (M < 2 ^ 53)%Z ->
  exists x, float_value v = Ok x /\ approx x a (inject_Z M) (inject_Z M * u53).
Proof.
  intros Hv Ha H1 HM.
  assert (H0 : 0 <= inject_Z M * u53).
  { apply Qmult_le_0_compat; [| discriminate].
    change 0 with (inject_Z 0). rewrite <- Zle_Qle. lia. }
  assert (Hself : forall q, Qabs q <= inject_Z M ->
                    approx (Finite q) q (inject_Z M) (inject_Z M * u53)).
  { intros q Hq. exists q. repeat split; try assumption.
    setoid_replace (q - q) with 0 by ring. exact H0. }
  destruct v as [n | [q | |] | b | | | |]; cbn [number_of] in Hv;
    try discriminate Hv; injection Hv as <-.
  - destruct (round64_close (inject_Z n) M Ha H1 HM) as (y & E & Hy & Hd).
    exists (Finite y). cbn [float_value]. rewrite E. split; [reflexivity |].
    exists y. auto.
  - exists (Finite q). split; [reflexivity | exact (Hself q Ha)].
  - exists (Finite (if b then 1 else 0)). split; [reflexivity | exact (Hself _ Ha)].
Qed.

Lemma in_range_abs (x : Q) : in_range x -> Qabs x <= inject_Z 100.
Proof.
  intros [H0 H1]. apply Qabs_Qle_condition. change (inject_Z 100) with 100. lra.
Qed.

Lemma unit_abs (x : Q) : 0 <= x -> x <= 1 -> Qabs x <= inject_Z 1.
Proof.
  intros H0 H1. apply Qabs_Qle_condition. change (inject_Z 1) with 1. lra.
Qed.

Lemma recombined_score_close (cfg : Settings) (r : Py.Result) (j : Py.Judgment)
    (a : Q) :
  in_range (p_score (Py.r_phrase_detection r)) ->
  in_range (b_score (Py.r_behavioral_patterns r)) ->
  in_range (s_score (Py.r_sentiment_correlation r)) ->
  nonneg_weights (ERROR_WEIGHTS cfg) ->
  weights_total (ERROR_WEIGHTS cfg) == 1 ->
  number_of (Py.j_score j) = Some a ->
  Qabs a <= 1000000 ->
  exists c,
    Py.recombined_score cfg r j = Ok (Finite c) /\
    Qabs c <= 1000300 /\
    Qabs (c - weighted_sum (ERROR_WEIGHTS cfg)
                (p_score (Py.r_phrase_detection r))
                (b_score (Py.r_behavioral_patterns r))
                (s_score (Py.r_sentiment_correlation r)) a)
    <= 4001700 * u53.
Proof.
  intros Hp Hb Hs (W1 & W2 & W3 & W4) Ht Hn Ha.
  unfold weights_total in Ht.
  set (w := ERROR_WEIGHTS cfg) in *.
  unfold Py.recombined_score, mul_weight, weighted_sum. fold w.
  destruct (float_value_number _ a 1000000 Hn Ha) as (x & Ex & Hx); [lia | lia |].
  rewrite Ex. cbn [bind].
  assert (L1 : (1 <= 1)%Z) by lia. assert (L2 : (1 < 2 ^ 53)%Z) by lia.
  assert (C1 : (1 <= 100)%Z) by lia. assert (C2 : (100 < 2 ^ 53)%Z) by lia.
  pose proof (approx_round _ 100 (in_range_abs _ Hp) C1 C2) as AP.
  pose proof (approx_round _ 100 (in_range_abs _ Hb) C1 C2) as AB.
  pose proof (approx_round _ 100 (in_range_abs _ Hs) C1 C2) as AS.
  assert (WP : approx (round64 (phrase_matching w)) (phrase_matching w)
                 (inject_Z 1) (inject_Z 1 * u53))
    by (apply approx_round; [apply unit_abs; lra | lia | lia]).
  assert (WB : approx (round64 (behavioral_patterns w)) (behavioral_patterns w)
                 (inject_Z 1) (inject_Z 1 * u53))
    by (apply approx_round; [apply unit_abs; lra | lia | lia]).
  assert (WS : approx (round64 (sentiment_correlation w)) (sentiment_correlation w)
                 (inject_Z 1) (inject_Z 1 * u53))
    by (apply approx_round; [apply unit_abs; lra | lia | lia]).
  assert (WA : approx (round64 (ai_analysis w)) (ai_analysis w)
                 (inject_Z 1) (inject_Z 1 * u53))
    by (apply approx_round; [apply unit_abs; lra | lia | lia]).
  pose proof (approx_mul _ _ _ _ _ _ _ _ 100 AP WP) as M1.
  pose proof (approx_mul _ _ _ _ _ _ _ _ 100 AB WB) as M2.
  pose proof (approx_mul _ _ _ _ _ _ _ _ 100 AS WS) as M3.
  pose proof (approx_mul _ _ _ _ _ _ _ _ 1000000 Hx WA) as M4.
  specialize (M1 ltac:(apply Qle_bool_iff; reflexivity) ltac:(lia) ltac:(lia)).
  specialize (M2 ltac:(apply Qle_bool_iff; reflexivity) ltac:(lia) ltac:(lia)).
  specialize (M3 ltac:(apply Qle_bool_iff; reflexivity) ltac:(lia) ltac:(lia)).
  specialize (M4 ltac:(apply Qle_bool_iff; reflexivity) ltac:(lia) ltac:(lia)).
  pose proof (approx_add _ _ _ _ _ _ _ _ 200 M1 M2
                ltac:(apply Qle_bool_iff; reflexivity) ltac:(lia) ltac:(lia)) as S1.
  pose proof (approx_add _ _ _ _ _ _ _ _ 300 S1 M3
                ltac:(apply Qle_bool_iff; reflexivity) ltac:(lia) ltac:(lia)) as S2.
  pose proof (approx_add _ _ _ _ _ _ _ _ 1000300 S2 M4
                ltac:(apply Qle_bool_iff; reflexivity) ltac:(lia) ltac:(lia)) as S3.
  destruct S3 as (c & Ec & Hc & _ & Hd).
  exists c. split; [rewrite Ec; reflexivity |]. split; [exact Hc |].
  eapply Qle_trans; [exact Hd |]. apply Qle_bool_iff. vm_compute. reflexivity.
Qed.

Lemma fround2_close (c : Q) (n : Z) :
  Qabs c <= inject_Z n - 1 -> (1 <= n)%Z -> (n < 2 ^ 53)%Z ->
  exists s, fround2 (Finite c) = Finite s /\ Qabs s <= inject_Z n /\
            Qabs (s - c) <= (1 # 200) + inject_Z n * u53.
Proof.
  intros Hc H1 Hn. cbn [fround2]. fold (py_round2 c).
  pose proof (py_round2_close c) as [Hl Hu].
  assert (Hr : Qabs (py_round2 c) <= inject_Z n).
  { apply Qabs_Qle_condition in Hc. apply Qabs_Qle_condition. lra. }
  destruct (round64_close _ n Hr H1 Hn) as (s & E & Hs & Hd).
  exists s. split; [exact E |]. split; [exact Hs |].
  setoid_replace (s - c) with ((s - py_round2 c) + (py_round2 c - c)) by ring.
  eapply Qle_trans; [apply Qabs_triangle |].
  assert (Qabs (py_round2 c - c) <= 1 # 200) by (apply Qabs_Qle_condition; lra).
  lra.
Qed.

(** ** The recombination loop *)

Section Recombining.

Variable cfg : Settings.
Variable ai : list Py.Judgment.

Local Abbreviation rewritten := (Py.rewritten cfg ai).

Lemma update_results_returns (rs : list Py.Result) :
  snd (Py.update_results cfg ai rs) = None ->
  Forall2 rewritten rs (fst (Py.update_results cfg ai rs)).
Proof.
  induction rs as [| r rs IH]; cbn [Py.update_results]; [constructor |].
  destruct (Py.ai_results_dict_get ai (Py.r_session_id r)) as [j |] eqn:E.
  - destruct (Py.update_result cfg r j) as [r' | e] eqn:U; [| discriminate].
    destruct (Py.update_results cfg ai rs) as [rest' e']. cbn [fst snd] in *.
    intros H. constructor; [| exact (IH H)].
    unfold Py.rewritten. rewrite E. exact U.
  - destruct (Py.update_results cfg ai rs) as [rest' e']. cbn [fst snd] in *.
    intros H. constructor; [| exact (IH H)].
    unfold Py.rewritten. rewrite E. reflexivity.
Qed.

Lemma update_results_raises (rs : list Py.Result) (e : exn) :
  snd (Py.update_results cfg ai rs) = Some e ->
  exists before before' r j after,
    rs = (before ++ r :: after)%list /\
    fst (Py.update_results cfg ai rs) = (before' ++ r :: after)%list /\
    Forall2 rewritten before before' /\
    Py.ai_results_dict_get ai (Py.r_session_id r) = Some j /\
    Py.update_result cfg r j = Raise e.
Proof.
  induction rs as [| r rs IH]; cbn [Py.update_results]; [discriminate |].
  destruct (Py.ai_results_dict_get ai (Py.r_session_id r)) as [j |] eqn:E.
  - destruct (Py.update_result cfg r j) as [r' | e0] eqn:U.
    + destruct (Py.update_results cfg ai rs) as [rest' e']. cbn [fst snd] in *.
      intros H. destruct (IH H) as (b & b' & r0 & j0 & a & -> & -> & HF & Hj & Hu).
      exists (r :: b), (r' :: b'), r0, j0, a. repeat split; try assumption.
      constructor; [| exact HF]. unfold rewritten. rewrite E. exact U.
    + cbn [fst snd]. intros H. injection H as <-.
      exists [], [], r, j, rs. repeat split; try assumption. constructor.
  - destruct (Py.update_results cfg ai rs) as [rest' e']. cbn [fst snd] in *.
    intros H. destruct (IH H) as (b & b' & r0 & j0 & a & -> & -> & HF & Hj & Hu).
    exists (r :: b), (r :: b'), r0, j0, a. repeat split; try assumption.
    constructor; [| exact HF]. unfold rewritten. rewrite E. reflexivity.
Qed.

Lemma update_result_session_id (r r' : Py.Result) (j : Py.Judgment) :
  Py.update_result cfg r j = Ok r' ->
  Py.r_session_id r' = Py.r_session_id r /\
  Py.r_phrase_detection r' = Py.r_phrase_detection r /\
  Py.r_behavioral_patterns r' = Py.r_behavioral_patterns r /\
  Py.r_sentiment_correlation r' = Py.r_sentiment_correlation r.
Proof.
  unfold Py.update_result.
  destruct (Py.recombined_score cfg r j) as [c | e]; cbn [bind]; [| discriminate].
  intros H. injection H as <-. repeat split.
Qed.

End Recombining.

Lemma combine_returns_results (cfg : Settings) (basic : Py.ErrorAnalysis)
    (ai : option (list Py.Judgment)) :
  snd (Py.combine_error_analyses cfg basic ai) = None ->
  Forall2 (Py.rewritten cfg (Py.judgments ai)) (Py.a_results basic)
    (Py.a_results (fst (Py.combine_error_analyses cfg basic ai))).
Proof.
  assert (Hid : forall l, Forall2 (Py.rewritten cfg []) l l).
  { induction l; constructor; [reflexivity | assumption]. }
  destruct ai as [[| j0 ai] |]; cbn [Py.combine_error_analyses Py.judgments];
    [intros _; apply Hid | | intros _; apply Hid].
  pose proof (update_results_returns cfg (j0 :: ai) (Py.a_results basic)) as H.
  destruct (Py.update_results cfg (j0 :: ai) (Py.a_results basic)) as [rs [e |]];
    cbn [fst snd] in *; [discriminate |].
  intros _. apply H. reflexivity.
Qed.

Lemma Forall2_nth {A B : Type} (R : A -> B -> Prop) (l : list A) (l' : list B)
    (i : nat) (x : A) :
  Forall2 R l l' -> nth_error l i = Some x ->
  exists y, nth_error l' i = Some y /\ R x y.
Proof.
  intros HF. revert i. induction HF as [| a b l l' Hab _ IH]; intros [| i];
    cbn [nth_error]; try discriminate.
  - intros H. injection H as <-. exists b. auto.
  - apply IH.
Qed.

Lemma py_ai_results_dict_get_some (ai : list Py.Judgment) (k : Z) (j : Py.Judgment) :
  Py.ai_results_dict_get ai k = Some j ->
  In j ai /\ Py.j_analyzed j = true /\ Py.j_session_id j = k.
Proof.
  unfold Py.ai_results_dict_get. intros H. apply find_some in H.
  destruct H as [Hin Hk]. rewrite <- in_rev in Hin. apply filter_In in Hin.
  apply Z.eqb_eq in Hk. tauto.
Qed.

(* ===================================================================== *)
(** * The claims *)
(* ===================================================================== *)

Lemma demo_lexicon_known : known_lexicon demo_lexicon.
Proof.
  intros item Hin. cbn in Hin.
  destruct Hin as [<- | [<- | [<- | []]]]; reflexivity.
Qed.

Lemma settings_valid : valid_configuration settings.
Proof.
  unfold valid_configuration, in_range, weights_total. cbn.
  repeat split; try reflexivity; unfold Qle; cbn; lia.
Qed.

Lemma settings_nonneg : nonneg_weights (ERROR_WEIGHTS settings).
Proof. unfold nonneg_weights. cbn. repeat split; unfold Qle; cbn; lia. Qed.

(** ** C1: the pre-AI ensemble *)




(** ** C2: recombination with an AI judgment *)


(** The pre-AI analysis of the single session [session_abandoned]. *)
Lemma analyze_all_sessions_abandoned :
  exists basic,
    analyze_all_sessions ascii_lower ascii_strip no_parser settings demo_detector
      [session_abandoned] = Ok basic /\
    results basic = [demo_result session_abandoned].
Proof. eexists. split; vm_compute; reflexivity. Qed.



(** The sum is rounded as the float it is: with phrase score 0, behavioral
    score 27.5, sentiment score 80 and a judge score of 2 the exact sum is
    15.575, which rounds half-even to 15.58; the double of the float sum
    lies below it and the stored score is 15.57. *)
Example recombination_rounds_the_float_sum :
  let r :=
    {| Py.r_session_id := 1; Py.r_confidence_score := round64 (2288 # 100);
       Py.r_confidence_level := Low;
       Py.r_phrase_detection :=
         {| p_score := 0; matched_phrases := []; categories := None;
            total_matches := 0 |};
       Py.r_behavioral_patterns :=
         {| b_score := 55 # 2;
            patterns := ["short_conversation"; "repeated_messages"];
            pattern_count := 2 |};
       Py.r_sentiment_correlation :=
         {| s_score := 80; sentiment := Some "Negativo" |};
       Py.r_has_error := false; Py.r_ai_analysis := None |} in
  let j :=
    {| Py.j_session_id := 1; Py.j_analyzed := true; Py.j_error := None;
       Py.j_score := PyInt 2; Py.j_details := None |} in
  (exists r', Py.update_result settings r j = Ok r' /\
              Py.r_confidence_score r' = round64 (1557 # 100)) /\
  py_round2 (weighted_sum (ERROR_WEIGHTS settings) 0 (55 # 2) 80 2) == 1558 # 100.
Proof.
  cbn zeta. split; [eexists; split; vm_compute; reflexivity |].
  vm_compute. reflexivity.
Qed.

(** ** C3: ranges of the scores *)




(** ** C4: the behavioral score *)

(** C4, as amended.  The behavioral score is the arithmetic mean of the
    contributions of the triggered patterns, capped at 100 and then rounded
    to two decimals; with no pattern triggered it is exactly 0.  The
    patterns reported are the triggered ones. *)
Theorem detect_behavioral_errors_mean
    (lower strip : string -> string) (fromisoformat : string -> option datetime)
    (cfg : Settings) (session : Session) :
  let r := detect_behavioral_errors lower strip fromisoformat cfg session in
  patterns r
    = map pattern_name (triggered_patterns lower strip fromisoformat cfg session) /\
  b_score r
    == match contributions lower strip fromisoformat cfg session with
       | [] => 0
       | cs => py_round2 (Qmin 100 (mean cs))
       end.
Proof.
  cbn zeta. split.
  - unfold detect_behavioral_errors. rewrite behavioral_state_patterns. reflexivity.
  - rewrite detect_behavioral_errors_score.
    destruct (contributions lower strip fromisoformat cfg session);
      [exact (py_round2_inject_Z 0) | reflexivity].
Qed.

(** C4 as stated fails: [session_abandoned] triggers contributions 30, 40
    and 10, whose mean is 80/3 = 26.666..., and scores 26.67. *)
Lemma detect_behavioral_errors_mean_unrounded_fails :
  contributions ascii_lower ascii_strip no_parser settings session_abandoned
    = [30; 40; 10] /\
  ~ b_score (detect_behavioral_errors ascii_lower ascii_strip no_parser settings
               session_abandoned)
    == Qmin 100 (mean (contributions ascii_lower ascii_strip no_parser settings
                         session_abandoned)).
Proof.
  split; [vm_compute; reflexivity |].
  vm_compute. intros H. discriminate H.
Qed.

Example detect_behavioral_errors_abandoned :
  detect_behavioral_errors ascii_lower ascii_strip no_parser settings
    session_abandoned
  = {| b_score := py_round2 (Qmin 100 (mean [30; 40; 10]));
       patterns := ["short_conversation"; "rapid_abandonment";
                    "no_sentiment_analysis"];
       pattern_count := 3 |}.
Proof. reflexivity. Qed.

Example detect_behavioral_errors_no_pattern :
  b_score (detect_behavioral_errors ascii_lower ascii_strip no_parser settings
             session_neutral) == 0.
Proof. reflexivity. Qed.

(** ** C5: the phrase matcher *)

(** C5.  A session without messages scores 0.  With a lexicon of the three
    counted categories the matcher returns; whenever it returns, its score
    is the hit counts of the three categories weighted 1.0, 1.5 and 2.0,
    times 10, capped at 100, where a hit is one phrase whose lowered form is
    contained in the lowered content of one message.  Hits add up over the
    messages, and the score does not depend on the order of the messages. *)
Theorem detect_phrase_errors_spec
    (lower : string -> string) (self : ErrorDetector) (session : Session) :
  (messages session = [] ->
   exists r, detect_phrase_errors lower self session = Ok r /\ p_score r = 0) /\
  (known_lexicon (error_phrases self) ->
   exists r, detect_phrase_errors lower self session = Ok r) /\
  (forall r,
     detect_phrase_errors lower self session = Ok r ->
     p_score r == phrase_formula lower (error_phrases self) (messages session) /\
     (forall session' r',
        Permutation (messages session) (messages session') ->
        detect_phrase_errors lower self session' = Ok r' ->
        p_score r' == p_score r)) /\
  (forall key ms1 ms2,
     hits lower (error_phrases self) key (ms1 ++ ms2)
     = (hits lower (error_phrases self) key ms1
        + hits lower (error_phrases self) key ms2)%nat).
Proof.
  split; [| split; [| split]].
  - intros Hm. unfold detect_phrase_errors. rewrite Hm.
    eexists. split; reflexivity.
  - apply detect_phrase_errors_returns.
  - intros r Hr.
    pose proof (detect_phrase_errors_score lower self session r Hr) as Hs.
    split; [exact Hs |].
    intros session' r' HP Hr'.
    rewrite Hs, (detect_phrase_errors_score lower self session' r' Hr').
    unfold phrase_formula.
    rewrite !(hits_Permutation lower _ _ _ _ HP). reflexivity.
  - intros key ms1 ms2. apply hits_app.
Qed.

Lemma detect_phrase_errors_spec_witness :
  known_lexicon (error_phrases demo_detector) /\
  exists r,
    detect_phrase_errors ascii_lower demo_detector session_negative = Ok r /\
    p_score r == phrase_formula ascii_lower (error_phrases demo_detector)
                   (messages session_negative) /\
    hits ascii_lower (error_phrases demo_detector) "error_indicators"
      (messages session_negative) = 2%nat /\
    p_score r == 20.
Proof.
  assert (Hk : known_lexicon (error_phrases demo_detector))
    by exact demo_lexicon_known.
  split; [exact Hk |].
  destruct (detect_phrase_errors_spec ascii_lower demo_detector session_negative)
    as (_ & Hret & Hres & _).
  destruct (Hret Hk) as (r & Hr).
  destruct (Hres r Hr) as (Hs & _).
  exists r. split; [exact Hr |]. split; [exact Hs |]. split; [reflexivity |].
  rewrite Hs. reflexivity.
Defined.

(** A phrase counts once per message containing it, however often it occurs
    there; a matched phrase of a category outside the three counted ones
    raises KeyError. *)
Example phrase_counts_once_per_message :
  hits ascii_lower demo_lexicon "error_indicators" [human "erro, erro, erro"] = 1%nat.
Proof. reflexivity. Qed.

Example unknown_category_raises :
  detect_phrase_errors ascii_lower
    (detector_of settings [("other", ["erro"])]) session_neutral
  = Raise (KeyError "other").
Proof. reflexivity. Qed.

(** ** C6: the selection is reproducible *)

(** C6.  With the same sessions, error-detection results and target rate,
    the selection does not depend on the state in which the process-wide
    random generator is found: it is seeded with 42 before the first
    sample.  In particular a second invocation, which starts from the state
    the first one left, returns the same selection. *)
Theorem select_sessions_for_analysis_deterministic
    (cfg : Settings) (RNG : Type) (seed : Z -> RNG)
    (sample : RNG -> list Session -> nat -> list Session * RNG)
    (g g' : RNG) (sessions : list Session) (rs : list EnsembleResult) :
  select_sessions_for_analysis cfg seed sample g sessions rs
  = select_sessions_for_analysis cfg seed sample g' sessions rs
  /\
  fst (select_sessions_for_analysis cfg seed sample
         (snd (select_sessions_for_analysis cfg seed sample g sessions rs))
         sessions rs)
  = fst (select_sessions_for_analysis cfg seed sample g sessions rs).
Proof.
  split.
  - apply select_seeded.
  - apply (f_equal fst). apply select_seeded.
Qed.

Example select_twice :
  let sessions := [session_neutral; session_abandoned; session_negative] in
  let first := select_sessions_for_analysis settings demo_seed demo_sample
                 0%nat sessions (map demo_result sessions) in
  fst first = Ok [session_negative] /\
  fst (select_sessions_for_analysis settings demo_seed demo_sample (snd first)
         sessions (map demo_result sessions)) = Ok [session_negative].
Proof. split; vm_compute; reflexivity. Qed.

(** ** C7: no duplicates, and the size of the selection *)




(** ** C8: failures of the AI judge stay with their session *)

(** C8, on the code as it is.  In a batch, when the model call for one
    session raises or its answer does not parse, that session's result is a
    degraded record (analyzed = false, score 50), the results of the other
    sessions are those of the same batch in which that call behaves
    differently, the list has one entry per submitted session, and the batch
    returns.  The reason recorded is the failure's own, with one exception:
    when the model call itself raises a JSONDecodeError, the handler of
    analyze_conversation reads [response_text] before it was ever assigned
    and raises in turn, and what the batch records is the message of that
    second exception, whatever the failure said. *)
Theorem analyze_sessions_parallel_isolation
    (strip prompt_of : string -> string)
    (json_loads : string -> Outcome JsonValue)
    (as_completed : list Future -> list Future)
    (generate_content generate_content' : nat -> string -> Outcome string)
    (before after : list Session) (s : Session) (e : exn) :
  (forall l, Permutation (as_completed l) l) ->
  messages s <> [] ->
  generate_content (List.length before) (prompt_for prompt_of s) = Raise e
  \/ (exists text,
        generate_content (List.length before) (prompt_for prompt_of s) = Ok text /\
        json_loads (extract_json strip (strip text)) = Raise e) ->
  (forall n prompt, n <> List.length before ->
     generate_content' n prompt = generate_content n prompt) ->
  let run := analyze_sessions_parallel strip prompt_of json_loads as_completed in
  exists failed others,
    Permutation (run generate_content (before ++ s :: after)%list)
      (failed :: others) /\
    Permutation (run generate_content' (before ++ s :: after)%list)
      (session_result strip prompt_of json_loads
         (generate_content' (List.length before)) s :: others) /\
    List.length (run generate_content (before ++ s :: after)%list)
    = List.length (before ++ s :: after)%list /\
    ai_session_id failed = id s /\ analyzed failed = false /\
    ai_score failed = 50 /\ ai_details failed = None /\
    (generate_content (List.length before) (prompt_for prompt_of s) = Raise e ->
     ai_error failed
     = Some (match e with
             | JSONDecodeError _ => unbound_response_text
             | _ => str_of_exn e
             end)) /\
    (forall text,
       generate_content (List.length before) (prompt_for prompt_of s) = Ok text ->
       ai_error failed = Some (parsing_reason e)).
Proof.
  intros Hperm Hm Hfail Hsame run.
  exists (session_result strip prompt_of json_loads
            (generate_content (List.length before)) s).
  exists (map collect
            (other_futures strip prompt_of json_loads generate_content before after)).
  split; [| split; [| split]].
  - unfold run.
    rewrite (analyze_sessions_parallel_split strip prompt_of json_loads
               as_completed Hperm generate_content before s after).
    reflexivity.
  - unfold run.
    rewrite (analyze_sessions_parallel_split strip prompt_of json_loads
               as_completed Hperm generate_content' before s after).
    rewrite (other_futures_ext strip prompt_of json_loads generate_content'
               generate_content before after Hsame).
    reflexivity.
  - apply analyze_sessions_parallel_length. exact Hperm.
  - destruct Hfail as [H | (text & H1 & H2)].
    + rewrite (session_result_transport_failure strip prompt_of json_loads
                 _ s e Hm H).
      repeat split. intros text Ht. rewrite Ht in H. discriminate H.
    + rewrite (session_result_parsing_failure strip prompt_of json_loads
                 _ s text e Hm H1 H2).
      repeat split. intros Hr. rewrite Hr in H1. discriminate H1.
Qed.

Lemma demo_as_completed_perm : forall l, Permutation (demo_as_completed l) l.
Proof. intros l. symmetry. apply Permutation_rev. Qed.

(** The failing input: the second of three model calls raises a
    JSONDecodeError saying "Expecting value"; the record of its session
    carries the message of the handler's own exception. *)
Lemma analyze_sessions_parallel_isolation_witness :
  let run := analyze_sessions_parallel ascii_strip demo_prompt demo_json_loads
               demo_as_completed in
  let batch := ([session_neutral] ++ session_abandoned :: [session_negative])%list in
  (forall l, Permutation (demo_as_completed l) l) /\
  messages session_abandoned <> [] /\
  demo_calls_decode 1 (prompt_for demo_prompt session_abandoned)
  = Raise (JSONDecodeError "Expecting value") /\
  (forall n prompt, n <> 1%nat -> demo_calls_ok n prompt = demo_calls_decode n prompt) /\
  exists others,
    Permutation (run demo_calls_decode batch)
      (degraded 2 unbound_response_text 50 :: others) /\
    Permutation (run demo_calls_ok batch)
      (demo_judgment (demo_calls_ok 1) session_abandoned :: others) /\
    List.length (run demo_calls_decode batch) = 3%nat.
Proof.
  cbn zeta.
  assert (Hm : messages session_abandoned <> []) by discriminate.
  assert (Hf : demo_calls_decode 1 (prompt_for demo_prompt session_abandoned)
               = Raise (JSONDecodeError "Expecting value")) by reflexivity.
  assert (Hs : forall n prompt, n <> List.length [session_neutral] ->
                 demo_calls_ok n prompt = demo_calls_decode n prompt).
  { intros [| [| n]] prompt Hn; [reflexivity | now elim Hn | reflexivity]. }
  split; [exact demo_as_completed_perm |]. split; [exact Hm |].
  split; [exact Hf |]. split; [exact Hs |].
  destruct (analyze_sessions_parallel_isolation ascii_strip demo_prompt
              demo_json_loads demo_as_completed demo_calls_decode demo_calls_ok
              [session_neutral] [session_negative] session_abandoned
              (JSONDecodeError "Expecting value") demo_as_completed_perm Hm
              (or_introl Hf) Hs)
    as (failed & others & H1 & H2 & H3 & Hid & Han & Hsc & Hde & Hre & _).
  exists others.
  assert (E : failed = degraded 2 unbound_response_text 50).
  { destruct failed as [fid fan fer fsc fde]. cbn in Hid, Han, Hsc, Hde.
    specialize (Hre Hf). cbn in Hre. subst. reflexivity. }
  rewrite <- E. split; [exact H1 |]. split; [exact H2 | exact H3].
Defined.

(** A transport failure of another kind keeps its reason. *)
Example transport_failure_is_degraded :
  demo_judgment reply_timeout session_abandoned
  = degraded 2 "deadline exceeded" 50.
Proof. reflexivity. Qed.

Example parsing_failure_is_degraded :
  demo_judgment reply_garbage session_abandoned
  = degraded 2 "JSON parsing error: Expecting value" 50.
Proof. reflexivity. Qed.

Example batch_of_three :
  map (fun j => (ai_session_id j, analyzed j, ai_score j))
    (analyze_sessions_parallel ascii_strip demo_prompt demo_json_loads
       demo_as_completed demo_calls
       [session_neutral; session_abandoned; session_negative])
  = [(3%Z, true, 10); (2%Z, false, 50); (1%Z, true, 10)].
Proof. reflexivity. Qed.

(** ** C9: the configuration is not validated *)

(** C9, as amended.  ErrorDetector.__init__ checks neither the weights nor
    the thresholds: whatever the configuration, it returns the detector
    carrying them, and it raises only when loading the phrase file raises.
    The shipped settings satisfy the contract (weights summing to 1,
    thresholds within [0,100]). *)
Theorem ErrorDetector_init_accepts (cfg : Settings) :
  (forall lex, ErrorDetector_init cfg (Ok lex) = Ok (detector_of cfg lex)) /\
  (forall e, ErrorDetector_init cfg (Raise e) = Raise e) /\
  valid_configuration settings.
Proof.
  split; [reflexivity |]. split; [reflexivity |]. exact settings_valid.
Qed.

(** C9 as stated fails: with weights summing to 2 and thresholds 170 and
    -40 the detector is built and sessions are scored. *)
Lemma invalid_configuration_accepted :
  ~ valid_configuration bad_settings /\
  ErrorDetector_init bad_settings (Ok demo_lexicon)
  = Ok (detector_of bad_settings demo_lexicon) /\
  (exists r,
     analyze_session ascii_lower ascii_strip no_parser bad_settings
       (detector_of bad_settings demo_lexicon) session_negative = Ok r /\
     has_error r = true) /\
  ~ (~ valid_configuration bad_settings ->
     exists e, ErrorDetector_init bad_settings (Ok demo_lexicon) = Raise e).
Proof.
  assert (Hbad : ~ valid_configuration bad_settings).
  { intros (H & _). vm_compute in H. discriminate H. }
  split; [exact Hbad |]. split; [reflexivity |]. split.
  - eexists. split; vm_compute; reflexivity.
  - intros H. destruct (H Hbad) as (e & He). discriminate He.
Qed.

(** ** C10: recombination leaves the other sessions alone *)

Lemma analyze_session_no_ai lower strip fromisoformat cfg self session r :
  analyze_session lower strip fromisoformat cfg self session = Ok r ->
  ai_attached r = None.
Proof.
  intros H. apply analyze_session_result in H. destruct H as (p & _ & ->).
  reflexivity.
Qed.

(** C10.  A result of the pre-AI ensemble whose session has no analyzed AI
    judgment (a degraded judgment only, or none at all) comes out of
    combine_error_analyses unchanged, at the same position: same
    confidence_score, confidence_level and has_error, and no AI judgment
    attached. *)
Theorem combine_error_analyses_frame
    (lower strip : string -> string) (fromisoformat : string -> option datetime)
    (cfg : Settings) (self : ErrorDetector) (session : Session)
    (basic : Analysis) (ai : option (list AIResult))
    (i : nat) (r : EnsembleResult) :
  analyze_session lower strip fromisoformat cfg self session = Ok r ->
  nth_error (results basic) i = Some r ->
  (forall j, In j (judgments ai) -> ai_session_id j = session_id r ->
             analyzed j = false) ->
  exists r',
    nth_error (results (combine_error_analyses cfg basic ai)) i = Some r' /\
    r' = r /\
    confidence_score r' = confidence_score r /\
    confidence_level r' = confidence_level r /\
    has_error r' = has_error r /\
    ai_attached r' = None.
Proof.
  intros Hr Hi Hdeg. exists r. split.
  - rewrite combine_nth, Hi. cbn [option_map]. f_equal.
    apply combine_result_untouched. exact Hdeg.
  - repeat split; try reflexivity.
    exact (analyze_session_no_ai _ _ _ _ _ _ _ Hr).
Qed.

Lemma combine_error_analyses_frame_witness :
  let j := demo_judgment reply_timeout session_abandoned in
  let r := demo_result session_abandoned in
  exists basic,
    analyze_session ascii_lower ascii_strip no_parser settings demo_detector
      session_abandoned = Ok r /\
    nth_error (results basic) 0 = Some r /\
    (forall j', In j' (judgments (Some [j])) -> ai_session_id j' = session_id r ->
                analyzed j' = false) /\
    exists r',
      nth_error (results (combine_error_analyses settings basic (Some [j]))) 0
        = Some r' /\ r' = r.
Proof.
  cbn zeta.
  destruct analyze_all_sessions_abandoned as (basic & Hb & Hrs).
  assert (Hr : analyze_session ascii_lower ascii_strip no_parser settings
                 demo_detector session_abandoned
               = Ok (demo_result session_abandoned)) by reflexivity.
  assert (Hn : nth_error (results basic) 0 = Some (demo_result session_abandoned))
    by (rewrite Hrs; reflexivity).
  assert (Hd : forall j',
             In j' (judgments (Some [demo_judgment reply_timeout session_abandoned])) ->
             ai_session_id j' = session_id (demo_result session_abandoned) ->
             analyzed j' = false).
  { intros j' [<- | []] _. reflexivity. }
  exists basic. split; [exact Hr |]. split; [exact Hn |]. split; [exact Hd |].
  destruct (combine_error_analyses_frame ascii_lower ascii_strip no_parser settings
              demo_detector session_abandoned basic
              (Some [demo_judgment reply_timeout session_abandoned]) 0
              (demo_result session_abandoned) Hr Hn Hd)
    as (r' & Hr' & Heq & _).
  exists r'. split; [exact Hr' | exact Heq].
Defined.

(* ===================================================================== *)
(** * Further properties of the engine *)
(* ===================================================================== *)

(** ** Behavioral patterns *)

Lemma pattern_name_inj (p q : Pattern) : pattern_name p = pattern_name q -> p = q.
Proof. destruct p, q; cbn; intros H; try reflexivity; discriminate H. Qed.

Lemma In_all_patterns (p : Pattern) : In p all_patterns.
Proof. destruct p; cbn; tauto. Qed.

(** A pattern is reported exactly when its trigger condition holds. *)
Lemma pattern_reported_iff
    (lower strip : string -> string) (fromisoformat : string -> option datetime)
    (cfg : Settings) (session : Session) (p : Pattern) :
  In (pattern_name p)
     (patterns (detect_behavioral_errors lower strip fromisoformat cfg session))
  <-> triggered lower strip fromisoformat cfg session p = true.
Proof.
  unfold detect_behavioral_errors. rewrite behavioral_state_patterns.
  cbn [patterns fst]. unfold triggered_patterns. rewrite in_map_iff. split.
  - intros (q & Hq & Hin). apply pattern_name_inj in Hq. subst q.
    apply filter_In in Hin. apply Hin.
  - intros H. exists p. split; [reflexivity |]. apply filter_In.
    split; [apply In_all_patterns | exact H].
Qed.

Lemma is_status_exclusive (s : Session) (a b : string) :
  a <> b -> is_status s a = true -> is_status s b = true -> False.
Proof.
  unfold is_status. destruct (status s) as [x |]; [| discriminate].
  intros Hab Ha Hb. apply String.eqb_eq in Ha, Hb. congruence.
Qed.

(** X1.  Three pairs of patterns exclude each other: rapid_abandonment and
    stuck_session (the elif), failed_session and no_sentiment_analysis,
    failed_session and stuck_session (one status); so at most four of the
    six patterns are reported for a session. *)
Theorem behavioral_patterns_exclusive
    (lower strip : string -> string) (fromisoformat : string -> option datetime)
    (cfg : Settings) (session : Session) :
  let r := detect_behavioral_errors lower strip fromisoformat cfg session in
  ~ (In "rapid_abandonment" (patterns r) /\ In "stuck_session" (patterns r)) /\
  ~ (In "failed_session" (patterns r) /\ In "no_sentiment_analysis" (patterns r)) /\
  ~ (In "failed_session" (patterns r) /\ In "stuck_session" (patterns r)) /\
  (pattern_count r <= 4)%nat.
Proof.
  cbn zeta.
  pose proof (pattern_reported_iff lower strip fromisoformat cfg session) as R.
  assert (E1 : triggered lower strip fromisoformat cfg session rapid_abandonment = true ->
               triggered lower strip fromisoformat cfg session stuck_session = true ->
               False).
  { cbn [triggered]. destruct (session_duration fromisoformat session) as [d |];
      [| discriminate].
    intros H1 H2. rewrite H1 in H2. discriminate H2. }
  assert (E2 : triggered lower strip fromisoformat cfg session failed_session = true ->
               triggered lower strip fromisoformat cfg session no_sentiment_analysis
               = true -> False).
  { cbn [triggered]. intros H1 H2. apply andb_true_iff in H2. destruct H2 as [_ H2].
    refine (is_status_exclusive session "failed" "active" _ H1 H2). discriminate. }
  assert (E3 : triggered lower strip fromisoformat cfg session failed_session = true ->
               triggered lower strip fromisoformat cfg session stuck_session = true ->
               False).
  { cbn [triggered]. destruct (session_duration fromisoformat session) as [d |];
      [| discriminate].
    intros H1 H2. apply andb_true_iff in H2. destruct H2 as [H2 _].
    apply andb_true_iff in H2. destruct H2 as [_ H2].
    refine (is_status_exclusive session "failed" "active" _ H1 H2). discriminate. }
  split; [| split; [| split]].
  - intros [H1 H2]. apply (R rapid_abandonment) in H1. apply (R stuck_session) in H2.
    exact (E1 H1 H2).
  - intros [H1 H2]. apply (R failed_session) in H1.
    apply (R no_sentiment_analysis) in H2. exact (E2 H1 H2).
  - intros [H1 H2]. apply (R failed_session) in H1. apply (R stuck_session) in H2.
    exact (E3 H1 H2).
  - unfold detect_behavioral_errors. rewrite behavioral_state_patterns.
    cbn [pattern_count fst]. rewrite length_map.
    unfold triggered_patterns, all_patterns. cbn [filter].
    destruct (triggered lower strip fromisoformat cfg session short_conversation);
    destruct (triggered lower strip fromisoformat cfg session rapid_abandonment);
    destruct (triggered lower strip fromisoformat cfg session stuck_session);
    destruct (triggered lower strip fromisoformat cfg session repeated_messages);
    destruct (triggered lower strip fromisoformat cfg session failed_session);
    destruct (triggered lower strip fromisoformat cfg session no_sentiment_analysis);
    cbn [List.length]; try lia;
    try (exfalso; apply E1; reflexivity);
    try (exfalso; apply E2; reflexivity);
    try (exfalso; apply E3; reflexivity).
Qed.

Lemma py_sum_le (xs : list Q) (b : Q) :
  Forall (fun x => x <= b) xs -> py_sum xs <= b * Qnat (List.length xs).
Proof.
  induction 1 as [| x xs Hx _ IH].
  - unfold py_sum, Qnat. cbn [fold_left List.length Z.of_nat].
    change (inject_Z 0) with 0. lra.
  - rewrite py_sum_cons. cbn [List.length].
    unfold Qnat in *. rewrite Nat2Z.inj_succ, <- Z.add_1_r, inject_Z_plus.
    change (inject_Z 1) with 1. lra.
Qed.

Lemma contribution_le_75 lower strip session p :
  contribution lower strip session p <= 75.
Proof.
  destruct p; cbn [contribution]; try lra.
  assert (H : (Z.of_nat (Nat.min (duplicates lower strip session) 3) <= 3)%Z) by lia.
  rewrite Zle_Qle in H. unfold Qnat. change (inject_Z 3) with 3 in H. lra.
Qed.

(** X2.  The behavioral score never exceeds 75, the largest single
    contribution: the cap at 100 is never reached. *)
Theorem behavioral_score_at_most_75
    (lower strip : string -> string) (fromisoformat : string -> option datetime)
    (cfg : Settings) (session : Session) :
  0 <= b_score (detect_behavioral_errors lower strip fromisoformat cfg session) <= 75
  /\ match contributions lower strip fromisoformat cfg session with
     | [] => True
     | cs => Qmin 100 (mean cs) == mean cs
     end.
Proof.
  assert (Hm : forall cs, cs <> [] ->
             cs = contributions lower strip fromisoformat cfg session ->
             0 <= mean cs <= 75).
  { intros cs Hne ->. unfold mean.
    assert (Hlen : 0 < Qnat (List.length
                               (contributions lower strip fromisoformat cfg session))).
    { unfold Qnat. change 0 with (inject_Z 0). rewrite <- Zlt_Qlt.
      destruct (contributions lower strip fromisoformat cfg session);
        [congruence | cbn; lia]. }
    pose proof (py_sum_bounds _ 100
                  (contributions_bounds lower strip fromisoformat cfg session))
      as [H0 _].
    assert (H75 : py_sum (contributions lower strip fromisoformat cfg session)
                  <= 75 * Qnat (List.length
                                  (contributions lower strip fromisoformat cfg session))).
    { apply py_sum_le. unfold contributions. apply Forall_forall.
      intros x Hx. apply in_map_iff in Hx. destruct Hx as (p & <- & _).
      apply contribution_le_75. }
    split; [apply Qle_shift_div_l | apply Qle_shift_div_r]; lra. }
  rewrite detect_behavioral_errors_score.
  destruct (contributions lower strip fromisoformat cfg session) as [| c cs] eqn:E.
  - split; [| exact I]. rewrite (py_round2_inject_Z 0). change (inject_Z 0) with 0. lra.
  - destruct (Hm (c :: cs)) as [H0 H1]; [discriminate | reflexivity |].
    assert (Hmin : Qmin 100 (mean (c :: cs)) == mean (c :: cs))
      by (apply Q.min_r; lra).
    split; [| exact Hmin].
    rewrite Hmin. apply (py_round2_bounds _ 0 75). split; assumption.
Qed.

(** X3.  A session that reached the detector without its messages
    (message_count at most 0, no message list) triggers neither
    short_conversation nor repeated_messages, and its phrase score is 0. *)
Theorem uncorrelated_session_not_penalised
    (lower strip : string -> string) (fromisoformat : string -> option datetime)
    (cfg : Settings) (self : ErrorDetector) (session : Session) :
  (message_count session <= 0)%Z ->
  messages session = [] ->
  let r := detect_behavioral_errors lower strip fromisoformat cfg session in
  ~ In "short_conversation" (patterns r) /\
  ~ In "repeated_messages" (patterns r) /\
  exists p, detect_phrase_errors lower self session = Ok p /\ p_score p = 0.
Proof.
  intros Hc Hm. cbn zeta.
  pose proof (pattern_reported_iff lower strip fromisoformat cfg session) as R.
  split; [| split].
  - intros H. apply (R short_conversation) in H. cbn [triggered] in H.
    apply andb_true_iff in H. destruct H as [H _]. apply Z.ltb_lt in H. lia.
  - intros H. apply (R repeated_messages) in H. cbn [triggered] in H.
    rewrite Hm in H. cbn in H. discriminate H.
  - unfold detect_phrase_errors. rewrite Hm. eexists. split; reflexivity.
Qed.

Lemma uncorrelated_session_not_penalised_witness :
  (message_count session_uncorrelated <= 0)%Z /\
  messages session_uncorrelated = [] /\
  patterns (detect_behavioral_errors ascii_lower ascii_strip no_parser settings
              session_uncorrelated)
  = ["no_sentiment_analysis"] /\
  ~ In "short_conversation"
      (patterns (detect_behavioral_errors ascii_lower ascii_strip no_parser
                   settings session_uncorrelated)).
Proof.
  assert (Hc : (message_count session_uncorrelated <= 0)%Z) by (cbn; lia).
  split; [exact Hc |]. split; [reflexivity |]. split; [reflexivity |].
  exact (proj1 (uncorrelated_session_not_penalised ascii_lower ascii_strip
                  no_parser settings demo_detector session_uncorrelated
                  Hc eq_refl)).
Defined.

Lemma session_duration_none fromisoformat (session : Session) :
  started_at session = None \/ ended_at session = None
  \/ (exists str, started_at session = Some (TsString str)
                  /\ fromisoformat (replace_Z str) = None)
  \/ (exists str, ended_at session = Some (TsString str)
                  /\ fromisoformat (replace_Z str) = None) ->
  session_duration fromisoformat session = None.
Proof.
  unfold session_duration.
  intros [H | [H | [(str & H & Hp) | (str & H & Hp)]]]; rewrite H.
  - reflexivity.
  - rewrite andb_false_r. reflexivity.
  - destruct (ts_truthy (Some (TsString str)) && ts_truthy (ended_at session));
      [| reflexivity].
    destruct (ended_at session); [| reflexivity].
    cbn [as_datetime]. rewrite Hp. reflexivity.
  - destruct (ts_truthy (started_at session) && ts_truthy (Some (TsString str)));
      [| reflexivity].
    destruct (started_at session) as [st |]; [| reflexivity].
    cbn [as_datetime]. rewrite Hp. destruct (as_datetime fromisoformat st); reflexivity.
Qed.

(** X4.  When a timestamp is missing, or is a string that
    datetime.fromisoformat rejects, detection goes on without the two timing
    patterns: neither rapid_abandonment nor stuck_session is reported. *)
Theorem unusable_timestamps_suppress_timing_patterns
    (lower strip : string -> string) (fromisoformat : string -> option datetime)
    (cfg : Settings) (session : Session) :
  started_at session = None \/ ended_at session = None
  \/ (exists str, started_at session = Some (TsString str)
                  /\ fromisoformat (replace_Z str) = None)
  \/ (exists str, ended_at session = Some (TsString str)
                  /\ fromisoformat (replace_Z str) = None) ->
  let r := detect_behavioral_errors lower strip fromisoformat cfg session in
  ~ In "rapid_abandonment" (patterns r) /\ ~ In "stuck_session" (patterns r).
Proof.
  intros H. apply (session_duration_none fromisoformat) in H. cbn zeta.
  pose proof (pattern_reported_iff lower strip fromisoformat cfg session) as R.
  split; intros Hin.
  - apply (R rapid_abandonment) in Hin. cbn [triggered] in Hin.
    rewrite H in Hin. discriminate Hin.
  - apply (R stuck_session) in Hin. cbn [triggered] in Hin.
    rewrite H in Hin. discriminate Hin.
Qed.

Lemma unusable_timestamps_suppress_timing_patterns_witness :
  (exists str, started_at session_bad_timestamp = Some (TsString str)
               /\ no_parser (replace_Z str) = None) /\
  ~ In "rapid_abandonment"
      (patterns (detect_behavioral_errors ascii_lower ascii_strip no_parser
                   settings session_bad_timestamp)) /\
  ~ In "stuck_session"
      (patterns (detect_behavioral_errors ascii_lower ascii_strip no_parser
                   settings session_bad_timestamp)).
Proof.
  assert (H : exists str,
             started_at session_bad_timestamp = Some (TsString str)
             /\ no_parser (replace_Z str) = None)
    by (exists "yesterday"; split; reflexivity).
  split; [exact H |].
  exact (unusable_timestamps_suppress_timing_patterns ascii_lower ascii_strip
           no_parser settings session_bad_timestamp
           (or_intror (or_intror (or_introl H)))).
Defined.

(** The scenario of an active session without messages nor sentiment. *)
Example behavioral_only_no_sentiment :
  detect_behavioral_errors ascii_lower ascii_strip no_parser settings
    session_uncorrelated
  = {| b_score := py_round2 10; patterns := ["no_sentiment_analysis"];
       pattern_count := 1 |}.
Proof. reflexivity. Qed.

(** ** The phrase matcher *)

(** An invariant kept by the body of a loop holds when the loop returns. *)
Lemma for_each_invariant {A S : Type} (P : S -> Prop)
    (body : S -> A -> Outcome S) (xs : list A) :
  (forall st x st', In x xs -> P st -> body st x = Ok st' -> P st') ->
  forall st st', P st -> for_each body xs st = Ok st' -> P st'.
Proof.
  induction xs as [| x xs IH]; intros Hbody st st' HP; cbn [for_each].
  - intros H. injection H as <-. exact HP.
  - destruct (body st x) as [st1 | e] eqn:E; cbn [bind]; [| discriminate].
    apply IH.
    + intros s y s' Hy. apply Hbody. right. exact Hy.
    + apply (Hbody st x st1); [left; reflexivity | exact HP | exact E].
Qed.

Lemma phrase_formula_value lower lex msgs :
  phrase_formula lower lex msgs
  == inject_Z (Z.min 100
                 (10 * Z.of_nat (hits lower lex "error_indicators" msgs)
                  + 15 * Z.of_nat (hits lower lex "frustration_indicators" msgs)
                  + 20 * Z.of_nat (hits lower lex "escalation_phrases" msgs))).
Proof.
  unfold phrase_formula.
  set (e := hits lower lex "error_indicators" msgs).
  set (f := hits lower lex "frustration_indicators" msgs).
  set (g := hits lower lex "escalation_phrases" msgs).
  set (n := (10 * Z.of_nat e + 15 * Z.of_nat f + 20 * Z.of_nat g)%Z).
  assert (Hn : (Qnat e * 1 + Qnat f * (15 # 10) + Qnat g * 2) * 10 == inject_Z n).
  { unfold n, Qnat. rewrite !inject_Z_plus, !inject_Z_mult.
    change (inject_Z 10) with 10. change (inject_Z 15) with 15.
    change (inject_Z 20) with 20. field. }
  rewrite Hn. destruct (Z.min_spec 100 n) as [[Hlt ->] | [Hle ->]].
  - apply Q.min_l. change 100 with (inject_Z 100). rewrite <- Zle_Qle. lia.
  - apply Q.min_r. change 100 with (inject_Z 100). rewrite <- Zle_Qle. lia.
Qed.

Lemma detect_phrase_errors_totals
    (lower : string -> string) (self : ErrorDetector) (session : Session)
    (r : PhraseResult) :
  detect_phrase_errors lower self session = Ok r ->
  total_matches r = List.length (matched_phrases r) /\
  total_matches r
  = (hits lower (error_phrases self) "error_indicators" (messages session)
     + hits lower (error_phrases self) "frustration_indicators" (messages session)
     + hits lower (error_phrases self) "escalation_phrases" (messages session))%nat /\
  (forall c, categories r = Some c ->
     error_indicators c
     = hits lower (error_phrases self) "error_indicators" (messages session) /\
     frustration_indicators c
     = hits lower (error_phrases self) "frustration_indicators" (messages session) /\
     escalation_phrases c
     = hits lower (error_phrases self) "escalation_phrases" (messages session)).
Proof.
  intros Hr. unfold detect_phrase_errors in Hr.
  destruct (messages session) as [| m msgs] eqn:Hm.
  - injection Hr as <-. cbn. repeat split; discriminate.
  - destruct (for_each _ _ _) as [st | e] eqn:E; cbn [bind] in Hr;
      [| discriminate].
    injection Hr as <-.
    destruct (scan_messages_counts lower _ _ _ _ E) as (He & Hf & Hg & Hl).
    cbn [fst snd error_indicators frustration_indicators escalation_phrases
         List.length] in He, Hf, Hg, Hl.
    cbn [total_matches matched_phrases categories].
    split; [reflexivity |]. split; [lia |].
    intros c Hc. injection Hc as <-. repeat split; lia.
Qed.

Lemma detect_phrase_errors_zero
    (lower : string -> string) (self : ErrorDetector) (session : Session)
    (r : PhraseResult) :
  detect_phrase_errors lower self session = Ok r ->
  (p_score r == 0 <-> total_matches r = 0%nat).
Proof.
  intros Hr.
  destruct (detect_phrase_errors_totals lower self session r Hr) as (_ & H2 & _).
  rewrite (detect_phrase_errors_score lower self session r Hr),
          phrase_formula_value, H2.
  change 0 with (inject_Z 0). rewrite inject_Z_injective. lia.
Qed.

(** X5.  The bookkeeping of a phrase result is consistent: total_matches is
    the number of matched phrases recorded and the sum of the three category
    counters, each counter is the hit count of its category, and the score
    is 0 exactly when nothing matched. *)
Theorem phrase_result_consistent
    (lower : string -> string) (self : ErrorDetector) (session : Session)
    (r : PhraseResult) :
  detect_phrase_errors lower self session = Ok r ->
  let h key := hits lower (error_phrases self) key (messages session) in
  total_matches r = List.length (matched_phrases r) /\
  total_matches r
  = (h "error_indicators" + h "frustration_indicators" + h "escalation_phrases")%nat /\
  (forall c, categories r = Some c ->
     error_indicators c = h "error_indicators" /\
     frustration_indicators c = h "frustration_indicators" /\
     escalation_phrases c = h "escalation_phrases") /\
  (p_score r == 0 <-> total_matches r = 0%nat).
Proof.
  intros Hr. cbn zeta.
  destruct (detect_phrase_errors_totals lower self session r Hr) as (H1 & H2 & H3).
  split; [exact H1 |]. split; [exact H2 |]. split; [exact H3 |].
  exact (detect_phrase_errors_zero lower self session r Hr).
Qed.

Lemma phrase_result_consistent_witness :
  exists r,
    detect_phrase_errors ascii_lower demo_detector session_negative = Ok r /\
    total_matches r = 2%nat /\ List.length (matched_phrases r) = 2%nat /\
    ~ p_score r == 0.
Proof.
  destruct (detect_phrase_errors_returns ascii_lower demo_detector session_negative
              demo_lexicon_known) as (r & Hr).
  destruct (phrase_result_consistent ascii_lower demo_detector session_negative r Hr)
    as (H1 & H2 & _ & H4).
  exists r. split; [exact Hr |].
  assert (Ht : total_matches r = 2%nat) by (rewrite H2; reflexivity).
  split; [exact Ht |]. split; [rewrite <- H1; exact Ht |].
  intros H0. apply H4 in H0. rewrite Ht in H0. discriminate H0.
Defined.

Lemma Qnat_le (a b : nat) : (a <= b)%nat -> Qnat a <= Qnat b.
Proof. intros H. unfold Qnat. rewrite <- Zle_Qle. lia. Qed.

(** X6.  More messages never lower the phrase score: the score of a
    conversation extended by further messages is at least the score of the
    conversation. *)
Theorem phrase_score_monotone
    (lower : string -> string) (self : ErrorDetector) (session session' : Session)
    (extra : list Message) (r r' : PhraseResult) :
  messages session' = (messages session ++ extra)%list ->
  detect_phrase_errors lower self session = Ok r ->
  detect_phrase_errors lower self session' = Ok r' ->
  p_score r <= p_score r'.
Proof.
  intros Hm Hr Hr'.
  rewrite (detect_phrase_errors_score lower self session r Hr),
          (detect_phrase_errors_score lower self session' r' Hr'), Hm.
  rewrite !phrase_formula_value, !hits_app. rewrite <- Zle_Qle. lia.
Qed.

Lemma phrase_score_monotone_witness :
  messages session_neutral_longer
  = (messages session_neutral ++ [human "que absurdo"])%list /\
  exists r r',
    detect_phrase_errors ascii_lower demo_detector session_neutral = Ok r /\
    detect_phrase_errors ascii_lower demo_detector session_neutral_longer = Ok r' /\
    p_score r <= p_score r'.
Proof.
  split; [reflexivity |].
  destruct (detect_phrase_errors_returns ascii_lower demo_detector session_neutral
              demo_lexicon_known) as (r & Hr).
  destruct (detect_phrase_errors_returns ascii_lower demo_detector
              session_neutral_longer demo_lexicon_known) as (r' & Hr').
  exists r, r'. split; [exact Hr |]. split; [exact Hr' |].
  exact (phrase_score_monotone ascii_lower demo_detector session_neutral
           session_neutral_longer [human "que absurdo"] r r' eq_refl Hr Hr').
Defined.

Example phrase_score_grows :
  exists r r',
    detect_phrase_errors ascii_lower demo_detector session_neutral = Ok r /\
    detect_phrase_errors ascii_lower demo_detector session_neutral_longer = Ok r' /\
    p_score r == 10 /\ p_score r' == 25.
Proof. do 2 eexists. repeat split; vm_compute; reflexivity. Qed.

(** X7.  The matcher reports nothing it did not find: every recorded match
    is a phrase of the lexicon, under its own category, contained in the
    lowered content of one of the session's messages. *)
Theorem matched_phrases_sound
    (lower : string -> string) (self : ErrorDetector) (session : Session)
    (r : PhraseResult) :
  detect_phrase_errors lower self session = Ok r ->
  Forall (sound_match lower (error_phrases self) (messages session))
         (matched_phrases r).
Proof.
  unfold detect_phrase_errors.
  destruct (messages session) as [| m0 msgs0] eqn:Hm.
  - intros H. injection H as <-. constructor.
  - set (msgs := m0 :: msgs0).
    set (lex := error_phrases self).
    set (P := fun st : PhraseState => Forall (sound_match lower lex msgs) (fst st)).
    destruct (for_each _ _ _) as [st | e] eqn:E; cbn [bind]; [| discriminate].
    intros H. injection H as <-. cbn [matched_phrases].
    refine (for_each_invariant P (scan_message lower lex) msgs _ _ _ _ E);
      [| constructor].
    intros st1 m st1' Hin HP. unfold scan_message.
    destruct (negb (nonempty (lower (content_of m))));
      [intros H; injection H as <-; exact HP |].
    refine (for_each_invariant P _ lex _ _ _ HP).
    intros st2 item st2' Hitem HP2. unfold check_category.
    refine (for_each_invariant P _ (snd item) _ _ _ HP2).
    intros st3 phrase st3' Hphrase HP3. unfold check_phrase.
    destruct (contains (lower phrase) (lower (content_of m))) eqn:Hc;
      [| intros H; injection H as <-; exact HP3].
    destruct (incr_category (fst item) (snd st3)) as [cats | e']; cbn [bind];
      [| discriminate].
    intros H. injection H as <-. unfold P. cbn [fst].
    apply Forall_app. split; [exact HP3 |].
    constructor; [| constructor]. split; cbn.
    + exists item. auto.
    + exists m. auto.
Qed.

Lemma matched_phrases_sound_witness :
  exists r,
    detect_phrase_errors ascii_lower demo_detector session_negative = Ok r /\
    Forall (sound_match ascii_lower demo_lexicon (messages session_negative))
           (matched_phrases r) /\
    map mp_phrase (matched_phrases r) = ["erro"; "erro"].
Proof.
  destruct (detect_phrase_errors_returns ascii_lower demo_detector session_negative
              demo_lexicon_known) as (r & Hr).
  exists r. split; [exact Hr |]. split.
  - exact (matched_phrases_sound ascii_lower demo_detector session_negative r Hr).
  - vm_compute in Hr. injection Hr as <-. reflexivity.
Defined.

(** ** The batch of the basic detection *)

Lemma count_level_partition (rs : list EnsembleResult) :
  (count_level High rs + count_level Medium rs + count_level Low rs
   = List.length rs)%nat.
Proof.
  unfold count_level. induction rs as [| r rs IH]; [reflexivity |].
  cbn [filter]. destruct (confidence_level r); cbn [level_eqb List.length]; lia.
Qed.

Section BasicBatch.

Variable lower : string -> string.
Variable strip : string -> string.
Variable fromisoformat : string -> option datetime.
Variable cfg : Settings.
Variable self : ErrorDetector.

Local Abbreviation analyze_one :=
  (analyze_session lower strip fromisoformat cfg self).
Local Abbreviation step_ := (analyze_step lower strip fromisoformat cfg self).

Lemma analyze_step_result st session st' :
  step_ st session = Ok st' ->
  exists r, analyze_one session = Ok r /\ fst st' = (fst st ++ [r])%list.
Proof.
  unfold analyze_step. destruct (analyze_one session) as [r | e]; cbn [bind];
    [| discriminate].
  intros H. injection H as <-. exists r. split; reflexivity.
Qed.

Lemma analyze_steps_results sessions st st' :
  for_each step_ sessions st = Ok st' ->
  exists rs, fst st' = (fst st ++ rs)%list /\
             Forall2 (fun s r => analyze_one s = Ok r) sessions rs.
Proof.
  revert st. induction sessions as [| s sessions IH]; intros st; cbn [for_each].
  - intros H. injection H as <-. exists []. rewrite app_nil_r.
    split; [reflexivity | constructor].
  - destruct (step_ st s) as [st1 | e] eqn:E; cbn [bind]; [| discriminate].
    intros H. destruct (analyze_step_result _ _ _ E) as (r & Hr & H1).
    destruct (IH st1 H) as (rs & Hrs & HF).
    exists (r :: rs). split.
    + rewrite Hrs, H1, <- app_assoc. reflexivity.
    + constructor; assumption.
Qed.

Lemma analyze_steps_return sessions st :
  Forall (fun s => exists r, analyze_one s = Ok r) sessions ->
  exists st', for_each step_ sessions st = Ok st'.
Proof.
  intros HF. revert st. induction HF as [| s sessions (r & Hr) _ IH]; intros st;
    cbn [for_each].
  - eexists; reflexivity.
  - unfold analyze_step at 1. rewrite Hr. cbn [bind]. apply IH.
Qed.

Lemma analyze_session_id session r :
  analyze_one session = Ok r -> session_id r = id session.
Proof.
  intros H. apply analyze_session_result in H. destruct H as (p & _ & ->).
  reflexivity.
Qed.

Lemma analyze_all_sessions_results sessions basic :
  analyze_all_sessions lower strip fromisoformat cfg self sessions = Ok basic ->
  Forall2 (fun s r => analyze_one s = Ok r) sessions (results basic) /\
  total_sessions basic = List.length sessions /\
  analyzed_sessions basic = List.length (results basic) /\
  high_confidence_errors basic = count_level High (results basic) /\
  medium_confidence_errors basic = count_level Medium (results basic) /\
  low_confidence_errors basic = count_level Low (results basic).
Proof.
  unfold analyze_all_sessions.
  destruct (for_each _ _ _) as [st | e] eqn:E; cbn [bind]; [| discriminate].
  intros H. injection H as <-. cbn.
  destruct (analyze_steps_results _ _ _ E) as (rs & Hrs & HF).
  cbn in Hrs. rewrite Hrs. repeat split; try reflexivity. exact HF.
Qed.

Lemma results_ids sessions rs :
  Forall2 (fun s r => analyze_one s = Ok r) sessions rs ->
  map session_id rs = map id sessions.
Proof.
  induction 1 as [| s r sessions rs Hr _ IH]; [reflexivity |].
  cbn [map]. rewrite IH, (analyze_session_id s r Hr). reflexivity.
Qed.

End BasicBatch.

(** X8.  When analyze_all_sessions returns, it holds one result per
    session, in the order of the sessions and under their identifiers, each
    the result of analyze_session; total_sessions and analyzed_sessions are
    the number of sessions, and the three tier counts add up to it. *)
Theorem analyze_all_sessions_summary
    (lower strip : string -> string) (fromisoformat : string -> option datetime)
    (cfg : Settings) (self : ErrorDetector) (sessions : list Session)
    (basic : Analysis) :
  analyze_all_sessions lower strip fromisoformat cfg self sessions = Ok basic ->
  Forall2 (fun s r => analyze_session lower strip fromisoformat cfg self s = Ok r)
          sessions (results basic) /\
  map session_id (results basic) = map id sessions /\
  total_sessions basic = List.length sessions /\
  analyzed_sessions basic = List.length sessions /\
  (high_confidence_errors basic + medium_confidence_errors basic
   + low_confidence_errors basic = List.length sessions)%nat.
Proof.
  intros H.
  destruct (analyze_all_sessions_results lower strip fromisoformat cfg self
              sessions basic H) as (HF & Ht & Ha & Hh & Hm & Hl).
  pose proof (results_ids lower strip fromisoformat cfg self _ _ HF) as Hids.
  assert (Hlen : List.length (results basic) = List.length sessions).
  { rewrite <- (length_map session_id), Hids. apply length_map. }
  split; [exact HF |]. split; [exact Hids |]. split; [exact Ht |].
  split; [congruence |].
  rewrite Hh, Hm, Hl, count_level_partition. exact Hlen.
Qed.

Lemma analyze_all_sessions_summary_witness :
  exists basic,
    analyze_all_sessions ascii_lower ascii_strip no_parser settings demo_detector
      [session_neutral; session_abandoned; session_negative] = Ok basic /\
    map session_id (results basic) = [1; 2; 3]%Z /\
    total_sessions basic = 3%nat /\ low_confidence_errors basic = 3%nat.
Proof.
  destruct (analyze_all_sessions ascii_lower ascii_strip no_parser settings
              demo_detector [session_neutral; session_abandoned; session_negative])
    as [basic | e] eqn:E; [| vm_compute in E; discriminate E].
  destruct (analyze_all_sessions_summary ascii_lower ascii_strip no_parser settings
              demo_detector _ basic E) as (_ & Hids & Ht & _ & _).
  exists basic. split; [reflexivity |]. split; [exact Hids |].
  split; [exact Ht |].
  vm_compute in E. injection E as <-. reflexivity.
Defined.

(** X9.  The basic detection is all or nothing: analyze_all_sessions
    returns exactly when analyze_session returns for every session; one
    session raising (a matched phrase of an uncounted category) aborts the
    whole batch. *)
Theorem analyze_all_sessions_all_or_nothing
    (lower strip : string -> string) (fromisoformat : string -> option datetime)
    (cfg : Settings) (self : ErrorDetector) (sessions : list Session) :
  (exists basic,
     analyze_all_sessions lower strip fromisoformat cfg self sessions = Ok basic)
  <-> Forall (fun s => exists r,
                analyze_session lower strip fromisoformat cfg self s = Ok r)
             sessions.
Proof.
  split.
  - intros (basic & H).
    destruct (analyze_all_sessions_results lower strip fromisoformat cfg self
                sessions basic H) as (HF & _).
    clear H. induction HF as [| s r ss rs Hr _ IH]; constructor; eauto.
  - intros HF.
    destruct (analyze_steps_return lower strip fromisoformat cfg self sessions
                ([], []) HF) as (st & E).
    unfold analyze_all_sessions. rewrite E. cbn [bind]. eexists; reflexivity.
Qed.

Example one_session_aborts_the_batch :
  analyze_all_sessions ascii_lower ascii_strip no_parser settings
    (detector_of settings [("other", ["absurdo"])])
    [session_neutral; session_neutral_longer; session_negative]
  = Raise (KeyError "other").
Proof. reflexivity. Qed.

Lemma analyze_all_sessions_all_or_nothing_witness :
  Forall (fun s => exists r,
            analyze_session ascii_lower ascii_strip no_parser settings
              demo_detector s = Ok r)
         [session_neutral; session_negative] /\
  exists basic,
    analyze_all_sessions ascii_lower ascii_strip no_parser settings demo_detector
      [session_neutral; session_negative] = Ok basic.
Proof.
  assert (HF : Forall (fun s => exists r,
                         analyze_session ascii_lower ascii_strip no_parser settings
                           demo_detector s = Ok r)
                      [session_neutral; session_negative]).
  { repeat constructor; eexists; vm_compute; reflexivity. }
  split; [exact HF |].
  exact (proj2 (analyze_all_sessions_all_or_nothing ascii_lower ascii_strip
                  no_parser settings demo_detector
                  [session_neutral; session_negative]) HF).
Defined.

(** ** Tiers and the error flag *)

Lemma classify_not_low (h m x : Q) :
  m <= h -> (classify h m x <> Low <-> m <= x).
Proof.
  intros Hmh. unfold classify.
  destruct (Qle_bool h x) eqn:Eh; destruct (Qle_bool m x) eqn:Em.
  - apply Qle_bool_iff in Em. split; [intros _; exact Em | discriminate].
  - apply Qle_bool_iff in Eh. split; [intros _; lra | discriminate].
  - apply Qle_bool_iff in Em. split; [intros _; exact Em | discriminate].
  - split; [congruence |]. intros H. apply Qle_bool_iff in H. congruence.
Qed.

Lemma fge_70_40 (x : float) : fge x 70 = true -> fge x 40 = true.
Proof.
  destruct x as [q | s |]; cbn [fge]; [| exact (fun H => H) | exact (fun H => H)].
  rewrite !Qle_bool_iff. intros H. eapply Qle_trans; [| exact H].
  unfold Qle; cbn; lia.
Qed.

(** X10.  The error flag agrees with the tier.  After recombination (fixed
    70 and 40) a result has has_error exactly when its tier is medium or
    high, whatever the configuration, the result and the judgment: on the
    doubles Python holds whenever the recombination of the result returns
    (the sum may be infinite or NaN), and on exact numbers.  Before it, a
    result of analyze_session has has_error exactly when its tier is medium
    or high as long as the medium threshold does not exceed the high one. *)
Theorem has_error_matches_tier (cfg : Settings) :
  (forall (r r' : Py.Result) (j : Py.Judgment),
     Py.update_result cfg r j = Ok r' ->
     (Py.r_has_error r' = true <-> Py.r_confidence_level r' <> Low)) /\
  (forall (r : EnsembleResult) (j : AIResult),
     has_error (update_result cfg r j) = true
     <-> confidence_level (update_result cfg r j) <> Low) /\
  (forall (lower strip : string -> string)
          (fromisoformat : string -> option datetime)
          (self : ErrorDetector) (session : Session) (r : EnsembleResult),
     analyze_session lower strip fromisoformat cfg self session = Ok r ->
     medium (thresholds self) <= high (thresholds self) ->
     (has_error r = true <-> confidence_level r <> Low)).
Proof.
  split; [| split].
  - intros r r' j H. unfold Py.update_result in H.
    destruct (Py.recombined_score cfg r j) as [c | e]; cbn [bind] in H;
      [| discriminate H].
    injection H as <-. cbn [Py.r_has_error Py.r_confidence_level].
    destruct (fge c 70) eqn:E70.
    + rewrite (fge_70_40 c E70). split; [discriminate | reflexivity].
    + destruct (fge c 40); split; congruence.
  - intros r j. cbn [has_error confidence_level update_result].
    rewrite classify_not_low by (unfold Qle; cbn; lia).
    apply Qle_bool_iff.
  - intros lower strip fromisoformat self session r Hr Hmh.
    destruct (analyze_session_result lower strip fromisoformat cfg self session r Hr)
      as (p & _ & ->).
    cbn [has_error confidence_level].
    rewrite (classify_not_low _ _ _ Hmh). apply Qle_bool_iff.
Qed.

Lemma has_error_matches_tier_witness :
  (exists r',
     Py.update_result settings (Py.of_result (demo_result session_abandoned))
       (Py.demo_judgment reply_score_10 session_abandoned) = Ok r' /\
     (Py.r_has_error r' = true <-> Py.r_confidence_level r' <> Low)) /\
  medium (thresholds demo_detector) <= high (thresholds demo_detector) /\
  analyze_session ascii_lower ascii_strip no_parser settings demo_detector
    session_negative = Ok (demo_result session_negative) /\
  (has_error (demo_result session_negative) = true
   <-> confidence_level (demo_result session_negative) <> Low).
Proof.
  assert (Hmh : medium (thresholds demo_detector) <= high (thresholds demo_detector))
    by (unfold Qle; cbn; lia).
  assert (Hr : analyze_session ascii_lower ascii_strip no_parser settings
                 demo_detector session_negative
               = Ok (demo_result session_negative)) by reflexivity.
  split; [| split; [exact Hmh |]; split; [exact Hr |]].
  - destruct (Py.update_result settings
                (Py.of_result (demo_result session_abandoned))
                (Py.demo_judgment reply_score_10 session_abandoned))
      as [r' | e] eqn:E; [| vm_compute in E; discriminate E].
    exists r'. split; [reflexivity |].
    exact (proj1 (has_error_matches_tier settings) _ r' _ E).
  - exact (proj2 (proj2 (has_error_matches_tier settings)) ascii_lower ascii_strip
             no_parser demo_detector session_negative _ Hr Hmh).
Defined.

(** With the thresholds swapped the two disagree: a high tier without the
    error flag. *)
Example swapped_thresholds_disagree :
  let self := {| error_phrases := demo_lexicon;
                 weights := ERROR_WEIGHTS settings;
                 thresholds := {| high := 10; medium := 40 |} |} in
  exists r,
    analyze_session ascii_lower ascii_strip no_parser settings self
      session_negative = Ok r /\
    confidence_level r = High /\ has_error r = false.
Proof. cbn zeta. eexists. repeat split; vm_compute; reflexivity. Qed.

(** X11.  With the shipped weights and thresholds, sentiment alone never
    flags a session: when no phrase matched and no behavioral pattern
    triggered, the pre-AI score is at most 12.31, the tier is low and
    has_error is false, whatever the sentiment. *)
Theorem sentiment_alone_never_flags
    (lower strip : string -> string) (fromisoformat : string -> option datetime)
    (lex : Lexicon) (session : Session) (r : EnsembleResult) :
  analyze_session lower strip fromisoformat settings (detector_of settings lex)
    session = Ok r ->
  total_matches (phrase_detection r) = 0%nat ->
  patterns (behavioral_results r) = [] ->
  confidence_score r <= 1231 # 100 /\
  confidence_level r = Low /\ has_error r = false.
Proof.
  intros Hr Hp Hb.
  destruct (analyze_session_result lower strip fromisoformat settings
              (detector_of settings lex) session r Hr) as (p & Hdp & ->).
  cbn [phrase_detection behavioral_results confidence_score confidence_level
       has_error] in *.
  assert (Hp0 : p_score p == 0).
  { apply (detect_phrase_errors_zero lower (detector_of settings lex) session p Hdp).
    exact Hp. }
  assert (Hb0 : b_score (detect_behavioral_errors lower strip fromisoformat settings
                           session) == 0).
  { rewrite detect_behavioral_errors_score.
    unfold detect_behavioral_errors in Hb. rewrite behavioral_state_patterns in Hb.
    cbn [patterns fst] in Hb. apply map_eq_nil in Hb.
    unfold contributions. rewrite Hb. exact (py_round2_inject_Z 0). }
  set (score := calculate_combined_score _ _ _ _).
  assert (Hs : score == 1231 # 100 \/ score == 231 # 100 \/ score == 77 # 100).
  { unfold score.
    rewrite calculate_combined_score_average by reflexivity.
    unfold weighted_average. cbn [weights detector_of].
    rewrite Hp0, Hb0.
    destruct (detect_sentiment_errors_cases lower strip session) as [-> | [-> | ->]];
      [left | right; left | right; right]; reflexivity. }
  assert (Hle : score <= 1231 # 100)
    by (destruct Hs as [-> | [-> | ->]]; unfold Qle; cbn; lia).
  assert (H40 : Qle_bool 40 score = false).
  { apply not_true_iff_false. rewrite Qle_bool_iff. intros H.
    assert (H' : 40 <= 1231 # 100) by lra. unfold Qle in H'. cbn in H'. lia. }
  assert (H70 : Qle_bool 70 score = false).
  { apply not_true_iff_false. rewrite Qle_bool_iff. intros H.
    assert (H' : 70 <= 1231 # 100) by lra. unfold Qle in H'. cbn in H'. lia. }
  split; [exact Hle |]. cbn [thresholds detector_of ERROR_THRESHOLDS settings high
                             medium].
  unfold classify. rewrite H70, H40. split; reflexivity.
Qed.

Lemma sentiment_alone_never_flags_witness :
  analyze_session ascii_lower ascii_strip no_parser settings
    (detector_of settings demo_lexicon) session_unhappy
  = Ok (demo_result session_unhappy) /\
  total_matches (phrase_detection (demo_result session_unhappy)) = 0%nat /\
  patterns (behavioral_results (demo_result session_unhappy)) = [] /\
  s_score (sentiment_results (demo_result session_unhappy)) = 80 /\
  confidence_score (demo_result session_unhappy) <= 1231 # 100 /\
  has_error (demo_result session_unhappy) = false.
Proof.
  assert (Hr : analyze_session ascii_lower ascii_strip no_parser settings
                 (detector_of settings demo_lexicon) session_unhappy
               = Ok (demo_result session_unhappy)) by reflexivity.
  assert (Hp : total_matches (phrase_detection (demo_result session_unhappy))
               = 0%nat) by reflexivity.
  assert (Hb : patterns (behavioral_results (demo_result session_unhappy)) = [])
    by reflexivity.
  split; [exact Hr |]. split; [exact Hp |]. split; [exact Hb |].
  split; [reflexivity |].
  destruct (sentiment_alone_never_flags ascii_lower ascii_strip no_parser
              demo_lexicon session_unhappy _ Hr Hp Hb) as (Hs & _ & He).
  split; [exact Hs | exact He].
Defined.

(** ** The selection, within the pipeline *)

Lemma sessions_dict_get_in (sessions : list Session) (k : Z) :
  In k (ids sessions) -> exists s, sessions_dict_get sessions k = Some s.
Proof.
  intros Hin. unfold sessions_dict_get.
  destruct (find _ _) as [s |] eqn:E; [eexists; reflexivity |].
  exfalso. unfold ids in Hin. apply in_map_iff in Hin.
  destruct Hin as (s & Hs & Hin).
  assert (H := find_none _ _ E s). rewrite <- in_rev in H.
  specialize (H Hin). rewrite Hs, Z.eqb_refl in H. discriminate H.
Qed.

Section SelectorPriorities.

Variable cfg : Settings.
Variable RNG : Type.
Variable seed : Z -> RNG.
Variable sample : RNG -> list Session -> nat -> list Session * RNG.

(** The selection starts with the sessions of priorities 1 and 2. *)
Lemma select_priorities_prefix g0 sessions rs :
  exists rest,
    fst (select_priorities seed sample g0 sessions rs)
    = ((results_at_level sessions rs High []
        ++ filter (fun s => has_sentiment s "Negativo"
                            && negb (id_in (id s)
                                       (results_at_level sessions rs High [])))
                  sessions) ++ rest)%list.
Proof.
  unfold select_priorities. cbn zeta. cbn [app].
  destruct (sample (seed 42) _ _) as [ms g1].
  destruct (sample g1 _ _) as [ns g2]. cbn [fst].
  exists (ms ++ ns)%list. rewrite <- !app_assoc. reflexivity.
Qed.

Lemma select_extends_priorities g0 sessions rs selected :
  fst (select_sessions_for_analysis cfg seed sample g0 sessions rs) = Ok selected ->
  exists rest,
    selected = (fst (select_priorities seed sample g0 sessions rs) ++ rest)%list.
Proof.
  unfold select_sessions_for_analysis.
  destruct (select_priorities seed sample g0 sessions rs) as [sel4 g4]. cbn [fst].
  destruct (0 <? _)%Z.
  - destruct (sample g4 _ _) as [out g5].
    destruct sessions; cbn [fst]; [discriminate |].
    intros H. injection H as <-. exists out. reflexivity.
  - destruct sessions; cbn [fst]; [discriminate |].
    intros H. injection H as <-. exists []. rewrite app_nil_r. reflexivity.
Qed.

Lemma select_empty g0 rs :
  fst (select_sessions_for_analysis cfg seed sample g0 [] rs)
  = Raise (Exception "division by zero").
Proof.
  unfold select_sessions_for_analysis.
  destruct (select_priorities seed sample g0 [] rs) as [sel4 g4].
  destruct (0 <? _)%Z; [destruct (sample g4 _ _) as [out g5] |]; reflexivity.
Qed.

End SelectorPriorities.

(** X12.  Priorities 1 and 2 are exhaustive: whenever the selector returns,
    every high-confidence result whose session identifier occurs in the
    population, and every session of sentiment Negativo, has its identifier
    in the selection, whatever the target rate and the random draws. *)
Theorem high_and_negative_always_selected
    (cfg : Settings) (RNG : Type) (seed : Z -> RNG)
    (sample : RNG -> list Session -> nat -> list Session * RNG)
    (g0 : RNG) (sessions : list Session) (rs : list EnsembleResult)
    (selected : list Session) :
  fst (select_sessions_for_analysis cfg seed sample g0 sessions rs) = Ok selected ->
  (forall r, In r rs -> confidence_level r = High ->
             In (session_id r) (ids sessions) ->
             In (session_id r) (ids selected)) /\
  (forall s, In s sessions -> analyse_sentimental s = Some "Negativo" ->
             In (id s) (ids selected)).
Proof.
  intros Hsel.
  destruct (select_extends_priorities cfg RNG seed sample g0 sessions rs selected
              Hsel) as (rest1 & ->).
  destruct (select_priorities_prefix RNG seed sample g0 sessions rs) as (rest2 & ->).
  set (high := results_at_level sessions rs High []).
  assert (Hhigh : forall r, In r rs -> confidence_level r = High ->
                            In (session_id r) (ids sessions) ->
                            In (session_id r) (ids high)).
  { intros r Hr Hl Hin. destruct (sessions_dict_get_in sessions _ Hin) as (s & Hs).
    pose proof (sessions_dict_get_some _ _ _ Hs) as [_ Hid].
    rewrite <- Hid. apply in_map. unfold high, results_at_level.
    apply in_flat_map. exists r. split; [exact Hr |].
    rewrite Hl, Hs. cbn. left. reflexivity. }
  unfold ids in *. split.
  - intros r Hr Hl Hin. rewrite !map_app. apply in_or_app. left.
    apply in_or_app. left. apply in_or_app. left. exact (Hhigh r Hr Hl Hin).
  - intros s Hs Hneg. rewrite !map_app. apply in_or_app. left. apply in_or_app. left.
    apply in_or_app. destruct (id_in (id s) high) eqn:E.
    + left. apply id_in_true_iff in E. exact E.
    + right. apply in_map. apply filter_In. split; [exact Hs |].
      unfold has_sentiment. rewrite Hneg, E. reflexivity.
Qed.

Lemma high_and_negative_always_selected_witness :
  let sessions := [session_neutral; session_abandoned; session_negative] in
  exists selected,
    fst (select_sessions_for_analysis settings demo_seed demo_sample 0%nat sessions
           (map demo_result sessions)) = Ok selected /\
    In session_negative sessions /\
    analyse_sentimental session_negative = Some "Negativo" /\
    In (id session_negative) (ids selected).
Proof.
  cbn zeta.
  destruct (fst (select_sessions_for_analysis settings demo_seed demo_sample 0%nat
                   [session_neutral; session_abandoned; session_negative]
                   (map demo_result
                      [session_neutral; session_abandoned; session_negative])))
    as [selected | e] eqn:E; [| vm_compute in E; discriminate E].
  assert (Hin : In session_negative
                  [session_neutral; session_abandoned; session_negative])
    by (right; right; left; reflexivity).
  exists selected. split; [reflexivity |]. split; [exact Hin |].
  split; [reflexivity |].
  exact (proj2 (high_and_negative_always_selected settings nat demo_seed
                  demo_sample 0%nat _ _ selected E) session_negative Hin eq_refl).
Defined.



(** ** The dictionary of the judgments *)

Lemma find_app_last {A : Type} (f : A -> bool) (l : list A) (x : A) :
  find f (rev (l ++ [x])) = if f x then Some x else find f (rev l).
Proof. rewrite rev_app_distr. reflexivity. Qed.

(** X15.  Among several judgments for one session the last analyzed one
    counts: appending an analyzed judgment makes it the one found for its
    session and leaves the other sessions' lookups alone, and appending a
    degraded judgment changes no lookup. *)
Theorem last_analyzed_judgment_counts (ai : list AIResult) (j : AIResult) (k : Z) :
  (analyzed j = true ->
   ai_results_dict_get (ai ++ [j]) (ai_session_id j) = Some j /\
   (k <> ai_session_id j ->
    ai_results_dict_get (ai ++ [j]) k = ai_results_dict_get ai k)) /\
  (analyzed j = false ->
   ai_results_dict_get (ai ++ [j]) k = ai_results_dict_get ai k).
Proof.
  unfold ai_results_dict_get. rewrite filter_app. cbn [filter]. split.
  - intros Ha. rewrite Ha, !find_app_last, Z.eqb_refl. split; [reflexivity |].
    intros Hk. destruct (Z.eqb_spec (ai_session_id j) k); [congruence | reflexivity].
  - intros Ha. rewrite Ha, app_nil_r. reflexivity.
Qed.

Lemma last_analyzed_judgment_counts_witness :
  let first := demo_judgment reply_score_1000 session_abandoned in
  let last := demo_judgment reply_score_10 session_abandoned in
  analyzed last = true /\
  ai_results_dict_get ([first] ++ [last]) (ai_session_id last) = Some last.
Proof.
  cbn zeta. split; [reflexivity |].
  exact (proj1 (proj1 (last_analyzed_judgment_counts
                         [demo_judgment reply_score_1000 session_abandoned]
                         (demo_judgment reply_score_10 session_abandoned) 0)
                  eq_refl)).
Defined.

(** ** The AI judgments *)

Section Judgments.

Variable strip : string -> string.
Variable prompt_of : string -> string.
Variable json_loads : string -> Outcome JsonValue.

Local Abbreviation result_ := (session_result strip prompt_of json_loads).

Lemma parse_response_id s msgs text r :
  parse_response strip json_loads s msgs text = Ok r -> ai_session_id r = id s.
Proof.
  unfold parse_response.
  destruct (json_loads _) as [[a |] | e]; cbn [bind]; try discriminate.
  intros H. injection H as <-. reflexivity.
Qed.

(** Every recorded judgment carries the identifier of its session. *)
Lemma session_result_id generate_content s :
  ai_session_id (result_ generate_content s) = id s.
Proof.
  unfold session_result, analyze_conversation.
  destruct (messages s) as [| m ms]; [reflexivity |].
  destruct (generate_content _) as [text | e].
  - destruct (parse_response _ _ _ _ _) as [r | e] eqn:E.
    + cbn. exact (parse_response_id _ _ _ _ E).
    + destruct e; reflexivity.
  - destruct e; reflexivity.
Qed.

Lemma collect_submitted gen i sessions f :
  In f (submit_from strip prompt_of json_loads gen i sessions) ->
  In (ai_session_id (collect f)) (ids sessions).
Proof.
  revert i. induction sessions as [| s sessions IH]; intros i; cbn [submit_from].
  - intros [].
  - intros [<- | Hin].
    + left. symmetry. apply (session_result_id (gen i) s).
    + right. exact (IH _ Hin).
Qed.

End Judgments.

(** X16.  A judgment is recorded as analyzed exactly when the session has
    messages, the model call returned and its answer, once stripped of its
    code fence, parsed to a JSON object.  Its score is then the object's
    error_score, or 50 when the key is absent, and it records no error.  It
    always carries the identifier of its session. *)
Theorem judgment_analyzed_iff
    (strip prompt_of : string -> string)
    (json_loads : string -> Outcome JsonValue)
    (generate_content : string -> Outcome string) (s : Session) :
  let j := session_result strip prompt_of json_loads generate_content s in
  ai_session_id j = id s /\
  (analyzed j = true <->
   messages s <> [] /\
   exists text a,
     generate_content (prompt_for prompt_of s) = Ok text /\
     json_loads (extract_json strip (strip text)) = Ok (JObject a)) /\
  (forall text a,
     messages s <> [] ->
     generate_content (prompt_for prompt_of s) = Ok text ->
     json_loads (extract_json strip (strip text)) = Ok (JObject a) ->
     ai_score j = or_default (j_error_score a) 50 /\ ai_error j = None).
Proof.
  cbn zeta. split; [apply session_result_id |].
  unfold session_result, analyze_conversation, prompt_for.
  destruct (messages s) as [| m ms].
  - cbn. split; [| intros text a H; congruence].
    split; [discriminate | intros [H _]; congruence].
  - destruct (generate_content _) as [text | e].
    + unfold parse_response.
      destruct (json_loads (extract_json strip (strip text))) as [[a |] | e] eqn:E;
        cbn [bind].
      * cbn. split.
        -- split; [| reflexivity]. intros _. split; [discriminate |].
           exists text, a. split; [reflexivity | exact E].
        -- intros text' a' _ Ht Hj. injection Ht as <-. rewrite E in Hj.
           injection Hj as <-. split; reflexivity.
      * split.
        -- cbn. split; [discriminate |].
           intros (_ & text' & a & Ht & Hj). injection Ht as <-.
           rewrite E in Hj. discriminate Hj.
        -- intros text' a' _ Ht Hj. injection Ht as <-. rewrite E in Hj.
           discriminate Hj.
      * split.
        -- split; [destruct e; cbn; discriminate |].
           intros (_ & text' & a & Ht & Hj). injection Ht as <-.
           rewrite E in Hj. discriminate Hj.
        -- intros text' a' _ Ht Hj. injection Ht as <-. rewrite E in Hj.
           discriminate Hj.
    + split.
      * split; [destruct e; cbn; discriminate |].
        intros (_ & text' & a & Ht & _). discriminate Ht.
      * intros text' a' _ Ht. discriminate Ht.
Qed.

Lemma judgment_analyzed_iff_witness :
  let j := demo_judgment reply_score_10 session_abandoned in
  messages session_abandoned <> [] /\
  reply_score_10 (prompt_for demo_prompt session_abandoned)
  = Ok "```json {error_score: 10} ```" /\
  demo_json_loads
    (extract_json ascii_strip (ascii_strip "```json {error_score: 10} ```"))
  = Ok (JObject (payload_with_score 10)) /\
  analyzed j = true /\ ai_score j = 10 /\ ai_error j = None.
Proof.
  cbn zeta.
  assert (Hm : messages session_abandoned <> []) by discriminate.
  assert (Ht : reply_score_10 (prompt_for demo_prompt session_abandoned)
               = Ok "```json {error_score: 10} ```") by reflexivity.
  assert (Hj : demo_json_loads
                 (extract_json ascii_strip
                    (ascii_strip "```json {error_score: 10} ```"))
               = Ok (JObject (payload_with_score 10))) by reflexivity.
  split; [exact Hm |]. split; [exact Ht |]. split; [exact Hj |].
  destruct (judgment_analyzed_iff ascii_strip demo_prompt demo_json_loads
              reply_score_10 session_abandoned) as (_ & Hiff & Hscore).
  split.
  - apply Hiff. split; [exact Hm |]. do 2 eexists. split; [exact Ht | exact Hj].
  - exact (Hscore _ _ Hm Ht Hj).
Defined.

(** ** Step 4 of main *)

(** X18.  Only selected sessions are rewritten: when the AI step runs, a
    result whose session was not selected for review comes out unchanged,
    at the same position. *)
Theorem ai_analysis_step_frame
    (strip prompt_of : string -> string)
    (json_loads : string -> Outcome JsonValue)
    (as_completed : list Future -> list Future)
    (cfg : Settings) (RNG : Type) (seed : Z -> RNG)
    (sample : RNG -> list Session -> nat -> list Session * RNG)
    (skip : bool) (key : option string) (g0 : RNG)
    (generate_content : nat -> string -> Outcome string)
    (sessions selected : list Session) (basic : Analysis)
    (i : nat) (r : EnsembleResult) :
  (forall l, Permutation (as_completed l) l) ->
  fst (select_sessions_for_analysis cfg seed sample g0 sessions (results basic))
  = Ok selected ->
  nth_error (results basic) i = Some r ->
  ~ In (session_id r) (ids selected) ->
  nth_error
    (results (fst (ai_analysis_step strip prompt_of json_loads as_completed cfg
                     seed sample skip key g0 generate_content sessions basic))) i
  = Some r.
Proof.
  intros Hperm Hsel Hi Hnot. unfold ai_analysis_step.
  destruct skip; [exact Hi |].
  destruct (ConversationAnalyzer_init None key); [| exact Hi].
  destruct (select_sessions_for_analysis cfg seed sample g0 sessions
              (results basic)) as [[sel | e] g]; cbn [fst] in Hsel |- *;
    [| exact Hi].
  injection Hsel as ->.
  rewrite combine_nth, Hi. cbn [option_map judgments]. f_equal.
  apply combine_result_untouched. intros j Hj Hid. exfalso. apply Hnot.
  unfold analyze_sessions_parallel in Hj. apply in_map_iff in Hj.
  destruct Hj as (f & <- & Hf).
  apply (Permutation_in _ (Hperm _)) in Hf.
  rewrite <- Hid. exact (collect_submitted _ _ _ _ _ _ _ Hf).
Qed.

Lemma ai_analysis_step_frame_witness :
  let sessions := [session_neutral; session_abandoned; session_negative] in
  let basic :=
    {| total_sessions := 3; analyzed_sessions := 3; high_confidence_errors := 0;
       medium_confidence_errors := 0; low_confidence_errors := 3;
       error_categories := []; results := map demo_result sessions;
       methods_used := []; ai_analyzed_sessions := None |} in
  (forall l, Permutation (demo_as_completed l) l) /\
  fst (select_sessions_for_analysis settings demo_seed demo_sample 0%nat sessions
         (results basic)) = Ok [session_negative] /\
  nth_error (results basic) 0 = Some (demo_result session_neutral) /\
  ~ In (session_id (demo_result session_neutral)) (ids [session_negative]) /\
  nth_error
    (results (fst (ai_analysis_step ascii_strip demo_prompt demo_json_loads
                     demo_as_completed settings demo_seed demo_sample false
                     (Some "key") 0%nat demo_calls sessions basic))) 0
  = Some (demo_result session_neutral).
Proof.
  cbn zeta.
  set (sessions := [session_neutral; session_abandoned; session_negative]).
  set (basic := {| total_sessions := 3; analyzed_sessions := 3;
                   high_confidence_errors := 0; medium_confidence_errors := 0;
                   low_confidence_errors := 3; error_categories := [];
                   results := map demo_result sessions; methods_used := [];
                   ai_analyzed_sessions := None |}).
  assert (Hsel : fst (select_sessions_for_analysis settings demo_seed demo_sample
                        0%nat sessions (results basic)) = Ok [session_negative])
    by (vm_compute; reflexivity).
  assert (Hi : nth_error (results basic) 0 = Some (demo_result session_neutral))
    by reflexivity.
  assert (Hn : ~ In (session_id (demo_result session_neutral))
                    (ids [session_negative])).
  { vm_compute. intros [H | []]. discriminate H. }
  split; [exact demo_as_completed_perm |]. split; [exact Hsel |].
  split; [exact Hi |]. split; [exact Hn |].
  exact (ai_analysis_step_frame ascii_strip demo_prompt demo_json_loads
           demo_as_completed settings nat demo_seed demo_sample false (Some "key")
           0%nat demo_calls sessions [session_negative] basic 0
           (demo_result session_neutral) demo_as_completed_perm Hsel Hi Hn).
Defined.

(** ** Stripping the code fence *)

Lemma str_length_append (a b : string) :
  String.length (a ++ b) = (String.length a + String.length b)%nat.
Proof. induction a as [| c a IH]; cbn; [reflexivity | rewrite IH; reflexivity]. Qed.

Lemma str_append_assoc (a b c : string) : (a ++ b) ++ c = a ++ b ++ c.
Proof. induction a as [| x a IH]; cbn; [reflexivity | rewrite IH; reflexivity]. Qed.

Lemma prefix_append (needle rest : string) : prefix needle (needle ++ rest) = true.
Proof.
  induction needle as [| c needle IH]; cbn; [destruct rest; reflexivity |].
  destruct (ascii_dec c c); [exact IH | congruence].
Qed.

Lemma prefix_fence_other (f : string) (c : ascii) (s : string) :
  Ascii.eqb c "`"%char = false -> prefix (String "`"%char f) (String c s) = false.
Proof.
  intros H. cbn [prefix]. destruct (ascii_dec "`"%char c) as [E |]; [| reflexivity].
  subst c. discriminate H.
Qed.

Lemma contains_prefix (needle hay : string) :
  prefix needle hay = true -> contains needle hay = true.
Proof. intros H. destruct hay; cbn [contains]; rewrite H; reflexivity. Qed.

Lemma find_at_prefix (needle hay : string) (pos : Z) :
  prefix needle hay = true -> find_at needle hay pos = pos.
Proof. intros H. destruct hay; cbn [find_at]; rewrite H; reflexivity. Qed.

Lemma contains_skip (pre needle hay : string) :
  contains needle hay = true -> contains needle (pre ++ hay) = true.
Proof.
  intros H. induction pre as [| c pre IH]; [exact H |].
  cbn [append contains]. destruct (prefix _ _); [reflexivity | exact IH].
Qed.

Lemma find_at_skip (pre f hay : string) (pos : Z) :
  no_backtick pre = true ->
  find_at (String "`"%char f) (pre ++ hay) pos
  = find_at (String "`"%char f) hay (pos + Z.of_nat (String.length pre))%Z.
Proof.
  revert pos. induction pre as [| c pre IH]; intros pos Hnb.
  - cbn [append String.length]. f_equal. cbn. lia.
  - cbn [no_backtick] in Hnb. apply andb_true_iff in Hnb.
    destruct Hnb as [Hc Hnb]. apply negb_true_iff in Hc.
    cbn [append find_at]. rewrite (prefix_fence_other f c _ Hc).
    rewrite IH by exact Hnb. f_equal. cbn [String.length]. lia.
Qed.

Lemma contains_fence (pre f rest : string) :
  contains (String "`"%char f) (pre ++ String "`"%char f ++ rest) = true.
Proof. apply contains_skip, contains_prefix, prefix_append. Qed.

Lemma find_at_fence (pre f rest : string) (pos : Z) :
  no_backtick pre = true ->
  find_at (String "`"%char f) (pre ++ String "`"%char f ++ rest) pos
  = (pos + Z.of_nat (String.length pre))%Z.
Proof.
  intros Hnb. rewrite find_at_skip by exact Hnb.
  apply find_at_prefix, prefix_append.
Qed.

Lemma find_at_no_fence (f s : string) (pos : Z) :
  no_backtick s = true -> find_at (String "`"%char f) s pos = (-1)%Z.
Proof.
  revert pos. induction s as [| c s IH]; intros pos Hnb; [reflexivity |].
  cbn [no_backtick] in Hnb. apply andb_true_iff in Hnb.
  destruct Hnb as [Hc Hnb]. apply negb_true_iff in Hc.
  cbn [find_at]. rewrite (prefix_fence_other f c _ Hc). apply IH. exact Hnb.
Qed.

Lemma contains_no_fence (f s : string) :
  no_backtick s = true -> contains (String "`"%char f) s = false.
Proof.
  induction s as [| c s IH]; intros Hnb; [reflexivity |].
  cbn [no_backtick] in Hnb. apply andb_true_iff in Hnb.
  destruct Hnb as [Hc Hnb]. apply negb_true_iff in Hc.
  cbn [contains]. rewrite (prefix_fence_other f c _ Hc). apply IH. exact Hnb.
Qed.

Lemma drop_append (a b : string) : drop (String.length a) (a ++ b) = b.
Proof. induction a as [| c a IH]; cbn; [destruct b; reflexivity | exact IH]. Qed.

Lemma substring_append (a b : string) (m : nat) :
  substring (String.length a) m (a ++ b) = substring 0 m b.
Proof. induction a as [| c a IH]; cbn [String.length append substring]; auto. Qed.

Lemma substring_prefix (b c : string) : substring 0 (String.length b) (b ++ c) = b.
Proof.
  induction b as [| x b IH]; cbn [String.length append substring].
  - destruct c; reflexivity.
  - rewrite IH. reflexivity.
Qed.

(** X19.  The payload survives the code fence: for an answer made of a
    preamble, an opening fence tagged json, a payload, a closing fence and
    anything after it (preamble and payload free of backticks), the text
    handed to json.loads is the stripped payload; an answer without any
    backtick is handed over as it is. *)
Theorem extract_json_fenced (strip : string -> string) (pre body tail : string) :
  no_backtick pre = true ->
  no_backtick body = true ->
  extract_json strip (pre ++ "```json" ++ body ++ "```" ++ tail) = strip body
  /\ extract_json strip body = body.
Proof.
  intros Hpre Hbody. split.
  - unfold extract_json.
    set (text := pre ++ "```json" ++ body ++ "```" ++ tail).
    assert (Hc : contains "```json" text = true)
      by exact (contains_fence pre "``json" (body ++ "```" ++ tail)).
    rewrite Hc.
    assert (Hlen : String.length text
                   = (String.length pre + 7 + String.length body + 3
                      + String.length tail)%nat).
    { unfold text. rewrite !str_length_append. cbn [String.length]. lia. }
    assert (H1 : py_find text "```json" 0 = Z.of_nat (String.length pre)).
    { unfold py_find.
      destruct (Z.ltb_spec (Z.of_nat (String.length text)) 0); [lia |].
      cbn [Z.to_nat drop].
      unfold text. rewrite (find_at_fence pre "``json" _ 0 Hpre). lia. }
    rewrite H1.
    set (start := (Z.of_nat (String.length pre) + 7)%Z).
    assert (Hsplit : text = (pre ++ "```json") ++ body ++ "```" ++ tail)
      by (unfold text; rewrite str_append_assoc; reflexivity).
    assert (Hstart : Z.to_nat start = String.length (pre ++ "```json")).
    { unfold start. rewrite str_length_append. cbn [String.length]. lia. }
    assert (H2 : py_find text "```" start
                 = (start + Z.of_nat (String.length body))%Z).
    { unfold py_find.
      destruct (Z.ltb_spec (Z.of_nat (String.length text)) start);
        [unfold start in *; lia |].
      rewrite Hstart, Hsplit, drop_append.
      exact (find_at_fence body "``" tail start Hbody). }
    rewrite H2. f_equal. unfold py_slice.
    destruct (Z.ltb_spec start 0); [unfold start in *; lia |].
    destruct (Z.ltb_spec (start + Z.of_nat (String.length body)) 0);
      [unfold start in *; lia |].
    rewrite !Z.min_l by (unfold start; lia).
    replace (start + Z.of_nat (String.length body) - start)%Z
      with (Z.of_nat (String.length body)) by lia.
    rewrite Nat2Z.id, Hstart, Hsplit, substring_append.
    apply substring_prefix.
  - unfold extract_json.
    rewrite (contains_no_fence "``json" body Hbody),
            (contains_no_fence "``" body Hbody). reflexivity.
Qed.

Lemma extract_json_fenced_witness :
  no_backtick "Segue a analise: " = true /\
  no_backtick " {error_score: 10} " = true /\
  extract_json ascii_strip
    ("Segue a analise: " ++ "```json" ++ " {error_score: 10} " ++ "```" ++ " fim")
  = "{error_score: 10}".
Proof.
  split; [reflexivity |]. split; [reflexivity |].
  exact (proj1 (extract_json_fenced ascii_strip "Segue a analise: "
                  " {error_score: 10} " " fim" eq_refl eq_refl)).
Defined.

(** X20.  An opening fence that is never closed costs the payload its last
    character: the closing fence is looked up with find, the -1 it returns
    is used as the end of the slice. *)
Theorem extract_json_unclosed (strip : string -> string) (pre body : string) :
  no_backtick pre = true ->
  no_backtick body = true ->
  extract_json strip (pre ++ "```json" ++ body)
  = strip (substring 0 (String.length body - 1) body).
Proof.
  intros Hpre Hbody. unfold extract_json.
  set (text := pre ++ "```json" ++ body).
  assert (Hc : contains "```json" text = true)
    by exact (contains_fence pre "``json" body).
  rewrite Hc.
  assert (Hlen : String.length text
                 = (String.length pre + 7 + String.length body)%nat).
  { unfold text. rewrite !str_length_append. cbn [String.length]. lia. }
  assert (H1 : py_find text "```json" 0 = Z.of_nat (String.length pre)).
  { unfold py_find.
    destruct (Z.ltb_spec (Z.of_nat (String.length text)) 0); [lia |].
    cbn [Z.to_nat drop].
    unfold text. rewrite (find_at_fence pre "``json" _ 0 Hpre). lia. }
  rewrite H1.
  set (start := (Z.of_nat (String.length pre) + 7)%Z).
  assert (Hsplit : text = (pre ++ "```json") ++ body)
    by (unfold text; rewrite str_append_assoc; reflexivity).
  assert (Hstart : Z.to_nat start = String.length (pre ++ "```json")).
  { unfold start. rewrite str_length_append. cbn [String.length]. lia. }
  assert (H2 : py_find text "```" start = (-1)%Z).
  { unfold py_find.
    destruct (Z.ltb_spec (Z.of_nat (String.length text)) start);
      [reflexivity |].
    rewrite Hstart, Hsplit, drop_append.
    exact (find_at_no_fence "``" body start Hbody). }
  rewrite H2. f_equal. unfold py_slice.
  destruct (Z.ltb_spec start 0); [unfold start in *; lia |].
  change (-1 <? 0)%Z with true. cbn iota.
  rewrite Z.min_l by (unfold start; lia).
  rewrite Z.max_r by lia.
  replace (Z.to_nat (Z.of_nat (String.length text) + -1 - start))
    with (String.length body - 1)%nat by (unfold start; lia).
  rewrite Hstart, Hsplit, substring_append. reflexivity.
Qed.

Lemma extract_json_unclosed_witness :
  no_backtick "" = true /\ no_backtick "{error_score: 10}" = true /\
  extract_json ascii_strip ("" ++ "```json" ++ "{error_score: 10}")
  = "{error_score: 10" /\
  demo_judgment (fun _ => Ok "```json{error_score: 10}") session_abandoned
  = degraded 2 "JSON parsing error: Expecting value" 50.
Proof.
  split; [reflexivity |]. split; [reflexivity |]. split; [| reflexivity].
  exact (extract_json_unclosed ascii_strip "" "{error_score: 10}" eq_refl eq_refl).
Defined.

(** ** Recombination in place *)

Lemma update_result_raises_iff (cfg : Settings) (r : Py.Result) (j : Py.Judgment)
    (e : exn) :
  Py.update_result cfg r j = Raise e <-> float_value (Py.j_score j) = Raise e.
Proof.
  unfold Py.update_result, Py.recombined_score, mul_weight.
  destruct (float_value (Py.j_score j)) as [x | e0]; cbn [bind];
    split; intros H; try discriminate H; injection H as <-; reflexivity.
Qed.

Lemma update_result_again (cfg : Settings) (r r' : Py.Result) (j : Py.Judgment) :
  Py.update_result cfg r j = Ok r' -> Py.update_result cfg r' j = Ok r'.
Proof.
  unfold Py.update_result, Py.recombined_score.
  destruct (mul_weight _ _) as [x | e] eqn:E; cbn [bind]; [| discriminate].
  intros H. injection H as <-. reflexivity.
Qed.

Lemma rewritten_fields (cfg : Settings) (ai : list Py.Judgment) (r r' : Py.Result) :
  Py.rewritten cfg ai r r' ->
  Py.r_session_id r' = Py.r_session_id r /\
  Py.r_phrase_detection r' = Py.r_phrase_detection r /\
  Py.r_behavioral_patterns r' = Py.r_behavioral_patterns r /\
  Py.r_sentiment_correlation r' = Py.r_sentiment_correlation r.
Proof.
  unfold Py.rewritten.
  destruct (Py.ai_results_dict_get ai (Py.r_session_id r)) as [j |].
  - apply update_result_session_id.
  - intros ->. repeat split.
Qed.

Lemma Forall2_map_eq {A B C : Type} (R : A -> B -> Prop) (f : A -> C) (g : B -> C)
    (l : list A) (l' : list B) :
  (forall a b, R a b -> g b = f a) -> Forall2 R l l' -> map g l' = map f l.
Proof.
  intros H HF. induction HF as [| a b l l' Hab _ IH]; [reflexivity |].
  cbn [map]. rewrite (H a b Hab), IH. reflexivity.
Qed.

Lemma py_count_level_partition (rs : list Py.Result) :
  (Py.count_level High rs + Py.count_level Medium rs + Py.count_level Low rs
   = List.length rs)%nat.
Proof.
  unfold Py.count_level. induction rs as [| r rs IH]; [reflexivity |].
  cbn [filter]. destruct (Py.r_confidence_level r); cbn [level_eqb List.length]; lia.
Qed.

(** The results as the loop leaves them, whichever way it ends: each one
    rewritten, or left as it was. *)
Lemma update_results_fields (cfg : Settings) (ai : list Py.Judgment)
    (rs : list Py.Result) :
  Forall2 (fun r r' =>
             Py.r_session_id r' = Py.r_session_id r /\
             Py.r_phrase_detection r' = Py.r_phrase_detection r /\
             Py.r_behavioral_patterns r' = Py.r_behavioral_patterns r /\
             Py.r_sentiment_correlation r' = Py.r_sentiment_correlation r)
          rs (fst (Py.update_results cfg ai rs)).
Proof.
  assert (Hid : forall l : list Py.Result,
            Forall2 (fun r r' =>
                       Py.r_session_id r' = Py.r_session_id r /\
                       Py.r_phrase_detection r' = Py.r_phrase_detection r /\
                       Py.r_behavioral_patterns r' = Py.r_behavioral_patterns r /\
                       Py.r_sentiment_correlation r' = Py.r_sentiment_correlation r)
                    l l).
  { induction l; constructor; [repeat split | assumption]. }
  induction rs as [| r rs IH]; cbn [Py.update_results]; [constructor |].
  destruct (Py.ai_results_dict_get ai (Py.r_session_id r)) as [j |] eqn:E.
  - destruct (Py.update_result cfg r j) as [r' | e] eqn:U.
    + destruct (Py.update_results cfg ai rs) as [rest' e']. cbn [fst] in *.
      constructor; [exact (update_result_session_id cfg r r' j U) | exact IH].
    + cbn [fst]. apply Hid.
  - destruct (Py.update_results cfg ai rs) as [rest' e']. cbn [fst] in *.
    constructor; [repeat split | exact IH].
Qed.

Lemma combine_results_eq (cfg : Settings) (basic : Py.ErrorAnalysis)
    (ai : option (list Py.Judgment)) :
  Py.a_results (fst (Py.combine_error_analyses cfg basic ai))
  = fst (Py.update_results cfg (Py.judgments ai) (Py.a_results basic)) /\
  snd (Py.combine_error_analyses cfg basic ai)
  = snd (Py.update_results cfg (Py.judgments ai) (Py.a_results basic)) /\
  Py.a_total_sessions (fst (Py.combine_error_analyses cfg basic ai))
  = Py.a_total_sessions basic.
Proof.
  assert (Hnil : forall rs, Py.update_results cfg [] rs = (rs, None)).
  { induction rs as [| r rs IH]; cbn [Py.update_results]; [reflexivity |].
    cbn. rewrite IH. reflexivity. }
  destruct ai as [[| j0 ai] |]; cbn [Py.combine_error_analyses Py.judgments].
  - rewrite Hnil. repeat split.
  - destruct (Py.update_results cfg (j0 :: ai) (Py.a_results basic)) as [rs [e |]];
      repeat split.
  - rewrite Hnil. repeat split.
Qed.

(** X14.  Recombination keeps the result set in place, whichever way it
    ends: the same sessions in the same order, each with its phrase,
    behavioral and sentiment results untouched, and total_sessions
    unchanged.  When it returns with judgments given, the three tier counts
    are recounted over the results and add up to their number, and
    recombining again with the same judgments returns and changes no result.
    When it raises, it does so at the first result whose analyzed judgment
    has a score that is not a number (or an int beyond the doubles): the
    results before it are rewritten, that one and the later ones are as they
    were, and the tier counts and methods_used are left as they were. *)
Theorem combine_error_analyses_preserves
    (cfg : Settings) (basic : Py.ErrorAnalysis) (ai : option (list Py.Judgment)) :
  let combined := fst (Py.combine_error_analyses cfg basic ai) in
  let raised := snd (Py.combine_error_analyses cfg basic ai) in
  map Py.r_session_id (Py.a_results combined)
  = map Py.r_session_id (Py.a_results basic) /\
  map Py.r_phrase_detection (Py.a_results combined)
  = map Py.r_phrase_detection (Py.a_results basic) /\
  map Py.r_behavioral_patterns (Py.a_results combined)
  = map Py.r_behavioral_patterns (Py.a_results basic) /\
  map Py.r_sentiment_correlation (Py.a_results combined)
  = map Py.r_sentiment_correlation (Py.a_results basic) /\
  Py.a_total_sessions combined = Py.a_total_sessions basic /\
  (raised = None -> Py.judgments ai <> [] ->
   Py.a_high_confidence_errors combined
   = Py.count_level High (Py.a_results combined) /\
   Py.a_medium_confidence_errors combined
   = Py.count_level Medium (Py.a_results combined) /\
   Py.a_low_confidence_errors combined
   = Py.count_level Low (Py.a_results combined) /\
   (Py.a_high_confidence_errors combined + Py.a_medium_confidence_errors combined
    + Py.a_low_confidence_errors combined
    = List.length (Py.a_results basic))%nat) /\
  (raised = None ->
   Py.combine_error_analyses cfg combined ai
   = (fst (Py.combine_error_analyses cfg combined ai), None) /\
   Py.a_results (fst (Py.combine_error_analyses cfg combined ai))
   = Py.a_results combined) /\
  (forall e, raised = Some e ->
     Py.a_high_confidence_errors combined = Py.a_high_confidence_errors basic /\
     Py.a_medium_confidence_errors combined = Py.a_medium_confidence_errors basic /\
     Py.a_low_confidence_errors combined = Py.a_low_confidence_errors basic /\
     Py.a_methods_used combined = Py.a_methods_used basic /\
     exists before before' r j after,
       Py.a_results basic = (before ++ r :: after)%list /\
       Py.a_results combined = (before' ++ r :: after)%list /\
       Forall2 (Py.rewritten cfg (Py.judgments ai)) before before' /\
       Py.ai_results_dict_get (Py.judgments ai) (Py.r_session_id r) = Some j /\
       float_value (Py.j_score j) = Raise e).
Proof.
  cbn zeta.
  destruct (combine_results_eq cfg basic ai) as (Hres & Hsnd & Htot).
  pose proof (update_results_fields cfg (Py.judgments ai) (Py.a_results basic)) as HF.
  rewrite <- Hres in HF.
  split; [apply (Forall2_map_eq _ _ _ _ _ (fun a b H => proj1 H) HF) |].
  split; [apply (Forall2_map_eq _ _ _ _ _ (fun a b H => proj1 (proj2 H)) HF) |].
  split; [apply (Forall2_map_eq _ _ _ _ _ (fun a b H => proj1 (proj2 (proj2 H))) HF) |].
  split; [apply (Forall2_map_eq _ _ _ _ _ (fun a b H => proj2 (proj2 (proj2 H))) HF) |].
  split; [exact Htot |].
  split; [| split].
  - intros Hret Hne.
    assert (Hlen : List.length (Py.a_results (fst (Py.combine_error_analyses cfg basic ai)))
                   = List.length (Py.a_results basic))
      by (symmetry; exact (Forall2_length HF)).
    destruct ai as [[| j0 ai] |]; cbn [Py.judgments] in Hne; try congruence.
    revert Hret Hlen. cbn [Py.combine_error_analyses].
    destruct (Py.update_results cfg (j0 :: ai) (Py.a_results basic)) as [rs [e |]];
      cbn [fst snd]; [discriminate |].
    intros _ Hlen.
    cbn [Py.a_high_confidence_errors Py.a_medium_confidence_errors
         Py.a_low_confidence_errors Py.a_results] in *.
    repeat split. rewrite py_count_level_partition. exact Hlen.
  - intros Hret.
    pose proof (combine_returns_results cfg basic ai Hret) as HR.
    set (combined := fst (Py.combine_error_analyses cfg basic ai)) in *.
    destruct (combine_results_eq cfg combined ai) as (Hres2 & Hsnd2 & _).
    assert (Hagain : Py.update_results cfg (Py.judgments ai) (Py.a_results combined)
                     = (Py.a_results combined, None)).
    { clear - HR. induction HR as [| r r' l l' Hr _ IH]; [reflexivity |].
      cbn [Py.update_results].
      pose proof (rewritten_fields _ _ _ _ Hr) as (Hid & _).
      rewrite Hid. unfold Py.rewritten in Hr.
      destruct (Py.ai_results_dict_get (Py.judgments ai) (Py.r_session_id r))
        as [j |].
      - rewrite (update_result_again cfg r r' j Hr), IH. reflexivity.
      - rewrite IH. reflexivity. }
    rewrite Hagain in Hres2, Hsnd2. cbn [fst snd] in Hres2, Hsnd2.
    split; [| exact Hres2].
    destruct (Py.combine_error_analyses cfg combined ai) as [c2 e2].
    cbn [fst snd] in *. rewrite Hsnd2. reflexivity.
  - intros e He.
    assert (Hcounts :
              Py.a_high_confidence_errors (fst (Py.combine_error_analyses cfg basic ai))
              = Py.a_high_confidence_errors basic /\
              Py.a_medium_confidence_errors (fst (Py.combine_error_analyses cfg basic ai))
              = Py.a_medium_confidence_errors basic /\
              Py.a_low_confidence_errors (fst (Py.combine_error_analyses cfg basic ai))
              = Py.a_low_confidence_errors basic /\
              Py.a_methods_used (fst (Py.combine_error_analyses cfg basic ai))
              = Py.a_methods_used basic).
    { revert He. destruct ai as [[| j0 ai] |]; cbn [Py.combine_error_analyses];
        try (cbn [snd]; discriminate).
      destruct (Py.update_results cfg (j0 :: ai) (Py.a_results basic))
        as [rs [e0 |]]; cbn [fst snd]; [| discriminate].
      intros _. repeat split. }
    destruct Hcounts as (H1 & H2 & H3 & H4).
    split; [exact H1 |]. split; [exact H2 |]. split; [exact H3 |].
    split; [exact H4 |].
    rewrite Hsnd in He.
    destruct (update_results_raises cfg _ _ e He)
      as (b & b' & r & j & a & Hb & Hb' & HF2 & Hj & Hu).
    exists b, b', r, j, a. rewrite Hres.
    repeat split; try assumption.
    apply (update_result_raises_iff cfg r j e). exact Hu.
Qed.

Lemma combine_error_analyses_preserves_witness :
  let basic := Py.of_analysis demo_analysis in
  let ok := Some [Py.demo_judgment Py.reply_score_2 session_neutral] in
  let bad := Some [Py.demo_judgment Py.reply_score_2 session_neutral;
                   Py.demo_judgment Py.reply_score_null session_abandoned;
                   Py.demo_judgment reply_score_10 session_negative] in
  (snd (Py.combine_error_analyses settings basic ok) = None /\
   Py.judgments ok <> [] /\
   (Py.a_high_confidence_errors (fst (Py.combine_error_analyses settings basic ok))
    + Py.a_medium_confidence_errors
        (fst (Py.combine_error_analyses settings basic ok))
    + Py.a_low_confidence_errors (fst (Py.combine_error_analyses settings basic ok))
    = 3)%nat) /\
  (snd (Py.combine_error_analyses settings basic bad)
   = Some (Exception "unsupported operand type(s) for *") /\
   Py.a_low_confidence_errors (fst (Py.combine_error_analyses settings basic bad))
   = Py.a_low_confidence_errors basic /\
   Py.a_methods_used (fst (Py.combine_error_analyses settings basic bad))
   = Py.a_methods_used basic).
Proof.
  cbn zeta. split.
  - assert (Hret : snd (Py.combine_error_analyses settings
                          (Py.of_analysis demo_analysis)
                          (Some [Py.demo_judgment Py.reply_score_2 session_neutral]))
                   = None) by (vm_compute; reflexivity).
    assert (Hne : Py.judgments
                    (Some [Py.demo_judgment Py.reply_score_2 session_neutral])
                  <> []) by (cbn; discriminate).
    split; [exact Hret |]. split; [exact Hne |].
    exact (proj2 (proj2 (proj2
             (proj1 (proj2 (proj2 (proj2 (proj2 (proj2
                (combine_error_analyses_preserves settings
                   (Py.of_analysis demo_analysis)
                   (Some [Py.demo_judgment Py.reply_score_2 session_neutral])))))))
                Hret Hne)))).
  - assert (Hraise : snd (Py.combine_error_analyses settings
                            (Py.of_analysis demo_analysis)
                            (Some [Py.demo_judgment Py.reply_score_2 session_neutral;
                                   Py.demo_judgment Py.reply_score_null
                                     session_abandoned;
                                   Py.demo_judgment reply_score_10 session_negative]))
                     = Some (Exception "unsupported operand type(s) for *"))
      by (vm_compute; reflexivity).
    split; [exact Hraise |].
    destruct (proj2 (proj2 (proj2 (proj2 (proj2 (proj2 (proj2
                (combine_error_analyses_preserves settings
                   (Py.of_analysis demo_analysis)
                   (Some [Py.demo_judgment Py.reply_score_2 session_neutral;
                          Py.demo_judgment Py.reply_score_null session_abandoned;
                          Py.demo_judgment reply_score_10 session_negative]))))))))
                _ Hraise) as (_ & _ & Hlow & Hm & _).
    split; [exact Hlow | exact Hm].
Defined.

(** A null error_score in the second of three judgments: the first result
    is rewritten, the call raises a TypeError, the other two results and the
    tier counts stay as they were. *)
Example recombination_aborts_midway :
  let ai := [Py.demo_judgment Py.reply_score_2 session_neutral;
             Py.demo_judgment Py.reply_score_null session_abandoned;
             Py.demo_judgment reply_score_10 session_negative] in
  let out := Py.combine_error_analyses settings (Py.of_analysis demo_analysis)
               (Some ai) in
  snd out = Some (Exception "unsupported operand type(s) for *") /\
  map (fun r => (Py.r_session_id r, Py.r_ai_analysis r)) (Py.a_results (fst out))
  = [(1%Z, Some (Py.demo_judgment Py.reply_score_2 session_neutral));
     (2%Z, None); (3%Z, None)] /\
  Py.a_low_confidence_errors (fst out) = 3%nat /\
  Py.a_methods_used (fst out) = methods_used demo_analysis.
Proof. cbn zeta. repeat split; vm_compute; reflexivity. Qed.

(** A NaN in the judgment goes through: the stored score is NaN, the tier
    low and the error flag off. *)
Example nan_score_is_stored :
  exists r',
    Py.update_result settings (Py.of_result (demo_result session_abandoned))
      (Py.demo_judgment Py.reply_score_nan session_abandoned) = Ok r' /\
    Py.r_confidence_score r' = NaN /\ Py.r_confidence_level r' = Low /\
    Py.r_has_error r' = false.
Proof. eexists. repeat split; vm_compute; reflexivity. Qed.

(** ** Step 4 of main, on Python's values *)

Lemma combine_ids (cfg : Settings) (basic : Py.ErrorAnalysis)
    (ai : option (list Py.Judgment)) :
  map Py.r_session_id (Py.a_results (fst (Py.combine_error_analyses cfg basic ai)))
  = map Py.r_session_id (Py.a_results basic).
Proof.
  destruct (combine_results_eq cfg basic ai) as (Hres & _).
  rewrite Hres.
  apply (Forall2_map_eq _ _ _ _ _ (fun a b H => proj1 H)
           (update_results_fields cfg (Py.judgments ai) (Py.a_results basic))).
Qed.

Lemma of_analysis_ids (basic : Analysis) :
  map Py.r_session_id (Py.a_results (Py.of_analysis basic))
  = map session_id (results basic).
Proof.
  cbn [Py.of_analysis Py.a_results]. rewrite map_map. reflexivity.
Qed.

(** What step 4 can leave: the analysis as it was, or what
    combine_error_analyses made of it. *)
Lemma ai_analysis_step_cases
    (strip prompt_of : string -> string)
    (json_loads : string -> Outcome Py.JsonValue)
    (as_completed : list Py.Future -> list Py.Future)
    (cfg : Settings) (RNG : Type) (seed : Z -> RNG)
    (sample : RNG -> list Session -> nat -> list Session * RNG)
    (skip : bool) (key : option string) (g0 : RNG)
    (generate_content : nat -> string -> Outcome string)
    (sessions : list Session) (basic : Analysis) :
  let final := fst (Py.ai_analysis_step strip prompt_of json_loads as_completed
                      cfg seed sample skip key g0 generate_content sessions basic) in
  final = Py.of_analysis basic \/
  exists ai, final = fst (Py.combine_error_analyses cfg (Py.of_analysis basic) ai).
Proof.
  cbn zeta. unfold Py.ai_analysis_step. destruct skip; [left; reflexivity |].
  destruct (ConversationAnalyzer_init None key); [| left; reflexivity].
  destruct (select_sessions_for_analysis cfg seed sample g0 sessions
              (results basic)) as [[sel | e] g]; [| left; reflexivity].
  right. eexists. reflexivity.
Qed.

(** X17.  The AI step never loses a session: whatever happens in it, also
    when combine_error_analyses raises after it began to rewrite the
    results, the analysis main goes on with has the results of the same
    sessions in the same order and the same total_sessions.  It is the basic
    analysis itself when the step is skipped, when no API key is set, or
    when the population is empty (the selector then raises). *)
Theorem ai_analysis_step_keeps_sessions
    (strip prompt_of : string -> string)
    (json_loads : string -> Outcome Py.JsonValue)
    (as_completed : list Py.Future -> list Py.Future)
    (cfg : Settings) (RNG : Type) (seed : Z -> RNG)
    (sample : RNG -> list Session -> nat -> list Session * RNG)
    (skip : bool) (key : option string) (g0 : RNG)
    (generate_content : nat -> string -> Outcome string)
    (sessions : list Session) (basic : Analysis) :
  let step := Py.ai_analysis_step strip prompt_of json_loads as_completed cfg seed
                sample in
  map Py.r_session_id
    (Py.a_results (fst (step skip key g0 generate_content sessions basic)))
  = map session_id (results basic) /\
  Py.a_total_sessions (fst (step skip key g0 generate_content sessions basic))
  = total_sessions basic /\
  fst (step true key g0 generate_content sessions basic) = Py.of_analysis basic /\
  fst (step skip None g0 generate_content sessions basic) = Py.of_analysis basic /\
  fst (step skip key g0 generate_content [] basic) = Py.of_analysis basic.
Proof.
  cbn zeta. split; [| split; [| split; [| split]]].
  - destruct (ai_analysis_step_cases strip prompt_of json_loads as_completed cfg
                RNG seed sample skip key g0 generate_content sessions basic)
      as [-> | (ai & ->)].
    + apply of_analysis_ids.
    + rewrite combine_ids. apply of_analysis_ids.
  - destruct (ai_analysis_step_cases strip prompt_of json_loads as_completed cfg
                RNG seed sample skip key g0 generate_content sessions basic)
      as [-> | (ai & ->)]; [reflexivity |].
    destruct (combine_results_eq cfg (Py.of_analysis basic) ai) as (_ & _ & ->).
    reflexivity.
  - reflexivity.
  - unfold Py.ai_analysis_step. destruct skip; reflexivity.
  - unfold Py.ai_analysis_step. destruct skip; [reflexivity |].
    destruct (ConversationAnalyzer_init None key); [| reflexivity].
    pose proof (select_empty cfg RNG seed sample g0 (results basic)) as He.
    destruct (select_sessions_for_analysis cfg seed sample g0 [] (results basic))
      as [[sel | e] g]; [discriminate He | reflexivity].
Qed.

(** Two sessions are selected and judged; the second judgment carries a
    null score.  Recombination rewrites the first result and raises on the
    second; main keeps the analysis half rewritten, its methods_used and
    ai_analyzed_sessions as they were. *)
Example ai_step_keeps_half_rewritten_analysis :
  let final :=
    fst (Py.ai_analysis_step ascii_strip demo_prompt Py.demo_json_loads
           Py.demo_as_completed settings demo_seed demo_sample false (Some "key")
           0%nat Py.demo_calls_null [session_negative; session_unhappy]
           Py.demo_negative) in
  map (fun r => (Py.r_session_id r, Py.r_ai_analysis r)) (Py.a_results final)
  = [(3%Z, Some (Py.demo_judgment Py.reply_score_2 session_negative));
     (7%Z, None)] /\
  Py.a_methods_used final = methods_used Py.demo_negative /\
  Py.a_ai_analyzed_sessions final = None.
Proof. cbn zeta. repeat split; vm_compute; reflexivity. Qed.

(** ** The order of the floats *)

Lemma flt_fle (x y : float) : flt x y = true -> fle x y = true.
Proof.
  destruct x as [a | [|] |], y as [b | [|] |]; cbn; try congruence.
  unfold Qltb. intros H. apply negb_true_iff in H.
  apply Qle_bool_iff. destruct (Qlt_le_dec a b) as [Hl | Hl];
    [apply Qlt_le_weak; exact Hl |].
  apply Qle_bool_iff in Hl. congruence.
Qed.

Lemma not_flt_fle (x y : float) :
  is_nan x = false -> is_nan y = false -> flt x y = false -> fle y x = true.
Proof.
  destruct x as [a | [|] |], y as [b | [|] |]; cbn; try congruence.
  unfold Qltb. intros _ _ H. apply negb_false_iff in H. exact H.
Qed.

Lemma fle_trans (x y z : float) :
  fle x y = true -> fle y z = true -> fle x z = true.
Proof.
  destruct x as [a | [|] |], y as [b | [|] |], z as [c | [|] |]; cbn;
    try congruence.
  rewrite !Qle_bool_iff. apply Qle_trans.
Qed.

(** ** The stand-in for sorted *)

Lemma py_insert_desc_Permutation (x : Py.Result) (l : list Py.Result) :
  Permutation (Py.insert_desc x l) (x :: l).
Proof.
  induction l as [| y l IH]; cbn [Py.insert_desc]; [reflexivity |].
  destruct (flt _ _); [| reflexivity].
  rewrite IH. apply perm_swap.
Qed.

Lemma demo_sorted_Permutation (l : list Py.Result) : Permutation (Py.demo_sorted l) l.
Proof.
  induction l as [| x l IH]; cbn [Py.demo_sorted]; [constructor |].
  rewrite py_insert_desc_Permutation. constructor. exact IH.
Qed.

Lemma py_insert_desc_sorted (x : Py.Result) (l : list Py.Result) :
  is_nan (Py.r_confidence_score x) = false ->
  Forall (fun r => is_nan (Py.r_confidence_score r) = false) l ->
  Py.descending Py.r_confidence_score l ->
  Py.descending Py.r_confidence_score (Py.insert_desc x l).
Proof.
  unfold Py.descending. intros Hx Hl Hs.
  induction Hs as [| y l Hs IH Hy]; cbn [Py.insert_desc].
  - repeat constructor.
  - inversion Hl as [| ? ? Hny Hl']; subst.
    destruct (flt (Py.r_confidence_score x) (Py.r_confidence_score y)) eqn:E.
    + constructor; [exact (IH Hl') |]. apply Forall_forall. intros z Hz.
      apply (Permutation_in _ (py_insert_desc_Permutation x l)) in Hz.
      destruct Hz as [<- | Hz]; [apply flt_fle; exact E |].
      rewrite Forall_forall in Hy. apply Hy. exact Hz.
    + pose proof (not_flt_fle _ _ Hx Hny E) as Hyx.
      constructor; [constructor; assumption |].
      constructor; [exact Hyx |].
      eapply Forall_impl; [| exact Hy]. intros z Hz. cbn in Hz.
      exact (fle_trans _ _ _ Hz Hyx).
Qed.

Lemma demo_sorted_contract : Py.sorted_contract Py.demo_sorted.
Proof.
  intros l. split; [apply demo_sorted_Permutation |].
  induction l as [| x l IH]; cbn [Py.demo_sorted]; intros Hn; [constructor |].
  inversion Hn as [| ? ? Hx Hl]; subst.
  apply py_insert_desc_sorted; [exact Hx | | exact (IH Hl)].
  apply Forall_forall. intros r Hr.
  apply (Permutation_in _ (demo_sorted_Permutation l)) in Hr.
  rewrite Forall_forall in Hl. apply Hl. exact Hr.
Qed.

(** ** The conversation samples *)

Lemma StronglySorted_app_inv {A : Type} (R : A -> A -> Prop) (l1 l2 : list A) :
  StronglySorted R (l1 ++ l2) ->
  StronglySorted R l1 /\ forall a b, In a l1 -> In b l2 -> R a b.
Proof.
  induction l1 as [| x l1 IH]; cbn [app]; intros H.
  - split; [constructor | intros a b []].
  - inversion H as [| ? ? Hs Hx]; subst. destruct (IH Hs) as [H1 H2].
    rewrite Forall_app in Hx. destruct Hx as [Hx1 Hx2]. split.
    + constructor; assumption.
    + intros a b [<- | Ha] Hb.
      * rewrite Forall_forall in Hx2. apply Hx2. exact Hb.
      * apply H2; assumption.
Qed.

Lemma py_find_by_id (rs : list Py.Result) (r : Py.Result) :
  NoDup (map Py.r_session_id rs) -> In r rs ->
  find (fun x => Z.eqb (Py.r_session_id x) (Py.r_session_id r)) rs = Some r.
Proof.
  induction rs as [| a rs IH]; cbn [map find]; intros Hnd Hin; [contradiction |].
  inversion Hnd as [| ? ? Hna Hnd']; subst.
  destruct Hin as [-> | Hin]; [rewrite Z.eqb_refl; reflexivity |].
  destruct (Z.eqb_spec (Py.r_session_id a) (Py.r_session_id r)) as [e |].
  - exfalso. apply Hna. rewrite e. apply in_map. exact Hin.
  - apply IH; assumption.
Qed.

Section SampleFacts.

Variable lead_of : Session -> option Lead.
Variable sessions : list Session.
Variable rs : list Py.Result.

Local Abbreviation sample_at :=
  (fun sid => match sessions_dict_get sessions sid with
              | None => []
              | Some session => [Py.make_sample lead_of rs sid session]
              end).
Local Abbreviation samples_of :=
  (fun top : list Py.Result => flat_map sample_at (map Py.r_session_id top)).

Lemma in_samples (top : list Py.Result) (smp : Py.Sample) :
  In smp (samples_of top) <->
  exists r session, In r top /\
    sessions_dict_get sessions (Py.r_session_id r) = Some session /\
    smp = Py.make_sample lead_of rs (Py.r_session_id r) session.
Proof.
  rewrite in_flat_map. split.
  - intros (sid & Hsid & Hin). apply in_map_iff in Hsid.
    destruct Hsid as (r & <- & Hr).
    destruct (sessions_dict_get sessions (Py.r_session_id r)) as [session |] eqn:E;
      [| contradiction].
    destruct Hin as [<- | []]. exists r, session. auto.
  - intros (r & session & Hr & Hs & ->). exists (Py.r_session_id r).
    split; [apply in_map; exact Hr |]. rewrite Hs. left. reflexivity.
Qed.

Lemma samples_length (top : list Py.Result) :
  (List.length (samples_of top) <= List.length top)%nat.
Proof.
  induction top as [| r top IH]; cbn [map flat_map List.length]; [lia |].
  rewrite length_app.
  destruct (sessions_dict_get sessions (Py.r_session_id r)); cbn [List.length]; lia.
Qed.

Lemma samples_ids_known (top : list Py.Result) :
  (forall r, In r top -> In (Py.r_session_id r) (ids sessions)) ->
  map Py.sample_session_id (samples_of top) = map Py.r_session_id top.
Proof.
  induction top as [| r top IH]; cbn [map flat_map]; intros H; [reflexivity |].
  destruct (sessions_dict_get_in sessions (Py.r_session_id r)) as (s & Hs);
    [apply H; left; reflexivity |].
  rewrite Hs. cbn [app map Py.make_sample Py.sample_session_id].
  rewrite IH; [reflexivity |]. intros r' Hr'. apply H. right. exact Hr'.
Qed.

Lemma samples_ids_NoDup (top : list Py.Result) :
  NoDup (map Py.r_session_id top) ->
  NoDup (map Py.sample_session_id (samples_of top)).
Proof.
  induction top as [| r top IH]; cbn [map flat_map]; intros H; [constructor |].
  inversion H as [| ? ? Hn Hnd]; subst. specialize (IH Hnd).
  destruct (sessions_dict_get sessions (Py.r_session_id r)) as [s |];
    cbn [app map Py.make_sample Py.sample_session_id]; [| exact IH].
  constructor; [| exact IH]. intros Hin. apply Hn.
  apply in_map_iff in Hin. destruct Hin as (smp & Hid & Hin).
  apply in_samples in Hin. destruct Hin as (r' & s' & Hr' & _ & ->).
  cbn [Py.make_sample Py.sample_session_id] in Hid. rewrite <- Hid.
  apply in_map. exact Hr'.
Qed.

Lemma sample_confidence (r : Py.Result) (session : Session) :
  NoDup (map Py.r_session_id rs) -> In r rs ->
  Py.error_confidence (Py.make_sample lead_of rs (Py.r_session_id r) session)
  = Py.r_confidence_score r /\
  Py.error_level (Py.make_sample lead_of rs (Py.r_session_id r) session)
  = Py.r_confidence_level r.
Proof.
  intros Hnd Hin. cbn [Py.make_sample Py.error_confidence Py.error_level].
  rewrite (py_find_by_id rs r Hnd Hin). split; reflexivity.
Qed.

Lemma samples_sorted (top : list Py.Result) :
  NoDup (map Py.r_session_id rs) -> incl top rs ->
  Py.descending Py.r_confidence_score top ->
  Py.descending Py.error_confidence (samples_of top).
Proof.
  intros Hnd Hincl Hs. unfold Py.descending in *.
  induction Hs as [| r top Hs IH Hr]; cbn [map flat_map]; [constructor |].
  assert (Hincl' : incl top rs) by (intros x Hx; apply Hincl; right; exact Hx).
  specialize (IH Hincl').
  destruct (sessions_dict_get sessions (Py.r_session_id r)) as [s |];
    cbn [app]; [| exact IH].
  constructor; [exact IH |]. apply Forall_forall. intros smp Hin.
  apply in_samples in Hin. destruct Hin as (r' & s' & Hr' & _ & ->).
  rewrite (proj1 (sample_confidence r s Hnd (Hincl r (or_introl eq_refl)))).
  rewrite (proj1 (sample_confidence r' s' Hnd (Hincl' r' Hr'))).
  rewrite Forall_forall in Hr. apply Hr. exact Hr'.
Qed.

End SampleFacts.

Lemma py_take_firstn {A : Type} (n : Z) (l : list A) :
  (0 <= n)%Z -> py_take n l = firstn (Z.to_nat n) l.
Proof.
  intros H. unfold py_take. destruct (Z.ltb_spec n 0); [lia | reflexivity].
Qed.

(** X21.  The samples are ranked.  For a non-negative sample size and
    results with distinct session identifiers, generate_conversation_samples
    returns at most sample_size samples with distinct session identifiers,
    each carrying the score and tier of the result of its session and the
    messages of a session with that identifier; when no result has a NaN
    score (sorted then orders the results), the error confidences never
    increase down the list. *)
Theorem generate_conversation_samples_ranked
    (lead_of : Session -> option Lead)
    (sorted_reverse : list Py.Result -> list Py.Result)
    (sessions : list Session) (error_analysis : Py.ErrorAnalysis)
    (sample_size : Z) :
  Py.sorted_contract sorted_reverse ->
  (0 <= sample_size)%Z ->
  NoDup (map Py.r_session_id (Py.a_results error_analysis)) ->
  let samples :=
    Py.generate_conversation_samples lead_of sorted_reverse sessions
      error_analysis sample_size in
  (Z.of_nat (List.length samples) <= sample_size)%Z /\
  NoDup (map Py.sample_session_id samples) /\
  (forall smp, In smp samples ->
     exists r session,
       In r (Py.a_results error_analysis) /\ In session sessions /\
       id session = Py.r_session_id r /\
       Py.sample_session_id smp = Py.r_session_id r /\
       Py.error_confidence smp = Py.r_confidence_score r /\
       Py.error_level smp = Py.r_confidence_level r /\
       Py.sample_messages smp = messages session) /\
  (Forall (fun r => is_nan (Py.r_confidence_score r) = false)
          (Py.a_results error_analysis) ->
   Py.descending Py.error_confidence samples).
Proof.
  intros Hsc Hn Hnd. cbn zeta. unfold Py.generate_conversation_samples.
  rewrite (py_take_firstn _ _ Hn).
  set (rs := Py.a_results error_analysis) in *.
  destruct (Hsc rs) as [Hperm Hdesc].
  set (sorted := sorted_reverse rs) in *.
  set (top := firstn (Z.to_nat sample_size) sorted).
  assert (Hsplit : sorted = (top ++ skipn (Z.to_nat sample_size) sorted)%list)
    by (symmetry; apply firstn_skipn).
  assert (Hincl : incl top rs).
  { intros x Hx. apply (Permutation_in _ Hperm). rewrite Hsplit.
    apply in_or_app. left. exact Hx. }
  assert (Hids : NoDup (map Py.r_session_id top)).
  { assert (H : NoDup (map Py.r_session_id sorted)).
    { apply (Permutation_NoDup (l := map Py.r_session_id rs)); [| exact Hnd].
      symmetry. apply Permutation_map. exact Hperm. }
    rewrite Hsplit, map_app in H. apply NoDup_app_remove_r in H. exact H. }
  split; [| split; [| split]].
  - pose proof (samples_length lead_of sessions rs top) as H1.
    assert (H3 : (List.length top <= Z.to_nat sample_size)%nat).
    { unfold top. rewrite length_firstn. lia. }
    lia.
  - apply samples_ids_NoDup. exact Hids.
  - intros smp Hin. apply in_samples in Hin.
    destruct Hin as (r & session & Hr & Hs & ->).
    destruct (sessions_dict_get_some _ _ _ Hs) as [Hin Hid].
    destruct (sample_confidence lead_of rs r session Hnd (Hincl r Hr))
      as [Hc Hl].
    exists r, session. repeat split; auto.
  - intros Hnan. apply samples_sorted; [exact Hnd | exact Hincl |].
    specialize (Hdesc Hnan). unfold Py.descending in *.
    rewrite Hsplit in Hdesc.
    exact (proj1 (StronglySorted_app_inv _ _ _ Hdesc)).
Qed.

Lemma generate_conversation_samples_ranked_witness :
  let analysis := Py.of_analysis demo_analysis in
  let samples :=
    Py.generate_conversation_samples no_lead Py.demo_sorted
      [session_neutral; session_abandoned; session_negative] analysis 2 in
  Py.sorted_contract Py.demo_sorted /\ (0 <= 2)%Z /\
  NoDup (map Py.r_session_id (Py.a_results analysis)) /\
  Forall (fun r => is_nan (Py.r_confidence_score r) = false)
         (Py.a_results analysis) /\
  map (fun smp => (Py.sample_session_id smp, Py.error_confidence smp)) samples
  = [(3%Z, round64 (2154 # 100)); (2%Z, round64 (1257 # 100))] /\
  Py.descending Py.error_confidence samples.
Proof.
  cbn zeta.
  assert (H0 : (0 <= 2)%Z) by lia.
  assert (Hnd : NoDup (map Py.r_session_id
                         (Py.a_results (Py.of_analysis demo_analysis)))).
  { cbn. repeat constructor; cbn; intuition discriminate. }
  assert (Hnan : Forall (fun r => is_nan (Py.r_confidence_score r) = false)
                   (Py.a_results (Py.of_analysis demo_analysis)))
    by (repeat constructor).
  split; [exact demo_sorted_contract |]. split; [exact H0 |].
  split; [exact Hnd |]. split; [exact Hnan |].
  split; [vm_compute; reflexivity |].
  exact (proj2 (proj2 (proj2
           (generate_conversation_samples_ranked no_lead Py.demo_sorted
              [session_neutral; session_abandoned; session_negative]
              (Py.of_analysis demo_analysis) 2 demo_sorted_contract H0 Hnd)))
           Hnan).
Defined.

(** With a NaN among the scores nothing orders the results: a sort by
    comparisons leaves 5, NaN, 50 as they are, and the samples are not in
    descending order. *)
Example nan_score_breaks_the_ranking :
  let rs := [Py.demo_scored 1 (Finite 5); Py.demo_scored 2 NaN;
             Py.demo_scored 3 (Finite 50)] in
  Py.demo_sorted rs = rs /\
  ~ Py.descending Py.r_confidence_score (Py.demo_sorted rs).
Proof.
  cbn zeta. split; [vm_compute; reflexivity |].
  intros H. inversion H as [| ? ? _ Hall]; subst.
  inversion Hall as [| ? ? _ Hrest]; subst.
  inversion Hrest as [| ? ? H50 _]; subst.
  vm_compute in H50. discriminate H50.
Qed.

(** X22.  The samples are the top of the ranking: when moreover every
    result belongs to a session of the population, the number of samples is
    the smaller of sample_size and the number of results, and, no result
    having a NaN score, no result left out scores higher than a sample. *)
Theorem generate_conversation_samples_top
    (lead_of : Session -> option Lead)
    (sorted_reverse : list Py.Result -> list Py.Result)
    (sessions : list Session) (error_analysis : Py.ErrorAnalysis)
    (sample_size : Z) :
  Py.sorted_contract sorted_reverse ->
  (0 <= sample_size)%Z ->
  NoDup (map Py.r_session_id (Py.a_results error_analysis)) ->
  incl (map Py.r_session_id (Py.a_results error_analysis)) (ids sessions) ->
  let samples :=
    Py.generate_conversation_samples lead_of sorted_reverse sessions
      error_analysis sample_size in
  List.length samples
  = Nat.min (Z.to_nat sample_size) (List.length (Py.a_results error_analysis)) /\
  (Forall (fun r => is_nan (Py.r_confidence_score r) = false)
          (Py.a_results error_analysis) ->
   forall r smp,
     In r (Py.a_results error_analysis) -> In smp samples ->
     ~ In (Py.r_session_id r) (map Py.sample_session_id samples) ->
     fle (Py.r_confidence_score r) (Py.error_confidence smp) = true).
Proof.
  intros Hsc Hn Hnd Hknown. cbn zeta. unfold Py.generate_conversation_samples.
  rewrite (py_take_firstn _ _ Hn).
  set (rs := Py.a_results error_analysis) in *.
  destruct (Hsc rs) as [Hperm Hdesc].
  set (sorted := sorted_reverse rs) in *.
  set (top := firstn (Z.to_nat sample_size) sorted).
  set (rest := skipn (Z.to_nat sample_size) sorted).
  assert (Hsplit : sorted = (top ++ rest)%list)
    by (symmetry; apply firstn_skipn).
  assert (Hincl : incl top rs).
  { intros x Hx. apply (Permutation_in _ Hperm). rewrite Hsplit.
    apply in_or_app. left. exact Hx. }
  assert (Hk : forall r, In r top -> In (Py.r_session_id r) (ids sessions)).
  { intros r Hr. apply Hknown. apply in_map. apply Hincl. exact Hr. }
  pose proof (samples_ids_known lead_of sessions rs top Hk) as Hids.
  split.
  - rewrite <- (length_map Py.sample_session_id), Hids, length_map.
    unfold top. rewrite length_firstn.
    rewrite (Permutation_length Hperm). reflexivity.
  - intros Hnan r smp Hr Hsmp Hout. rewrite Hids in Hout.
    specialize (Hdesc Hnan). unfold Py.descending in Hdesc.
    rewrite Hsplit in Hdesc.
    apply in_samples in Hsmp. destruct Hsmp as (r' & s' & Hr' & _ & ->).
    rewrite (proj1 (sample_confidence lead_of rs r' s' Hnd (Hincl r' Hr'))).
    apply (Permutation_in _ (Permutation_sym Hperm)) in Hr.
    rewrite Hsplit in Hr. apply in_app_or in Hr. destruct Hr as [Hr | Hr].
    + exfalso. apply Hout. apply in_map. exact Hr.
    + exact (proj2 (StronglySorted_app_inv _ _ _ Hdesc) r' r Hr' Hr).
Qed.

Lemma generate_conversation_samples_top_witness :
  let analysis := Py.of_analysis demo_analysis in
  Py.sorted_contract Py.demo_sorted /\ (0 <= 2)%Z /\
  NoDup (map Py.r_session_id (Py.a_results analysis)) /\
  incl (map Py.r_session_id (Py.a_results analysis))
       (ids [session_neutral; session_abandoned; session_negative]) /\
  List.length (Py.generate_conversation_samples no_lead Py.demo_sorted
                 [session_neutral; session_abandoned; session_negative]
                 analysis 2) = 2%nat.
Proof.
  cbn zeta.
  assert (H0 : (0 <= 2)%Z) by lia.
  assert (Hnd : NoDup (map Py.r_session_id
                         (Py.a_results (Py.of_analysis demo_analysis)))).
  { cbn. repeat constructor; cbn; intuition discriminate. }
  assert (Hk : incl (map Py.r_session_id
                       (Py.a_results (Py.of_analysis demo_analysis)))
                    (ids [session_neutral; session_abandoned; session_negative]))
    by (intros k Hk; exact Hk).
  split; [exact demo_sorted_contract |]. split; [exact H0 |].
  split; [exact Hnd |]. split; [exact Hk |].
  exact (proj1 (generate_conversation_samples_top no_lead Py.demo_sorted
                  [session_neutral; session_abandoned; session_negative]
                  (Py.of_analysis demo_analysis) 2 demo_sorted_contract H0 Hnd Hk)).
Defined.

(** A session missing from the population is skipped, not replaced: the
    list of samples is then shorter than both sample_size and the results. *)
Example samples_skip_unknown_sessions :
  map Py.sample_session_id
      (Py.generate_conversation_samples no_lead Py.demo_sorted
         [session_neutral; session_negative] (Py.of_analysis demo_analysis) 2)
  = [3%Z].
Proof. vm_compute. reflexivity. Qed.

(** ** The error rate of the summary *)

Lemma round64_unit_interval (x : Q) (n : Z) :
  0 <= x -> x <= inject_Z n -> (1 <= n)%Z -> (n < 2 ^ 53)%Z ->
  exists y, round64 x = Finite y /\ 0 <= y <= inject_Z n.
Proof.
  intros H0 H1 Hn1 Hn.
  assert (Ha : Qabs x <= inject_Z n) by (apply Qabs_Qle_condition; lra).
  exists (nearest64 x). split; [exact (round64_finite x n Ha Hn) |].
  split; [exact (nearest64_nonneg x H0) |].
  pose proof (nearest64_bounded x n Ha Hn) as Hb.
  apply Qabs_Qle_condition in Hb. lra.
Qed.

Lemma py_error_rate_bounds (a : Py.ErrorAnalysis) :
  (Py.a_high_confidence_errors a + Py.a_medium_confidence_errors a
   <= Py.a_total_sessions a)%nat ->
  exists q, Py.error_rate a = Finite q /\ 0 <= q <= 100.
Proof.
  intros Hle. unfold Py.error_rate.
  destruct (Nat.ltb_spec 0 (Py.a_total_sessions a)) as [Hpos |];
    [| exists 0; split; [reflexivity | lra]].
  unfold true_div.
  set (x := Qnat (Py.a_high_confidence_errors a + Py.a_medium_confidence_errors a)).
  set (t := Qnat (Py.a_total_sessions a)).
  assert (Hx : 0 <= x) by apply Qnat_nonneg.
  assert (Hxt : x <= t) by (apply Qnat_le; exact Hle).
  assert (Ht : 0 < t).
  { unfold t, Qnat. change 0 with (inject_Z 0). rewrite <- Zlt_Qlt. lia. }
  assert (Hq : 0 <= x / t <= 1).
  { split; [apply Qle_shift_div_l | apply Qle_shift_div_r]; lra. }
  destruct (round64_unit_interval (x / t) 1) as (y & Ey & Hy);
    [lra | change (inject_Z 1) with 1; lra | lia | lia |].
  change (inject_Z 1) with 1 in Hy. rewrite Ey. cbn [fmul].
  destruct (round64_unit_interval (y * 100) 100) as (z & Ez & Hz);
    [lra | change (inject_Z 100) with 100; lra | lia | lia |].
  change (inject_Z 100) with 100 in Hz. rewrite Ez. cbn [fround2].
  fold (py_round2 z).
  pose proof (py_round2_bounds z 0 100) as Hr.
  change (inject_Z 0) with 0 in Hr. change (inject_Z 100) with 100 in Hr.
  specialize (Hr Hz).
  destruct (round64_unit_interval (py_round2 z) 100) as (q & Eq & Hq');
    [lra | change (inject_Z 100) with 100; lra | lia | lia |].
  change (inject_Z 100) with 100 in Hq'.
  exists q. split; [exact Eq | exact Hq'].
Qed.

Lemma py_count_errors_le (rs : list Py.Result) :
  (Py.count_level High rs + Py.count_level Medium rs <= List.length rs)%nat.
Proof. pose proof (py_count_level_partition rs). lia. Qed.

Lemma combine_counts (cfg : Settings) (basic : Py.ErrorAnalysis)
    (ai : option (list Py.Judgment)) :
  List.length (Py.a_results basic) = Py.a_total_sessions basic ->
  (Py.a_high_confidence_errors basic + Py.a_medium_confidence_errors basic
   <= Py.a_total_sessions basic)%nat ->
  (Py.a_high_confidence_errors (fst (Py.combine_error_analyses cfg basic ai))
   + Py.a_medium_confidence_errors (fst (Py.combine_error_analyses cfg basic ai))
   <= Py.a_total_sessions (fst (Py.combine_error_analyses cfg basic ai)))%nat.
Proof.
  intros Hlen Hle.
  pose proof (update_results_fields cfg (Py.judgments ai) (Py.a_results basic)) as HF.
  apply Forall2_length in HF.
  destruct ai as [[| j0 ai] |]; cbn [Py.combine_error_analyses Py.judgments] in *;
    try exact Hle.
  destruct (Py.update_results cfg (j0 :: ai) (Py.a_results basic)) as [rs [e |]];
    cbn [fst Py.a_high_confidence_errors Py.a_medium_confidence_errors
         Py.a_total_sessions] in *; [exact Hle |].
  rewrite <- Hlen, HF. apply py_count_errors_le.
Qed.

Lemma count_errors_le (rs : list EnsembleResult) :
  (count_level High rs + count_level Medium rs <= List.length rs)%nat.
Proof. pose proof (count_level_partition rs). lia. Qed.

(** X23.  The error rate of the summary is a percentage: for the analysis
    main hands to the summary (the result of analyze_all_sessions, passed
    through the AI step whatever that step does, a recombination that
    raised midway included), error_rate is a finite float between 0 and
    100, and it is 0 for an empty population. *)
Theorem error_rate_percentage
    (lower strip prompt_of : string -> string)
    (fromisoformat : string -> option datetime)
    (json_loads : string -> Outcome Py.JsonValue)
    (as_completed : list Py.Future -> list Py.Future)
    (cfg : Settings) (self : ErrorDetector) (RNG : Type) (seed : Z -> RNG)
    (sample : RNG -> list Session -> nat -> list Session * RNG)
    (skip : bool) (key : option string) (g0 : RNG)
    (generate_content : nat -> string -> Outcome string)
    (sessions : list Session) (basic : Analysis) :
  analyze_all_sessions lower strip fromisoformat cfg self sessions = Ok basic ->
  let final :=
    fst (Py.ai_analysis_step strip prompt_of json_loads as_completed cfg seed
           sample skip key g0 generate_content sessions basic) in
  (exists q, Py.error_rate final = Finite q /\ 0 <= q <= 100) /\
  (sessions = [] -> Py.error_rate final = Finite 0).
Proof.
  intros Hb. cbn zeta.
  destruct (analyze_all_sessions_results lower strip fromisoformat cfg self
              sessions basic Hb) as (HF & Ht & _ & Hh & Hm & _).
  assert (Hlen : List.length (results basic) = total_sessions basic).
  { rewrite Ht. symmetry. exact (Forall2_length HF). }
  assert (Hle : (high_confidence_errors basic + medium_confidence_errors basic
                 <= total_sessions basic)%nat).
  { rewrite Hh, Hm, <- Hlen. apply count_errors_le. }
  set (final := fst (Py.ai_analysis_step _ _ _ _ _ _ _ _ _ _ _ _ _)).
  assert (Hfinal :
            (Py.a_high_confidence_errors final + Py.a_medium_confidence_errors final
             <= Py.a_total_sessions final)%nat /\
            Py.a_total_sessions final = total_sessions basic).
  { destruct (ai_analysis_step_cases strip prompt_of json_loads as_completed cfg
                RNG seed sample skip key g0 generate_content sessions basic)
      as [E | (ai & E)]; fold final in E; rewrite E.
    - split; [exact Hle | reflexivity].
    - split.
      + apply combine_counts; [| exact Hle].
        cbn [Py.of_analysis Py.a_results Py.a_total_sessions].
        rewrite length_map. exact Hlen.
      + destruct (combine_results_eq cfg (Py.of_analysis basic) ai) as (_ & _ & ->).
        reflexivity. }
  split; [apply py_error_rate_bounds; exact (proj1 Hfinal) |].
  intros ->. unfold Py.error_rate. rewrite (proj2 Hfinal), Ht. reflexivity.
Qed.

Lemma error_rate_percentage_witness :
  exists basic q,
    analyze_all_sessions ascii_lower ascii_strip no_parser settings demo_detector
      [session_negative; session_unhappy] = Ok basic /\
    Py.error_rate
      (fst (Py.ai_analysis_step ascii_strip demo_prompt Py.demo_json_loads
              Py.demo_as_completed settings demo_seed demo_sample false
              (Some "key") 0%nat Py.demo_calls_null
              [session_negative; session_unhappy] basic)) = Finite q /\
    0 <= q <= 100.
Proof.
  destruct (analyze_all_sessions ascii_lower ascii_strip no_parser settings
              demo_detector [session_negative; session_unhappy])
    as [basic | e] eqn:E; [| vm_compute in E; discriminate E].
  destruct (proj1 (error_rate_percentage ascii_lower ascii_strip demo_prompt
                     no_parser Py.demo_json_loads Py.demo_as_completed settings
                     demo_detector nat demo_seed demo_sample false (Some "key")
                     0%nat Py.demo_calls_null [session_negative; session_unhappy]
                     basic E)) as (q & Hq & Hr).
  exists basic, q. split; [reflexivity |]. split; [exact Hq | exact Hr].
Defined.

(** The rate is rounded as the float it is: 23 errors in 160 sessions give
    14.374999999999998 and a rate of 14.37, where the exact quotient 14.375
    would round to 14.38. *)
Example error_rate_rounds_the_float :
  Py.error_rate
    {| Py.a_total_sessions := 160; Py.a_analyzed_sessions := 160;
       Py.a_high_confidence_errors := 3; Py.a_medium_confidence_errors := 20;
       Py.a_low_confidence_errors := 137; Py.a_error_categories := [];
       Py.a_results := []; Py.a_methods_used := [];
       Py.a_ai_analyzed_sessions := None |}
  = round64 (1437 # 100) /\
  py_round2 (Qnat 23 / Qnat 160 * 100) == 1438 # 100.
Proof. split; vm_compute; reflexivity. Qed.
